(** * Kikuchi pattern simulator: a shallow embedding

    This development embeds [kikuchipy.simulations.kikuchi_pattern_simulator]
    and proves properties of [calculate_master_pattern], [on_detector] and
    their helpers [_get_pattern] and [_get_coordinates_in_upper_hemisphere].

    Modelling conventions.
    - float64 values are modelled as real numbers ([R]); rounding, NaN and
      overflow are not modelled.  Comparisons of floats are the decidable
      comparisons of [R] turned into booleans.
    - Miller indices (hkl, uvw) hold integer values and are modelled as
      triplets of [Z].
    - An n-dimensional array with leading navigation axes is a shape together
      with its row-major buffer ([nav]).
    - Python exceptions are values carrying their class name; lazy dask
      evaluation is made visible by a trace of materialisation events. *)

From Stdlib Require Import Reals Lra Lia ZArith Ascii String List Bool Arith.
Import ListNotations.

Set Implicit Arguments.

Local Open Scope R_scope.

(** ** Boolean comparisons on reals *)

Definition Rleb (x y : R) : bool := if Rle_dec x y then true else false.
Definition Rltb (x y : R) : bool := if Rlt_dec x y then true else false.

(** ** Vectors, matrices and complex numbers *)

Record vec3 : Type := Vec3 { vx : R; vy : R; vz : R }.

(** A 3x3 matrix, stored by rows. *)
Record mat3 : Type := Mat3 { row0 : vec3; row1 : vec3; row2 : vec3 }.

Definition dot (a b : vec3) : R := vx a * vx b + vy a * vy b + vz a * vz b.

Definition col0 (m : mat3) : vec3 := Vec3 (vx (row0 m)) (vx (row1 m)) (vx (row2 m)).
Definition col1 (m : mat3) : vec3 := Vec3 (vy (row0 m)) (vy (row1 m)) (vy (row2 m)).
Definition col2 (m : mat3) : vec3 := Vec3 (vz (row0 m)) (vz (row1 m)) (vz (row2 m)).

(** [m.T] *)
Definition transpose (m : mat3) : mat3 := Mat3 (col0 m) (col1 m) (col2 m).

(** Row vector times matrix: [np.matmul(v, m)] for [v] of shape (3,). *)
Definition vecmat (v : vec3) (m : mat3) : vec3 :=
  Vec3 (dot v (col0 m)) (dot v (col1 m)) (dot v (col2 m)).

(** [np.matmul(a, b)] for two (3, 3) arrays. *)
Definition matmul (a b : mat3) : mat3 :=
  Mat3 (vecmat (row0 a) b) (vecmat (row1 a) b) (vecmat (row2 a) b).

(** Python complex numbers. *)
Record complex : Type := Cplx { re : R; im : R }.

Definition Cmul (a b : complex) : complex :=
  Cplx (re a * re b - im a * im b) (re a * im b + im a * re b).

Definition conjugate (a : complex) : complex := Cplx (re a) (- im a).

(** [abs(z)] *)
Definition Cabs (a : complex) : R := sqrt (re a * re a + im a * im a).

(** ** Exceptions and the evaluation monad *)

(** A raised Python exception: its class and its message. *)
Record exn : Type := Exn { exn_class : string; exn_msg : string }.

Definition ValueError (msg : string) : exn := Exn "ValueError" msg.
Definition IndexError (msg : string) : exn := Exn "IndexError" msg.
Definition TypeError (msg : string) : exn := Exn "TypeError" msg.
Definition AttributeError (msg : string) : exn := Exn "AttributeError" msg.

(** Points at which a lazily built dask graph is executed. *)
Inductive event : Type :=
| EvStore (n_sources : nat)   (* da.store(sources, target) *)
| EvCompute (n_arrays : nat). (* x.compute() / da.compute([...]) *)

Inductive result (A : Type) : Type :=
| Ok (a : A)
| Raise (e : exn).
Arguments Ok {A} a.
Arguments Raise {A} e.

(** A computation threads the trace of materialisations and may raise. *)
Definition M (A : Type) : Type := list event -> result A * list event.

Definition ret {A} (a : A) : M A := fun tr => (Ok a, tr).
Definition raise {A} (e : exn) : M A := fun tr => (Raise e, tr).
Definition emit (ev : event) : M unit := fun tr => (Ok tt, tr ++ [ev]).
Definition bind {A B} (m : M A) (k : A -> M B) : M B :=
  fun tr => match m tr with
            | (Ok a, tr') => k a tr'
            | (Raise e, tr') => (Raise e, tr')
            end.
Definition run {A} (m : M A) (tr : list event) : result A * list event := m tr.

Declare Scope monad_scope.
Delimit Scope monad_scope with monad.
Notation "x <- m ;; k" := (bind m (fun x => k))
  (at level 61, m at next level, right associativity) : monad_scope.
Notation "m ;;; k" := (bind m (fun _ => k))
  (at level 61, right associativity) : monad_scope.
Local Open Scope monad_scope.

(** Monadic map over a list, left to right. *)
Fixpoint mapM {A B} (f : A -> M B) (l : list A) : M (list B) :=
  match l with
  | [] => ret []
  | a :: l' => b <- f a ;; bs <- mapM f l' ;; ret (b :: bs)
  end.

(** ** Generic list helpers mirroring numpy idioms *)

(** Elementwise binary operation on two arrays of equal length. *)
Fixpoint map2 {A B C} (f : A -> B -> C) (l1 : list A) (l2 : list B) : list C :=
  match l1, l2 with
  | a :: l1', b :: l2' => f a b :: map2 f l1' l2'
  | _, _ => []
  end.

(** [a[mask]] for a boolean mask along the indexed axis. *)
Fixpoint mask_select {A} (mask : list bool) (l : list A) : list A :=
  match mask, l with
  | b :: mask', a :: l' => if b then a :: mask_select mask' l' else mask_select mask' l'
  | _, _ => []
  end.

(** Split the rows of an array into blocks of [n] rows, as dask does for
    [chunks=(n, -1)].  [fuel] bounds the number of blocks. *)
Fixpoint chunk_rows_fuel {A} (fuel n : nat) (l : list A) : list (list A) :=
  match fuel with
  | O => []
  | S fuel' =>
      match l with
      | [] => []
      | _ :: _ => firstn n l :: chunk_rows_fuel fuel' n (skipn n l)
      end
  end.

Definition chunk_rows {A} (n : nat) (l : list A) : list (list A) :=
  chunk_rows_fuel (length l) n l.

(** [flat.reshape((nrows, ncols))] *)
Definition reshape2 {A} (nrows ncols : nat) (flat : list A) : list (list A) :=
  map (fun r => firstn ncols (skipn (r * ncols) flat)) (seq 0 nrows).

(** [np.sum(vals, where=mask)] along one row. *)
Definition sum_where (vals : list R) (mask : list bool) : R :=
  fold_right Rplus 0 (map2 (fun v (m : bool) => if m then v else 0) vals mask).

Definition Rsum (l : list R) : R := fold_right Rplus 0 l.

(** ** Crystallographic data *)

(** An index triplet (hkl) or (uvw). *)
Record idx3 : Type := Idx3 { i1 : Z; i2 : Z; i3 : Z }.

Definition idx3_to_vec (v : idx3) : vec3 := Vec3 (IZR (i1 v)) (IZR (i2 v)) (IZR (i3 v)).

(** [diffpy.structure.Lattice]: direct and reciprocal base matrices. *)
Record Lattice : Type := { base : mat3; recbase : mat3 }.
Record Structure : Type := { lattice : Lattice }.
Record Phase : Type := { phase_name : string; structure : Structure }.

(** One reciprocal lattice vector with its optional derived attributes. *)
Record Reflector : Type := {
  hkl : idx3;
  unit_direction : vec3;
  structure_factor : option complex;
  theta : option R
}.

(** [diffsims.crystallography.ReciprocalLatticeVector], flattened. *)
Record ReciprocalLatticeVector : Type := {
  rlv_phase : Phase;
  vectors : list Reflector
}.

Record KikuchiPatternSimulator : Type := { _reflectors : ReciprocalLatticeVector }.

Definition reflectors (self : KikuchiPatternSimulator) : ReciprocalLatticeVector :=
  _reflectors self.

Definition phase (self : KikuchiPatternSimulator) : Phase :=
  rlv_phase (_reflectors self).

(** The array held by a master pattern: one hemisphere or two stacked. *)
Inductive ndarray : Type :=
| Arr2 (rows : list (list R))
| Arr3 (slices : list (list (list R))).

Record EBSDMasterPattern : Type := {
  mp_data : ndarray;
  mp_phase : Phase;
  mp_hemisphere : string;
  mp_projection : string;
  mp_mode : string
}.

(** ** The interface consumed from orix *)

Class Orix : Type := {
  Rotation : Type;
  (** [Rotation.from_axes_angles(axis, angle)] *)
  from_axes_angles : vec3 -> R -> Rotation;
  (** [r1 * r2] *)
  rot_mul : Rotation -> Rotation -> Rotation;
  (** [r.to_matrix()] of one rotation *)
  to_matrix : Rotation -> mat3;
  (** [InverseStereographicProjection(pole).xy2vector(x, y)] of one point *)
  xy2vector : Z -> R -> R -> vec3;
  (** [Miller.round()] of one index triplet *)
  miller_round : idx3 -> idx3
}.

(** ** numpy helpers used by the master pattern *)

(** [np.linspace(start, stop, num)]; a negative [num] is rejected. *)
Definition linspace (start stop : R) (num : Z) : M (list R) :=
  if (num <? 0)%Z then
    raise (ValueError "Number of samples must be non-negative.")
  else
    let n := Z.to_nat num in
    let step := (stop - start) / INR (n - 1) in
    ret (map (fun i => start + INR i * step) (seq 0 n)).

(** [np.meshgrid(xs, ys)] followed by [.ravel()] on both outputs: the list
    of (x, y) pairs in row-major order, [x] varying fastest. *)
Definition meshgrid_ravel (xs ys : list R) : list (R * R) :=
  flat_map (fun y => map (fun x => (x, y)) xs) ys.

(** [da.store(source, target)] for one flat source and its target row. *)
Definition da_store (source target : list R) : M (list R) :=
  if Nat.eqb (length source) (length target) then ret source
  else raise (ValueError "could not broadcast input array into the target shape").

(** ** The master pattern *)

(** Threshold on the dot product below which a point is on a zone line. *)
Definition zone_tol : R := 1 / 10000000.

(** [_get_pattern(intensity, mask1, mask2)] on one block of rows. *)
Definition _get_pattern (intensity : list R) (mask1 mask2 : list (list bool)) : list R :=
  let intensity_part := map (fun _ => intensity) mask1 in
  let part := map (Rmult (1 / 2)) (map2 sum_where intensity_part mask1) in
  map2 Rplus part (map2 sum_where intensity_part mask2).

Section MasterPattern.
Context `{Orix}.

Definition _raise_if_no_theta (self : KikuchiPatternSimulator) : M unit :=
  match map theta (vectors (reflectors self)) with
  | [] => raise (IndexError "index 0 is out of bounds for axis 0 with size 0")
  | None :: _ =>
      raise (ValueError "Reflectors have no Bragg angles. Calculate with `diffsims.crystallography.ReciprocalLatticeVector.calculate_theta()`.")
  | Some _ :: _ => ret tt
  end.

Definition _raise_if_no_structure_factor (self : KikuchiPatternSimulator) : M unit :=
  match map structure_factor (vectors (reflectors self)) with
  | [] => raise (IndexError "index 0 is out of bounds for axis 0 with size 0")
  | None :: _ =>
      raise (ValueError "Reflectors have no structure factors. Calculate with `diffsims.crystallography.ReciprocalLatticeVector.calculate_structure_factor()`.")
  | Some _ :: _ => ret tt
  end.

(** [abs(structure_factor)] on one element of the attribute array. *)
Definition abs_factor (f : option complex) : M R :=
  match f with
  | Some z => ret (Cabs z)
  | None => raise (TypeError "bad operand type for abs(): 'NoneType'")
  end.

(** [abs(factor * factor.conjugate())] on one element. *)
Definition square_factor (f : option complex) : M R :=
  match f with
  | Some z => ret (Cabs (Cmul z (conjugate z)))
  | None => raise (AttributeError "'NoneType' object has no attribute 'conjugate'")
  end.

(** [(np.pi / 2) - theta] on one element. *)
Definition band_edge (t : option R) : M R :=
  match t with
  | Some x => ret (PI / 2 - x)
  | None => raise (TypeError "unsupported operand type(s) for -: 'float' and 'NoneType'")
  end.

(** The choice of poles from the [hemisphere] argument. *)
Definition select_poles (hemisphere : string) : M (list Z) :=
  if String.eqb hemisphere "both" then ret [(-1)%Z; 1%Z]
  else if String.eqb hemisphere "north" then ret [(-1)%Z]
  else if String.eqb hemisphere "south" then ret [1%Z]
  else raise (ValueError "Unknown `hemisphere`, valid options are 'north', 'south' or 'both'").

(** The per-reflector intensity from the [scaling] argument. *)
Definition select_intensity (self : KikuchiPatternSimulator) (scaling : option string)
  : M (list R) :=
  let factors := map structure_factor (vectors (reflectors self)) in
  match scaling with
  | Some s =>
      if String.eqb s "linear" then mapM abs_factor factors
      else if String.eqb s "square" then mapM square_factor factors
      else raise (ValueError "Unknown `scaling`, valid options are 'linear', 'square' or None")
  | None => ret (repeat 1 (length (vectors (reflectors self))))
  end.

(** [da.from_array(v, chunks=(half_size, -1))]: the blocks of rows. *)
Definition from_array_chunks {A} (half_size : Z) (rows : list A) : M (list (list A)) :=
  if (half_size <=? 0)%Z then
    raise (ValueError "Chunks and shape must be of the same length/ndim.")
  else ret (chunk_rows (Z.to_nat half_size) rows).

(** [da.einsum("ij,kj->ik", xyz_hemi, xyz_ref)] *)
Definition dot_products (xyz_hemi xyz_ref : list vec3) : list (list R) :=
  map (fun v => map (fun r => dot v r) xyz_ref) xyz_hemi.

(** [mask1 = da.absolute(dp) <= 1e-7] *)
Definition zone_line_mask (dp : list (list R)) : list (list bool) :=
  map (map (fun d => Rleb (Rabs d) zone_tol)) dp.

(** [mask2 = logical_and(logical_and(angles >= theta1, angles <= theta2),
    ~mask1)], with [theta1] broadcast along the rows. *)
Definition band_mask (angles : list (list R)) (theta1 : list R) (theta2 : R)
           (mask1 : list (list bool)) : list (list bool) :=
  map2 (map2 andb)
       (map2 (map2 andb)
             (map (fun row => map2 (fun a t1 => Rleb t1 a) row theta1) angles)
             (map (map (fun a => Rleb a theta2)) angles))
       (map (map negb) mask1).

(** One block of the lazily evaluated graph: dot products, angles, the two
    masks and [_get_pattern] over the rows of the block. *)
Definition pattern_block (intensity theta1 : list R) (theta2 : R)
           (xyz_ref : list vec3) (block : list vec3) : list R :=
  let dp := dot_products block xyz_ref in
  let angles := map (map acos) dp in
  let mask1 := zone_line_mask dp in
  let mask2 := band_mask angles theta1 theta2 mask1 in
  _get_pattern intensity mask1 mask2.

(** The body of the loop over hemispheres, for one pole. *)
Definition hemisphere_pattern (half_size : Z) (intensity theta1 : list R) (theta2 : R)
           (xyz_ref : list vec3) (xy : list (R * R)) (pole : Z) : M (list R) :=
  let v_hemi := map (fun p => xy2vector pole (fst p) (snd p)) xy in
  xyz_hemi <- from_array_chunks half_size v_hemi ;;
  ret (concat (map (pattern_block intensity theta1 theta2 xyz_ref) xyz_hemi)).

Definition calculate_master_pattern (self : KikuchiPatternSimulator)
           (half_size : Z) (hemisphere : string) (scaling : option string)
  : M EBSDMasterPattern :=
  _raise_if_no_theta self ;;;
  _raise_if_no_structure_factor self ;;;
  let size := (2 * half_size + 1)%Z in
  poles <- select_poles hemisphere ;;
  intensity <- select_intensity self scaling ;;
  theta1 <- mapM band_edge (map theta (vectors (reflectors self))) ;;
  let theta2 := PI / 2 in
  let xyz_ref := map unit_direction (vectors (reflectors self)) in
  arr <- linspace (-1) 1 size ;;
  let xy := meshgrid_ravel arr arr in
  master_pattern_da <-
    mapM (hemisphere_pattern half_size intensity theta1 theta2 xyz_ref xy) poles ;;
  let n := Z.to_nat size in
  if String.eqb hemisphere "both" then
    let zeros := repeat 0 (n * n) in
    emit (EvStore (length master_pattern_da)) ;;;
    master_pattern <- mapM (fun src => da_store src zeros) master_pattern_da ;;
    ret {| mp_data := Arr3 (map (reshape2 n n) master_pattern);
           mp_phase := phase self;
           mp_hemisphere := hemisphere;
           mp_projection := "stereographic";
           mp_mode := "kinematical" |}
  else
    let zeros := repeat 0 (n * n) in
    emit (EvStore 1) ;;;
    master_pattern <- da_store (hd [] master_pattern_da) zeros ;;
    ret {| mp_data := Arr2 (reshape2 n n master_pattern);
           mp_phase := phase self;
           mp_hemisphere := hemisphere;
           mp_projection := "stereographic";
           mp_mode := "kinematical" |}.

End MasterPattern.

(** ** Arrays with navigation axes *)

(** The navigation shape of a batch of orientations: one or two leading
    axes (an orix [Rotation] always has at least one). *)
Inductive nav_shape : Type :=
| Nav1 (n : nat)
| Nav2 (n m : nat).

(** An array whose leading axes are navigation axes: the shape of those
    axes and the row-major buffer of its cells. *)
Record nav (A : Type) : Type := Nav { shape : nav_shape; cells : list A }.

Definition nav_map {A B} (f : A -> B) (a : nav A) : nav B :=
  {| shape := shape a; cells := map f (cells a) |}.

(** The cell at a navigation index. *)
Definition nav_get {A} (a : nav A) (ix : list nat) : option A :=
  match shape a, ix with
  | Nav1 n, [i] => if i <? n then nth_error (cells a) i else None
  | Nav2 n m, [i; j] =>
      if (i <? n) && (j <? m) then nth_error (cells a) (i * m + j) else None
  | _, _ => None
  end.

(** ** The hemisphere visibility filter *)

(** [da.sum(upper, axis=navigation_axes)] at one item: the number of
    navigation cells in which the item is flagged. *)
Definition count_true (rows : list (list bool)) (k : nat) : Z :=
  fold_right Z.add 0%Z (map (fun row => if nth k row false then 1%Z else 0%Z) rows).

(** [_get_coordinates_in_upper_hemisphere(z_coordinates, navigation_axes)].
    [navigation_axes] is [(0, 1)[:rotations.ndim]] at both call sites, that
    is every leading axis of [z_coordinates], so the sum runs over the whole
    navigation buffer; [n_items] is the length of the last axis. *)
Definition _get_coordinates_in_upper_hemisphere (n_items : nat)
           (z_coordinates : nav (list R)) : nav (list bool) * list bool :=
  let upper_hemisphere := nav_map (map (fun z => Rltb 0 z)) z_coordinates in
  let in_a_pattern :=
    map (fun k => negb (Z.eqb (count_true (cells upper_hemisphere) k) 0))
        (seq 0 n_items) in
  (upper_hemisphere, in_a_pattern).

(** ** Zone axes from reflector indices *)

(** [np.cross(a, b)] on index triplets. *)
Definition cross (a b : idx3) : idx3 :=
  Idx3 (i2 a * i3 b - i3 a * i2 b) (i3 a * i1 b - i1 a * i3 b) (i1 a * i2 b - i2 a * i1 b).

Definition idx3_eqb (a b : idx3) : bool :=
  Z.eqb (i1 a) (i1 b) && Z.eqb (i2 a) (i2 b) && Z.eqb (i3 a) (i3 b).

Definition zero3 : idx3 := Idx3 0 0 0.

(** [np.isclose(v, 0).all(axis=-1)] on an integer-valued triplet. *)
Definition is_zero3 (v : idx3) : bool := idx3_eqb v zero3.

(** Lexicographic comparison of rows, the order of [np.unique(axis=0)]. *)
Definition idx3_compare (a b : idx3) : comparison :=
  match Z.compare (i1 a) (i1 b) with
  | Eq => match Z.compare (i2 a) (i2 b) with
          | Eq => Z.compare (i3 a) (i3 b)
          | c => c
          end
  | c => c
  end.

Fixpoint insert_unique (x : idx3) (l : list idx3) : list idx3 :=
  match l with
  | [] => [x]
  | y :: l' =>
      match idx3_compare x y with
      | Lt => x :: y :: l'
      | Eq => y :: l'
      | Gt => y :: insert_unique x l'
      end
  end.

(** [np.unique(rows, axis=0)]: the distinct rows in ascending order. *)
Definition np_unique_rows (l : list idx3) : list idx3 :=
  fold_right insert_unique [] l.

(** [Miller.unique()]: the distinct triplets, first occurrences kept. *)
Fixpoint miller_unique (l : list idx3) : list idx3 :=
  match l with
  | [] => []
  | x :: l' => x :: filter (fun y => negb (idx3_eqb x y)) (miller_unique l')
  end.

(** [np.cross(hkl[:, None, :], hkl)] flattened over its two leading axes. *)
Definition cross_pairs (hkls : list idx3) : list idx3 :=
  flat_map (fun a => map (fun b => cross a b) hkls) hkls.

(** ** Projection onto the detector *)

(** [orix.vector.Miller]: index triplets with their phase. *)
Record Miller : Type := { coordinates : list idx3; miller_phase : Phase }.

Section Detector.
Context `{Orix}.
(** The type of one entry of [detector.r_max] along its first axis. *)
Variable G : Type.

Record EBSDDetector : Type := {
  sample_tilt : R;
  tilt : R;
  r_max : list G
}.

Record KikuchiPatternLine : Type := {
  line_hkl : Miller;
  line_hkl_detector : nav (list vec3);
  line_in_pattern : nav (list bool);
  line_max_r_gnomonic : G
}.

Record KikuchiPatternZoneAxis : Type := {
  za_uvw : Miller;
  za_uvw_detector : nav (list vec3);
  za_in_pattern : nav (list bool);
  za_max_r_gnomonic : G
}.

Record GeometricalKikuchiPatternSimulation : Type := {
  sim_detector : EBSDDetector;
  sim_rotations : nav Rotation;
  sim_reflectors : ReciprocalLatticeVector;
  lines : KikuchiPatternLine;
  zone_axes : KikuchiPatternZoneAxis
}.

(** [np.deg2rad] *)
Definition deg2rad (x : R) : R := x * (PI / 180).

(** The rotation from the detector frame to the sample frame, as a
    matrix. *)
Definition tilt_matrix (detector : EBSDDetector) : mat3 :=
  let total_tilt := deg2rad (sample_tilt detector - 90 - tilt detector) in
  let u_s_bruker := from_axes_angles (Vec3 (-1) 0 0) total_tilt in
  let u_s := rot_mul (from_axes_angles (Vec3 0 0 (-1)) (- PI / 2)) u_s_bruker in
  to_matrix u_s.

(** [np.matmul(vectors, u)] for index triplets of shape (N, 3) and a
    batch of matrices of shape (navigation..., 3, 3). *)
Definition project (vs : list idx3) (u : nav mat3) : nav (list vec3) :=
  nav_map (fun m => map (fun v => vecmat (idx3_to_vec v) m) vs) u.

(** Lines 265-273: zone axes <uvw> from the visible {hkl}. *)
Definition derive_zone_axes (hkls : list idx3) : list idx3 :=
  let uvw := cross_pairs hkls in
  let uvw := filter (fun v => negb (is_zero3 v)) uvw in
  let uvw := np_unique_rows uvw in
  miller_unique (map miller_round uvw).

(** [detector.r_max[0]] *)
Definition r_max_0 (detector : EBSDDetector) : M G :=
  match r_max detector with
  | [] => raise (IndexError "index 0 is out of bounds for axis 0 with size 0")
  | r :: _ => ret r
  end.

Definition on_detector (self : KikuchiPatternSimulator)
           (detector : EBSDDetector) (rotations : nav Rotation)
  : M GeometricalKikuchiPatternSimulation :=
  let lat := lattice (structure (phase self)) in
  let ref := _reflectors self in
  let hkl0 := map hkl (vectors ref) in
  let u_s := tilt_matrix detector in
  let u_o := nav_map to_matrix rotations in
  let u_os := nav_map (fun o => matmul o u_s) u_o in
  let u_astar := transpose (recbase lat) in
  let u_kstar := nav_map (matmul u_astar) u_os in
  let hkl_d := project hkl0 u_kstar in
  (* nav_axes = (0, 1)[:rotations.ndim], every navigation axis of the batch *)
  let '(hkl_is_upper, hkl_in_a_pattern) :=
    _get_coordinates_in_upper_hemisphere (length hkl0) (nav_map (map vz) hkl_d) in
  let hkl_in_pattern := nav_map (mask_select hkl_in_a_pattern) hkl_is_upper in
  let hkl_d := nav_map (mask_select hkl_in_a_pattern) hkl_d in
  emit (EvCompute 1) ;;;
  let visible_reflectors :=
    {| rlv_phase := rlv_phase ref;
       vectors := mask_select hkl_in_a_pattern (vectors ref) |} in
  let hkl1 := mask_select hkl_in_a_pattern hkl0 in
  max_r_gnomonic <- r_max_0 detector ;;
  let uvw := derive_zone_axes hkl1 in
  let u_a := base lat in
  let u_k := nav_map (matmul u_a) u_os in
  let uvw_d := project uvw u_k in
  let '(uvw_is_upper, uvw_in_a_pattern) :=
    _get_coordinates_in_upper_hemisphere (length uvw) (nav_map (map vz) uvw_d) in
  let uvw_in_pattern := nav_map (mask_select uvw_in_a_pattern) uvw_is_upper in
  let uvw_d := nav_map (mask_select uvw_in_a_pattern) uvw_d in
  emit (EvCompute 1) ;;;
  let uvw := mask_select uvw_in_a_pattern uvw in
  emit (EvCompute 4) ;;;
  let lines :=
    {| line_hkl := {| coordinates := hkl1; miller_phase := phase self |};
       line_hkl_detector := hkl_d;
       line_in_pattern := hkl_in_pattern;
       line_max_r_gnomonic := max_r_gnomonic |} in
  let zone_axes :=
    {| za_uvw := {| coordinates := uvw; miller_phase := phase self |};
       za_uvw_detector := uvw_d;
       za_in_pattern := uvw_in_pattern;
       za_max_r_gnomonic := max_r_gnomonic |} in
  ret {| sim_detector := detector;
         sim_rotations := rotations;
         sim_reflectors := visible_reflectors;
         lines := lines;
         zone_axes := zone_axes |}.

End Detector.

(** ** A concrete realisation of the orix interface *)

Definition identity3 : mat3 := Mat3 (Vec3 1 0 0) (Vec3 0 1 0) (Vec3 0 0 1).

(** The matrix of the rotation by [angle] about the unit vector [axis]. *)
Definition axis_angle_matrix (axis : vec3) (angle : R) : mat3 :=
  let c := cos angle in
  let s := sin angle in
  let t := 1 - c in
  let x := vx axis in
  let y := vy axis in
  let z := vz axis in
  Mat3 (Vec3 (c + x * x * t) (x * y * t - z * s) (x * z * t + y * s))
       (Vec3 (y * x * t + z * s) (c + y * y * t) (y * z * t - x * s))
       (Vec3 (z * x * t - y * s) (z * y * t + x * s) (c + z * z * t)).

(** The inverse stereographic projection of the point (x, y) for a pole
    of -1 (north) or 1 (south). *)
Definition inverse_stereographic (pole : Z) (x y : R) : vec3 :=
  let d := 1 + x * x + y * y in
  Vec3 (2 * x / d) (2 * y / d) (- IZR pole * (1 - x * x - y * y) / d).

Definition neg3 (v : idx3) : idx3 := Idx3 (- i1 v) (- i2 v) (- i3 v).

Definition gcd3 (v : idx3) : Z := Z.gcd (i1 v) (Z.gcd (i2 v) (i3 v)).

Definition div3 (v : idx3) (g : Z) : idx3 :=
  Idx3 (i1 v / g) (i2 v / g) (i3 v / g).

(** Whether the first non-zero component of a triplet is negative. *)
Definition leading_negative (v : idx3) : bool :=
  match Z.compare (i1 v) 0 with
  | Lt => true
  | Gt => false
  | Eq => match Z.compare (i2 v) 0 with
          | Lt => true
          | Gt => false
          | Eq => Z.ltb (i3 v) 0
          end
  end.

(** Modelled from the spec: the reduction of an index triplet to its
    smallest co-linear integer representative, which [Miller.round] of orix
    provides and which is not part of the sources.  The triplet is divided
    by the GCD of its components; the sign convention chosen here makes the
    first non-zero component positive. *)
Definition reduce_indices (v : idx3) : idx3 :=
  let w := div3 v (gcd3 v) in
  if leading_negative w then neg3 w else w.

#[export] Instance orix_model : Orix := {|
  Rotation := mat3;
  from_axes_angles := axis_angle_matrix;
  rot_mul := matmul;
  to_matrix := fun m => m;
  xy2vector := inverse_stereographic;
  miller_round := reduce_indices
|}.

(** ** Specification-side definitions *)


(** The three classes of a (grid point, reflector) pair. *)
Inductive pair_class : Type := ExactZoneLine | InsideBand | Outside.

(** The class of a pair from its dot product and the Bragg angle of the
    reflector, following the wording of the specification. *)
Definition classify (dp bragg : R) : pair_class :=
  if Rleb (Rabs dp) zone_tol then ExactZoneLine
  else if Rleb (PI / 2 - bragg) (acos dp) && Rleb (acos dp) (PI / 2) then InsideBand
  else Outside.

(** The contribution of a reflector of scaled intensity [i] to a pixel. *)
Definition contribution (i dp bragg : R) : R :=
  match classify dp bragg with
  | ExactZoneLine => i / 2
  | InsideBand => i
  | Outside => 0
  end.

(** The shape of a two-dimensional array is (nrows, ncols). *)
Definition has_shape2 (a : list (list R)) (nrows ncols : Z) : Prop :=
  Z.of_nat (length a) = nrows /\ Forall (fun row => Z.of_nat (length row) = ncols) a.

(** Every reflector carries a structure factor and a Bragg angle. *)
Definition attributes_present (self : KikuchiPatternSimulator) : Prop :=
  vectors (reflectors self) <> [] /\
  Forall (fun r => structure_factor r <> None /\ theta r <> None)
         (vectors (reflectors self)).

Definition valid_hemisphere (hemisphere : string) : Prop :=
  hemisphere = "both"%string \/ hemisphere = "north"%string \/ hemisphere = "south"%string.

Definition valid_scaling (scaling : option string) : Prop :=
  scaling = Some "linear"%string \/ scaling = Some "square"%string \/ scaling = None.

Definition is_zone (c : pair_class) : bool :=
  match c with ExactZoneLine => true | _ => false end.

Definition is_band (c : pair_class) : bool :=
  match c with InsideBand => true | _ => false end.

(** The value of one pixel as the sum of the contributions of all
    reflectors, given their intensities, directions and Bragg angles. *)
Definition pixel_sum (intensity : list R) (xyz_ref : list vec3) (bragg : list R)
           (v : vec3) : R :=
  Rsum (map2 (fun i dt => contribution i (dot v (fst dt)) (snd dt))
             intensity (combine xyz_ref bragg)).

(** The structure factor and Bragg angle of a reflector that has them. *)
Definition factor_of (r : Reflector) : complex :=
  match structure_factor r with Some z => z | None => Cplx 0 0 end.

Definition bragg_of (r : Reflector) : R :=
  match theta r with Some t => t | None => 0 end.

(** The intensity of a reflector for a valid [scaling]: |F| for "linear",
    |F|^2 for "square" and 1 for [None]. *)
Definition scaled_intensity (scaling : option string) (r : Reflector) : R :=
  match scaling with
  | Some s =>
      if String.eqb s "linear" then Cabs (factor_of r)
      else Cabs (factor_of r) * Cabs (factor_of r)
  | None => 1
  end.

(** The [n] grid coordinates spanning [-1, 1]. *)
Definition grid (n : nat) : list R :=
  map (fun i => -1 + INR i * ((1 - -1) / INR (n - 1))) (seq 0 n).

Section MasterPatternSpec.
Context `{Orix}.

(** The unit vectors of the pixels of an n x n grid, in row-major order. *)
Definition pixel_directions (pole : Z) (n : nat) : list vec3 :=
  map (fun p => xy2vector pole (fst p) (snd p)) (meshgrid_ravel (grid n) (grid n)).

(** The flat pixel values of one hemisphere: for every pixel, the sum of
    the contributions of all reflectors. *)
Definition hemisphere_values (self : KikuchiPatternSimulator)
           (scaling : option string) (n : nat) (pole : Z) : list R :=
  let refl := vectors (reflectors self) in
  map (pixel_sum (map (scaled_intensity scaling) refl)
                 (map unit_direction refl) (map bragg_of refl))
      (pixel_directions pole n).

Definition hemisphere_array (self : KikuchiPatternSimulator)
           (scaling : option string) (n : nat) (pole : Z) : list (list R) :=
  reshape2 n n (hemisphere_values self scaling n pole).

(** The array returned for a valid [hemisphere]. *)
Definition master_data (self : KikuchiPatternSimulator) (half_size : Z)
           (hemisphere : string) (scaling : option string) : ndarray :=
  let n := Z.to_nat (2 * half_size + 1) in
  if String.eqb hemisphere "both" then
    Arr3 [hemisphere_array self scaling n (-1); hemisphere_array self scaling n 1]
  else if String.eqb hemisphere "north" then
    Arr2 (hemisphere_array self scaling n (-1))
  else
    Arr2 (hemisphere_array self scaling n 1).

(** The number of arrays handed to [da.store]. *)
Definition n_stored (hemisphere : string) : nat :=
  if String.eqb hemisphere "both" then 2%nat else 1%nat.

End MasterPatternSpec.

(** What a call needs in order not to trip over an absent attribute: the
    first reflector has a structure factor, every reflector has a Bragg
    angle, and every reflector has a structure factor when the scaling uses
    them. *)
Definition attributes_sufficient (self : KikuchiPatternSimulator)
           (scaling : option string) : Prop :=
  (exists r rest, vectors (reflectors self) = r :: rest /\ structure_factor r <> None)
  /\ Forall (fun r => theta r <> None) (vectors (reflectors self))
  /\ (scaling <> None ->
      Forall (fun r => structure_factor r <> None) (vectors (reflectors self))).

(** The elements of an array in row-major order. *)
Definition ndarray_flat (a : ndarray) : list R :=
  match a with
  | Arr2 rows => concat rows
  | Arr3 slices => concat (map (@concat R) slices)
  end.

(** [b] is [a] squared, element for element. *)
Definition elementwise_square (a b : ndarray) : Prop :=
  match a, b with
  | Arr2 x, Arr2 y => Forall2 (Forall2 (fun u v => v = u * u)) x y
  | Arr3 x, Arr3 y => Forall2 (Forall2 (Forall2 (fun u v => v = u * u))) x y
  | _, _ => False
  end.

(** The poles computed for a valid [hemisphere]. *)
Definition poles_of (hemisphere : string) : list Z :=
  if String.eqb hemisphere "both" then [(-1)%Z; 1%Z]
  else if String.eqb hemisphere "north" then [(-1)%Z]
  else [1%Z].

Section MasterDirections.
Context `{Orix}.

(** The unit vector behind every element of the returned array, in
    row-major order. *)
Definition master_directions (hemisphere : string) (n : nat) : list vec3 :=
  flat_map (fun pole => pixel_directions pole n) (poles_of hemisphere).

End MasterDirections.

(** ** Example inputs *)

Definition cubic_phase : Phase :=
  {| phase_name := "cubic";
     structure := {| lattice := {| base := identity3; recbase := identity3 |} |} |}.

(** The reflector (1,0,0) with structure factor 1+0j and a Bragg angle of
    10 degrees. *)
Definition reflector_100 : Reflector :=
  {| hkl := Idx3 1 0 0; unit_direction := Vec3 1 0 0;
     structure_factor := Some (Cplx 1 0); theta := Some (PI / 18) |}.

Definition reflector_010 : Reflector :=
  {| hkl := Idx3 0 1 0; unit_direction := Vec3 0 1 0;
     structure_factor := Some (Cplx 1 0); theta := Some (PI / 18) |}.

Definition reflector_no_theta : Reflector :=
  {| hkl := Idx3 1 0 0; unit_direction := Vec3 1 0 0;
     structure_factor := Some (Cplx 1 0); theta := None |}.

Definition reflector_no_factor : Reflector :=
  {| hkl := Idx3 0 1 0; unit_direction := Vec3 0 1 0;
     structure_factor := None; theta := Some (PI / 18) |}.

Definition simulator_of (refl : list Reflector) : KikuchiPatternSimulator :=
  {| _reflectors := {| rlv_phase := cubic_phase; vectors := refl |} |}.

(** ** Derived quantities of [on_detector] *)

(** The items flagged as visible in at least one orientation. *)
Definition visible_mask (vs : list idx3) (u : nav mat3) : list bool :=
  snd (_get_coordinates_in_upper_hemisphere
         (length vs) (nav_map (map vz) (nav_map (fun m => map (fun v => vecmat (idx3_to_vec v) m) vs) u))).

Definition visible_subset (vs : list idx3) (u : nav mat3) : list idx3 :=
  mask_select (visible_mask vs u) vs.

(** The per-orientation visibility of the detector-frame vectors. *)
Definition upper_flags (xyz : nav (list vec3)) : nav (list bool) :=
  nav_map (map (fun v => Rltb 0 (vz v))) xyz.

Section DetectorSpec.
Context `{Orix}.
Variable G : Type.

(** Crystal to detector: orientation followed by the tilt correction. *)
Definition u_os_of (detector : EBSDDetector G) (rotations : nav Rotation) : nav mat3 :=
  nav_map (fun o => matmul o (tilt_matrix detector)) (nav_map to_matrix rotations).

(** Reciprocal crystal frame to detector frame. *)
Definition u_kstar_of (self : KikuchiPatternSimulator) (detector : EBSDDetector G)
           (rotations : nav Rotation) : nav mat3 :=
  nav_map (matmul (transpose (recbase (lattice (structure (phase self))))))
          (u_os_of detector rotations).

(** Direct crystal frame to detector frame. *)
Definition u_k_of (self : KikuchiPatternSimulator) (detector : EBSDDetector G)
           (rotations : nav Rotation) : nav mat3 :=
  nav_map (matmul (base (lattice (structure (phase self)))))
          (u_os_of detector rotations).

(** The two composite transforms of one orientation. *)
Definition reciprocal_to_detector (self : KikuchiPatternSimulator)
           (detector : EBSDDetector G) (o : Rotation) : mat3 :=
  matmul (transpose (recbase (lattice (structure (phase self)))))
         (matmul (to_matrix o) (tilt_matrix detector)).

Definition direct_to_detector (self : KikuchiPatternSimulator)
           (detector : EBSDDetector G) (o : Rotation) : mat3 :=
  matmul (base (lattice (structure (phase self))))
         (matmul (to_matrix o) (tilt_matrix detector)).

(** The reflectors and zone axes that survive the culling. *)
Definition visible_hkl (self : KikuchiPatternSimulator) (detector : EBSDDetector G)
           (rotations : nav Rotation) : list idx3 :=
  visible_subset (map hkl (vectors (_reflectors self)))
                 (u_kstar_of self detector rotations).

Definition visible_uvw (self : KikuchiPatternSimulator) (detector : EBSDDetector G)
           (rotations : nav Rotation) : list idx3 :=
  visible_subset (derive_zone_axes (visible_hkl self detector rotations))
                 (u_k_of self detector rotations).

(** The bundle returned when [detector.r_max[0]] is [r0]. *)
Definition simulation_of (self : KikuchiPatternSimulator) (detector : EBSDDetector G)
           (rotations : nav Rotation) (r0 : G) : GeometricalKikuchiPatternSimulation G :=
  let hkl1 := visible_hkl self detector rotations in
  let uvw1 := visible_uvw self detector rotations in
  let hkl_d := project hkl1 (u_kstar_of self detector rotations) in
  let uvw_d := project uvw1 (u_k_of self detector rotations) in
  {| sim_detector := detector;
     sim_rotations := rotations;
     sim_reflectors :=
       {| rlv_phase := rlv_phase (_reflectors self);
          vectors := mask_select
                       (visible_mask (map hkl (vectors (_reflectors self)))
                                     (u_kstar_of self detector rotations))
                       (vectors (_reflectors self)) |};
     lines :=
       {| line_hkl := {| coordinates := hkl1; miller_phase := phase self |};
          line_hkl_detector := hkl_d;
          line_in_pattern := upper_flags hkl_d;
          line_max_r_gnomonic := r0 |};
     zone_axes :=
       {| za_uvw := {| coordinates := uvw1; miller_phase := phase self |};
          za_uvw_detector := uvw_d;
          za_in_pattern := upper_flags uvw_d;
          za_max_r_gnomonic := r0 |} |}.

End DetectorSpec.

(** A detector tilted by 70 and 0 degrees whose [r_max] has two entries. *)
Definition detector_two_radii : EBSDDetector R :=
  {| sample_tilt := 70; tilt := 0; r_max := [1; 2] |}.

(** A single orientation and a 5 x 5 grid of copies of it. *)
Definition single_orientation {O : Orix} (o : Rotation) : nav Rotation :=
  {| shape := Nav1 1; cells := [o] |}.

Definition grid_5x5 {O : Orix} (o : Rotation) : nav Rotation :=
  {| shape := Nav2 5 5; cells := repeat o 25 |}.


(** The value [_get_pattern] gives to one row: the pixel of direction [v]. *)
Definition pixel_value (intensity theta1 : list R) (theta2 : R)
           (xyz_ref : list vec3) (v : vec3) : R :=
  let dp := map (fun r => dot v r) xyz_ref in
  let angles := map acos dp in
  let mask1 := map (fun d => Rleb (Rabs d) zone_tol) dp in
  let mask2 :=
    map2 andb
         (map2 andb (map2 (fun a t1 => Rleb t1 a) angles theta1)
                    (map (fun a => Rleb a theta2) angles))
         (map negb mask1) in
  1 / 2 * sum_where intensity mask1 + sum_where intensity mask2.

(** The contribution of a reflector written with the dot product alone:
    half the intensity on the zone line, the full intensity when the dot
    product is above the tolerance and at most the sine of the Bragg
    angle, nothing otherwise. *)
Definition band_contribution (i d bragg : R) : R :=
  if Rleb (Rabs d) zone_tol then i / 2
  else if Rltb zone_tol d && Rleb d (sin bragg) then i
  else 0.

(** Whether an index triplet has a positive detector z-component for at
    least one of the transforms of a batch. *)
Definition visible_somewhere (u : nav mat3) (v : idx3) : bool :=
  existsb (fun m => Rltb 0 (vz (vecmat (idx3_to_vec v) m))) (cells u).


(** A detector whose [r_max] is empty, and an empty batch of orientations. *)
Definition detector_no_radius : EBSDDetector R :=
  {| sample_tilt := 70; tilt := 0; r_max := [] |}.

Definition empty_batch {O : Orix} : nav Rotation :=
  {| shape := Nav1 0; cells := [] |}.

(** The detector of the examples with both tilts raised by 10 degrees. *)
Definition detector_tilted_more : EBSDDetector R :=
  {| sample_tilt := 80; tilt := 10; r_max := [1; 2] |}.

(** * The generic h5ebsd reader ([kikuchipy.io.plugins._h5ebsd])

    Python strings are modelled as sequences of code points below 256, so
    that decoding bytes as latin-1 keeps the characters.  The content of an
    HDF5 file is a tree of groups and datasets; a dataset is given by the
    value that reading it ([dataset[()]]) returns. *)

(** ** String methods *)

(** [c.isspace()] for a code point below 256. *)
Definition is_py_space (c : ascii) : bool :=
  let n := nat_of_ascii c in
  ((9 <=? n) && (n <=? 13) || (28 <=? n) && (n <=? 32)
   || (n =? 133) || (n =? 160))%nat.

(** [s.lstrip()] *)
Fixpoint lstrip (s : string) : string :=
  match s with
  | EmptyString => EmptyString
  | String c rest => if is_py_space c then lstrip rest else s
  end.

(** [s.lstrip("/")] *)
Fixpoint lstrip_slash (s : string) : string :=
  match s with
  | EmptyString => EmptyString
  | String c rest => if Ascii.eqb c "/" then lstrip_slash rest else s
  end.

(** [c.lower()] for a code point below 256: A-Z and the accented capitals
    of latin-1 (all of 192..222 but the multiplication sign). *)
Definition lower_char (c : ascii) : ascii :=
  let n := nat_of_ascii c in
  if ((65 <=? n) && (n <=? 90)
      || (192 <=? n) && (n <=? 222) && negb (n =? 215))%nat
  then ascii_of_nat (n + 32) else c.

(** [s.lower()] on a str *)
Fixpoint lower (s : string) : string :=
  match s with
  | EmptyString => EmptyString
  | String c rest => String (lower_char c) (lower rest)
  end.

(** [b.lower()] on bytes: ASCII letters only. *)
Definition lower_byte (c : ascii) : ascii :=
  let n := nat_of_ascii c in
  if ((65 <=? n) && (n <=? 90))%nat then ascii_of_nat (n + 32) else c.

Fixpoint bytes_lower (s : string) : string :=
  match s with
  | EmptyString => EmptyString
  | String c rest => String (lower_byte c) (bytes_lower rest)
  end.

(** ** HDF5 content and Python values *)

Set Warnings "-register-all".

(** What reading a dataset returns: a number, bytes, a str, or an array
    given by its entries along the first axis. *)
Inductive h5data : Type :=
| DNum (x : Z)
| DBytes (s : string)
| DStr (s : string)
| DArray (elems : list h5data).

(** A member of a group. *)
Inductive node : Type :=
| Dataset (content : h5data)
| Group (members : list (string * node)).

(** An [h5py.Group] object: its absolute name and its members in the order
    [group.items()] yields them. *)
Record group_obj : Type := { group_name : string; group_members : list (string * node) }.

(** The values handled by the reader. *)
Inductive value : Type :=
| VNone
| VNum (x : Z)
| VBytes (s : string)
| VStr (s : string)
| VArray (elems : list h5data)
| VDatasetObj (content : h5data)
| VGroupObj (g : group_obj)
| VDict (items : list (string * value)).

Definition dict : Type := list (string * value).

(** [dictionary[key] = val]: an existing key keeps its position. *)
Fixpoint dict_set (dictionary : dict) (key : string) (val : value) : dict :=
  match dictionary with
  | [] => [(key, val)]
  | (k, v) :: rest =>
      if String.eqb k key then (k, val) :: rest else (k, v) :: dict_set rest key val
  end.

Definition in_names (key : string) (names : list string) : bool :=
  existsb (String.eqb key) names.

(** [dataset[()]] *)
Definition read_dataset (d : h5data) : value :=
  match d with
  | DNum x => VNum x
  | DBytes s => VBytes s
  | DStr s => VStr s
  | DArray elems => VArray elems
  end.

(** The absolute name of the member [key] of the group named [parent]. *)
Definition child_name (parent key : string) : string :=
  if String.eqb parent "/" then ("/" ++ key)%string
  else (parent ++ "/" ++ key)%string.

(** The body of the loop of [_hdf5group2dict] for a dataset member: the
    value is read unless the name is excluded, a one-entry array is replaced
    by its entry (and the key loses its leading whitespace), bytes are
    decoded as latin-1, and the value is stored unless the key is
    excluded. *)
Definition store_dataset (data_dset_names : list string) (dictionary : dict)
           (key : string) (d : h5data) : dict :=
  let val := if in_names key data_dset_names then VDatasetObj d else read_dataset d in
  let '(val, key) :=
    match val with
    | VArray [e] => (read_dataset e, lstrip key)
    | _ => (val, key)
    end in
  let val := match val with VBytes s => VStr s | _ => val end in
  if in_names key data_dset_names then dictionary else dict_set dictionary key val.

(** [_hdf5group2dict] on the members of the group named [name]. *)
Fixpoint hdf5group2dict_node (recursive : bool) (data_dset_names : list string)
         (name : string) (nd : node) (dictionary : dict) {struct nd} : dict :=
  match nd with
  | Dataset _ => dictionary
  | Group members =>
      (fix loop (items : list (string * node)) (dictionary : dict) {struct items} : dict :=
         match items with
         | [] => dictionary
         | (key, child) :: rest =>
             loop rest
                  match child with
                  | Dataset d => store_dataset data_dset_names dictionary key d
                  | Group ms =>
                      if recursive then
                        dict_set dictionary key
                                 (VDict (hdf5group2dict_node recursive data_dset_names
                                           (child_name name key) child []))
                      else if in_names key data_dset_names then dictionary
                      else dict_set dictionary key
                                    (VGroupObj {| group_name := child_name name key;
                                                  group_members := ms |})
                  end
         end) members dictionary
  end.

(** [_hdf5group2dict(group, dictionary, recursive, data_dset_names)] *)
Definition _hdf5group2dict (group : group_obj) (dictionary : option dict)
           (recursive : bool) (data_dset_names : option (list string)) : dict :=
  let data_dset_names := match data_dset_names with Some l => l | None => [] end in
  let dictionary := match dictionary with Some d => d | None => [] end in
  hdf5group2dict_node recursive data_dset_names (group_name group)
                      (Group (group_members group)) dictionary.

(** ** Effects of the reader *)

(** A figure: one handed in by the caller, or one created by a drawing
    call. *)
Inductive Fig : Type :=
| FigGiven (id : nat)
| FigStereographic (hemisphere : string)
| FigSpherical (backend : string).

(** What the code does besides computing: warnings, closing the file, and
    the calls into the drawing routines with their arguments. *)
Inductive io_event : Type :=
| IoWarn (msg : string)   (* warnings.warn(msg) *)
| IoClose                 (* self.file.close() *)
| IoDrawCircle (figure : option Fig) (hemisphere : option string)
               (opening_angle : option (list R)) (color : list (R * R * R))
| IoPlotSpherical (mode backend : string) (figure : option Fig)
                  (color : list (R * R * R)).

Definition IO (A : Type) : Type := list io_event -> result A * list io_event.

Definition io_ret {A} (a : A) : IO A := fun tr => (Ok a, tr).
Definition io_raise {A} (e : exn) : IO A := fun tr => (Raise e, tr).
Definition io_emit (ev : io_event) : IO unit := fun tr => (Ok tt, tr ++ [ev]).
Definition io_bind {A B} (m : IO A) (k : A -> IO B) : IO B :=
  fun tr => match m tr with
            | (Ok a, tr') => k a tr'
            | (Raise e, tr') => (Raise e, tr')
            end.

Declare Scope io_scope.
Delimit Scope io_scope with io.
Notation "x <- m ;; k" := (io_bind m (fun x => k))
  (at level 61, m at next level, right associativity) : io_scope.
Notation "m ;;; k" := (io_bind m (fun _ => k))
  (at level 61, right associativity) : io_scope.

Fixpoint io_mapM {A B} (f : A -> IO B) (l : list A) : IO (list B) :=
  match l with
  | [] => io_ret []
  | a :: l' => (b <- f a ;; bs <- io_mapM f l' ;; io_ret (b :: bs))%io
  end.

(** [IOError] is an alias of [OSError]. *)
Definition IOError (msg : string) : exn := Exn "OSError" msg.
Definition KeyError (msg : string) : exn := Exn "KeyError" msg.

(** ** Formatting *)

(** [repr(s)] of a str without quotes, backslashes or control characters. *)
Definition py_repr_str (s : string) : string := ("'" ++ s ++ "'")%string.

Fixpoint py_join (sep : string) (l : list string) : string :=
  match l with
  | [] => EmptyString
  | [s] => s
  | s :: rest => (s ++ sep ++ py_join sep rest)%string
  end.

(** [repr(l)] of a list of such strings. *)
Definition py_repr_list (l : list string) : string :=
  ("[" ++ py_join ", " (map py_repr_str l) ++ "]")%string.

(** [f"{v}"] of a str or bytes value. *)
Definition py_format (v : value) : string :=
  match v with
  | VStr s => s
  | VBytes s => ("b" ++ py_repr_str s)%string
  | _ => "None"%string
  end.

(** ** The reader *)

(** [H5EBSDReader.manufacturer_patterns] *)
Definition manufacturer_patterns : list (string * string) :=
  [("bruker nano", "RawPatterns"); ("edax", "Pattern"); ("kikuchipy", "patterns");
   ("oxford instruments", "Processed Patterns")]%string.

Record H5EBSDReader : Type := {
  filename : string;
  (** the members of the root group of the opened file *)
  file : list (string * node);
  scan_groups : list group_obj;
  manufacturer : value;
  version : value;
  patterns_name : string
}.

(** [self.file["/"]] *)
Definition root_group (file : list (string * node)) : group_obj :=
  {| group_name := "/"; group_members := file |}.

(** [get_scan_groups]: the members of the root group that are groups.  The
    keys of a group are distinct, so [self.file[key]] is the member listed
    under [key]. *)
Fixpoint get_scan_groups (file : list (string * node)) : list group_obj :=
  match file with
  | [] => []
  | (key, Group ms) :: rest =>
      {| group_name := child_name "/" key; group_members := ms |} :: get_scan_groups rest
  | (_, Dataset _) :: rest => get_scan_groups rest
  end.

(** The property [scan_group_names]. *)
Definition scan_group_names (scan_groups : list group_obj) : list string :=
  map (fun g => lstrip_slash (group_name g)) scan_groups.

(** [val.lower()]: defined for str and bytes only. *)
Definition py_lower (val : value) : IO value :=
  match val with
  | VStr s => io_ret (VStr (lower s))
  | VBytes s => io_ret (VBytes (bytes_lower s))
  | _ => io_raise (AttributeError "object has no attribute 'lower'")
  end.

(** The loop of [get_manufacturer_version] over the items of the
    dictionary of the root group. *)
Fixpoint manufacturer_version_loop (items : dict) (manufacturer version : value)
  : IO (value * value) :=
  match items with
  | [] => io_ret (manufacturer, version)
  | (key, val) :: rest =>
      if String.eqb (lower key) "manufacturer" then
        (m <- py_lower val ;; manufacturer_version_loop rest m version)%io
      else if in_names (lower key) ["version"; "format version"]%string then
        (v <- py_lower val ;; manufacturer_version_loop rest manufacturer v)%io
      else manufacturer_version_loop rest manufacturer version
  end.

Definition get_manufacturer_version (file : list (string * node)) : IO (value * value) :=
  manufacturer_version_loop (_hdf5group2dict (root_group file) None false None)
                            VNone VNone.

(** [name in group] for a member of [members]. *)
Fixpoint lookup_member (key : string) (members : list (string * node)) : option node :=
  match members with
  | [] => None
  | (k, nd) :: rest => if String.eqb k key then Some nd else lookup_member key rest
  end.

(** ["EBSD/" + name in group] *)
Definition has_ebsd_member (name : string) (group : group_obj) : bool :=
  match lookup_member "EBSD" (group_members group) with
  | Some (Group ms) =>
      match lookup_member name ms with Some _ => true | None => false end
  | _ => false
  end.

(** [man not in supported_manufacturers] *)
Definition not_supported (man : value) : bool :=
  match man with
  | VStr s => negb (in_names s (map fst manufacturer_patterns))
  | _ => true
  end.

Definition is_none (v : value) : bool :=
  match v with VNone => true | _ => false end.

(** [check_file], given the attributes of the reader set so far. *)
Definition check_file (filename : string) (file : list (string * node))
           (scan_groups : list group_obj) (manufacturer version : value) : IO unit :=
  (let error := None in
   let error :=
     if is_none manufacturer || is_none version then
       Some "manufacturer and/or version could not be read from its top group"%string
     else error in
   let error :=
     if negb (existsb (fun group => has_ebsd_member "Data" group
                                    && has_ebsd_member "Header" group) scan_groups) then
       Some "no top groups with subgroup name 'EBSD' with subgroups 'Data' and 'Header' were found"%string
     else error in
   mv <- get_manufacturer_version file ;;
   man <- py_lower (fst mv) ;;
   let supported_manufacturers := map fst manufacturer_patterns in
   let error :=
     if not_supported man then
       Some ("'" ++ py_format man ++ "' is not among supported manufacturers "
                 ++ py_repr_list supported_manufacturers)%string
     else error in
   match error with
   | Some msg =>
       io_raise (IOError (filename ++ " is not a supported h5ebsd file, as " ++ msg)%string)
   | None => io_ret tt
   end)%io.

(** [self.manufacturer_patterns[self.manufacturer]] *)
Definition patterns_lookup (manufacturer : value) : IO string :=
  match manufacturer with
  | VStr s =>
      match find (fun kv => String.eqb (fst kv) s) manufacturer_patterns with
      | Some kv => io_ret (snd kv)
      | None => io_raise (KeyError (py_repr_str s))
      end
  | v => io_raise (KeyError (py_format v))
  end.

(** [H5EBSDReader.__init__] on the content of the opened file. *)
Definition H5EBSDReader_init (filename : string) (file : list (string * node))
  : IO H5EBSDReader :=
  (let scan_groups := get_scan_groups file in
   mv <- get_manufacturer_version file ;;
   check_file filename file scan_groups (fst mv) (snd mv) ;;;
   patterns_name <- patterns_lookup (fst mv) ;;
   io_ret {| filename := filename; file := file; scan_groups := scan_groups;
             manufacturer := fst mv; version := snd mv;
             patterns_name := patterns_name |})%io.

(** The argument [group_names]: [None], one name or a list of names. *)
Inductive group_names_arg : Type :=
| NamesNone
| NameStr (name : string)
| NameList (names : list string).

(** The first scan whose name is [desired_name]. *)
Fixpoint find_scan (desired_name : string) (names : list string)
         (scans : list group_obj) : option group_obj :=
  match names, scans with
  | name :: names', scan :: scans' =>
      if String.eqb desired_name name then Some scan
      else find_scan desired_name names' scans'
  | _, _ => None
  end.

Definition scan_missing_message (self : H5EBSDReader) (desired_name : string) : string :=
  ("Scan '" ++ desired_name ++ "' is not among the available scans "
     ++ py_repr_list (scan_group_names (scan_groups self))
     ++ " in '" ++ filename self ++ "'.")%string.

(** The loop of [get_desired_scan_groups] over the desired names;
    [n_names] is [len(group_names)]. *)
Fixpoint desired_loop (self : H5EBSDReader) (n_names : nat) (group_names : list string)
         (acc : list group_obj) : IO (list group_obj) :=
  match group_names with
  | [] => io_ret acc
  | desired_name :: rest =>
      match find_scan desired_name (scan_group_names (scan_groups self))
                      (scan_groups self) with
      | Some scan => desired_loop self n_names rest (acc ++ [scan])
      | None =>
          if Nat.eqb n_names 1 then
            io_raise (IOError (scan_missing_message self desired_name))
          else
            (io_emit (IoWarn (scan_missing_message self desired_name)) ;;;
             desired_loop self n_names rest acc)%io
      end
  end.

Definition get_desired_scan_groups (self : H5EBSDReader) (group_names : group_names_arg)
  : IO (list group_obj) :=
  match group_names with
  | NamesNone =>
      match scan_groups self with
      | [] => io_raise (IndexError "list index out of range")
      | scan :: _ => io_ret [scan]
      end
  | NameStr name => desired_loop self 1 [name] []
  | NameList names => desired_loop self (length names) names []
  end.

Section Read.
(** The abstract method [scan2dict(group, lazy)] of the format at hand. *)
Variable scan2dict : group_obj -> bool -> IO value.

Definition read (self : H5EBSDReader) (group_names : group_names_arg) (lazy : bool)
  : IO (list value) :=
  (scans <- get_desired_scan_groups self group_names ;;
   scan_dict_list <- io_mapM (fun scan => scan2dict scan lazy) scans ;;
   (if negb lazy then io_emit IoClose else io_ret tt) ;;;
   io_ret scan_dict_list)%io.

End Read.

(** A value without HDF5 objects, bytes or [None] at any depth. *)
Fixpoint is_plain (v : value) : bool :=
  match v with
  | VNum _ | VStr _ | VArray _ => true
  | VDict items =>
      (fix all_plain (l : list (string * value)) : bool :=
         match l with
         | [] => true
         | (_, x) :: rest => is_plain x && all_plain rest
         end) items
  | _ => false
  end.

(** What [_hdf5group2dict] may store under a key: a number, a str, an
    array, a dictionary when recursive, a group object when not. *)
Definition stored_shape (recursive : bool) (v : value) : bool :=
  match v with
  | VNum _ | VStr _ | VArray _ => true
  | VDict _ => recursive
  | VGroupObj _ => negb recursive
  | _ => false
  end.

Definition is_group (kv : string * node) : bool :=
  match snd kv with Group _ => true | Dataset _ => false end.

(** An induction principle for the tree of groups. *)
Fixpoint node_induction (P : node -> Prop)
         (Hdataset : forall d, P (Dataset d))
         (Hgroup : forall members, Forall (fun kv => P (snd kv)) members -> P (Group members))
         (nd : node) {struct nd} : P nd :=
  match nd with
  | Dataset d => Hdataset d
  | Group members =>
      Hgroup members
             ((fix go (l : list (string * node)) : Forall (fun kv => P (snd kv)) l :=
                 match l with
                 | [] => Forall_nil _
                 | kv :: rest =>
                     Forall_cons kv (node_induction P Hdataset Hgroup (snd kv)) (go rest)
                 end) members)
  end.

(** * Plotting of the reflectors ([KikuchiPatternSimulator.plot]) *)

(** [a.max()] and [a.min()] of a non-empty array. *)
Definition array_max (x : R) (rest : list R) : R := fold_left Rmax rest x.
Definition array_min (x : R) (rest : list R) : R := fold_left Rmin rest x.

(** The grey values of the reflectors from the moduli of their structure
    factors: [color = f / f.max()], then
    [abs(color - color.min() - color.max())]. *)
Definition reflector_colors (f_hkl : list R) : IO (list R) :=
  match f_hkl with
  | [] => io_raise (ValueError "zero-size array to reduction operation maximum which has no identity")
  | f :: rest =>
      let fmax := array_max f rest in
      let color := map (fun x => x / fmax) f_hkl in
      match color with
      | [] => io_raise (ValueError "zero-size array to reduction operation minimum which has no identity")
      | c :: crest =>
          let cmin := array_min c crest in
          let cmax := array_max c crest in
          io_ret (map (fun x => Rabs (x - cmin - cmax)) color)
      end
  end.

(** [abs(ref.structure_factor)] and [theta] used in arithmetic, element by
    element. *)
Definition io_abs_factor (f : option complex) : IO R :=
  match f with
  | Some z => io_ret (Cabs z)
  | None => io_raise (TypeError "bad operand type for abs(): 'NoneType'")
  end.

Definition io_theta (t : option R) : IO R :=
  match t with
  | Some x => io_ret x
  | None => io_raise (TypeError "unsupported operand type(s) for -: 'float' and 'NoneType'")
  end.

(** [_plot_spherical(mode, ref, color, backend, figure)]: the drawing is
    recorded as one call; the figure returned is the one given, or a new
    one. *)
Definition _plot_spherical (mode : string) (color : list (R * R * R))
           (backend : string) (figure : option Fig) : IO Fig :=
  (io_emit (IoPlotSpherical mode backend figure color) ;;;
   io_ret match figure with Some f => f | None => FigSpherical backend end)%io.

(** [draw_circle(...)] on an existing figure, or creating one for the
    given hemisphere. *)
Definition draw_circle (figure : option Fig) (hemisphere : string)
           (opening_angle : option (list R)) (color : list (R * R * R)) : IO Fig :=
  match figure with
  | Some f => (io_emit (IoDrawCircle (Some f) None opening_angle color) ;;; io_ret f)%io
  | None =>
      (io_emit (IoDrawCircle None (Some hemisphere) opening_angle color) ;;;
       io_ret (FigStereographic hemisphere))%io
  end.

Definition plot (self : KikuchiPatternSimulator) (projection mode hemisphere : string)
           (figure : option Fig) (return_figure : bool) (backend : string)
  : IO (option Fig) :=
  (let ref := vectors (_reflectors self) in
   let allowed_modes := ["lines"; "bands"]%string in
   if negb (in_names mode allowed_modes) then
     io_raise (ValueError "`mode` must be either of ['lines', 'bands']")
   else
     (if String.eqb mode "bands" then
        match map theta ref with
        | [] => io_raise (IndexError "index 0 is out of bounds for axis 0 with size 0")
        | None :: _ =>
            io_raise (ValueError "Requires that reflectors have Bragg angles calculated with `self.reflectors.calculate_theta()`.")
        | Some _ :: _ => io_ret tt
        end
      else io_ret tt) ;;;
     f_hkl <- io_mapM io_abs_factor (map structure_factor ref) ;;
     color <- reflector_colors f_hkl ;;
     let color := map (fun c => (c, c, c)) color in
     figure <-
       (if String.eqb projection "stereographic" then
          if String.eqb mode "lines" then
            fig <- draw_circle figure hemisphere None color ;; io_ret fig
          else
            thetas <- io_mapM io_theta (map theta ref) ;;
            fig <- draw_circle figure hemisphere
                               (Some (map (fun t => PI / 2 - t) thetas)) color ;;
            draw_circle (Some fig) hemisphere
                        (Some (map (fun t => PI / 2 + t) thetas)) color ;;;
            io_ret fig
        else if String.eqb projection "spherical" then
          _plot_spherical mode color backend figure
        else
          io_raise (ValueError "Unknown `projection`, valid options are 'stereographic' and 'spherical'")) ;;
     if return_figure then io_ret (Some figure) else io_ret None)%io.

(** ** Example files *)

(** A scan group with the [EBSD/Data] and [EBSD/Header] subgroups. *)
Definition example_scan : node :=
  Group [("EBSD"%string,
          Group [("Data"%string,
                  Group [("patterns"%string, Dataset (DArray [DNum 1; DNum 2]))]);
                 ("Header"%string,
                  Group [(" Step X"%string, Dataset (DArray [DNum 3]))])])].

Definition example_file : list (string * node) :=
  [("manufacturer"%string, Dataset (DBytes "kikuchipy"));
   ("version"%string, Dataset (DBytes "0.1"));
   ("Scan 1"%string, example_scan)].

(** The same file without its manufacturer dataset. *)
Definition file_without_manufacturer : list (string * node) :=
  [("version"%string, Dataset (DBytes "0.1")); ("Scan 1"%string, example_scan)].

Definition example_reader : H5EBSDReader :=
  {| filename := "patterns.h5";
     file := example_file;
     scan_groups := get_scan_groups example_file;
     manufacturer := VStr "kikuchipy";
     version := VStr "0.1";
     patterns_name := "patterns" |}.

(** A value is [None] or a str that lowering leaves unchanged. *)
Definition none_or_lowercase (v : value) : Prop :=
  v = VNone \/ exists s, v = VStr s /\ lower s = s.

(** The scans found for the desired names, in the order of the names. *)
Definition found_scans (self : H5EBSDReader) (names : list string) : list group_obj :=
  flat_map (fun name =>
              match find_scan name (scan_group_names (scan_groups self))
                              (scan_groups self) with
              | Some scan => [scan]
              | None => []
              end) names.

(** The warnings for the desired names that are not found. *)
Definition missing_warnings (self : H5EBSDReader) (names : list string) : list io_event :=
  flat_map (fun name =>
              match find_scan name (scan_group_names (scan_groups self))
                              (scan_groups self) with
              | Some _ => []
              | None => [IoWarn (scan_missing_message self name)]
              end) names.

(** * Proofs *)

(** ** Boolean comparisons *)

Lemma Rleb_true_iff (x y : R) : Rleb x y = true <-> x <= y.
Proof. unfold Rleb; destruct (Rle_dec x y); split; intros; try easy. Qed.

Lemma Rleb_false_iff (x y : R) : Rleb x y = false <-> y < x.
Proof.
  unfold Rleb; destruct (Rle_dec x y); split; intros; try easy; lra.
Qed.

Lemma Rltb_true_iff (x y : R) : Rltb x y = true <-> x < y.
Proof. unfold Rltb; destruct (Rlt_dec x y); split; intros; try easy. Qed.

Lemma Rltb_false_iff (x y : R) : Rltb x y = false <-> y <= x.
Proof.
  unfold Rltb; destruct (Rlt_dec x y); split; intros; try easy; lra.
Qed.

(** ** Classification of a (grid point, reflector) pair *)

Lemma zone_mask_classify (d t : R) :
  Rleb (Rabs d) zone_tol = is_zone (classify d t).
Proof.
  unfold classify. destruct (Rleb (Rabs d) zone_tol); [reflexivity|].
  destruct (Rleb (PI / 2 - t) (acos d) && Rleb (acos d) (PI / 2)); reflexivity.
Qed.

Lemma band_mask_classify (d t : R) :
  (Rleb (PI / 2 - t) (acos d) && Rleb (acos d) (PI / 2))
    && negb (Rleb (Rabs d) zone_tol) = is_band (classify d t).
Proof.
  unfold classify. destruct (Rleb (Rabs d) zone_tol).
  - rewrite andb_false_r. reflexivity.
  - rewrite andb_true_r.
    destruct (Rleb (PI / 2 - t) (acos d) && Rleb (acos d) (PI / 2)); reflexivity.
Qed.

Lemma mask1_row_classify (v : vec3) (xyz_ref : list vec3) (bragg : list R) :
  length bragg = length xyz_ref ->
  map (fun d => Rleb (Rabs d) zone_tol) (map (fun r => dot v r) xyz_ref)
  = map2 (fun r t => is_zone (classify (dot v r) t)) xyz_ref bragg.
Proof.
  revert bragg. induction xyz_ref as [|r rs IH]; intros [|t ts] Hlen;
    simpl in *; try discriminate; try reflexivity.
  rewrite (zone_mask_classify (dot v r) t). f_equal. apply IH. lia.
Qed.

Lemma mask2_row_classify (v : vec3) (xyz_ref : list vec3) (bragg : list R) :
  length bragg = length xyz_ref ->
  let angles := map acos (map (fun r => dot v r) xyz_ref) in
  map2 andb
       (map2 andb
             (map2 (fun a t1 => Rleb t1 a) angles (map (fun t => PI / 2 - t) bragg))
             (map (fun a => Rleb a (PI / 2)) angles))
       (map negb (map (fun d => Rleb (Rabs d) zone_tol)
                      (map (fun r => dot v r) xyz_ref)))
  = map2 (fun r t => is_band (classify (dot v r) t)) xyz_ref bragg.
Proof.
  revert bragg. induction xyz_ref as [|r rs IH]; intros [|t ts] Hlen;
    simpl in *; try discriminate; try reflexivity.
  rewrite (band_mask_classify (dot v r) t). f_equal. apply IH. lia.
Qed.

Lemma pixel_row_sum (v : vec3) (xyz_ref : list vec3) (bragg intensity : list R) :
  length bragg = length xyz_ref ->
  length intensity = length xyz_ref ->
  1 / 2 * sum_where intensity
            (map2 (fun r t => is_zone (classify (dot v r) t)) xyz_ref bragg)
  + sum_where intensity
            (map2 (fun r t => is_band (classify (dot v r) t)) xyz_ref bragg)
  = pixel_sum intensity xyz_ref bragg v.
Proof.
  unfold pixel_sum, sum_where, Rsum.
  revert bragg intensity.
  induction xyz_ref as [|r rs IH]; intros [|t ts] [|i ints] Hb Hi;
    simpl in *; try discriminate; try lra.
  specialize (IH ts ints ltac:(lia) ltac:(lia)).
  unfold contribution at 1. destruct (classify (dot v r) t); simpl; lra.
Qed.

(** ** Blocks of rows *)

Lemma concat_chunk_rows_fuel {A} (fuel n : nat) (l : list A) :
  (0 < n)%nat -> (length l <= fuel)%nat -> concat (chunk_rows_fuel fuel n l) = l.
Proof.
  intros Hn. revert l. induction fuel as [|fuel IH]; intros l Hl.
  - destruct l; simpl in *; [reflexivity | lia].
  - destruct l as [|a l']; [reflexivity|].
    cbn [chunk_rows_fuel concat]. rewrite IH.
    + apply firstn_skipn.
    + rewrite length_skipn. cbn [length] in *. lia.
Qed.

Lemma concat_chunk_rows {A} (n : nat) (l : list A) :
  (0 < n)%nat -> concat (chunk_rows n l) = l.
Proof. intros Hn. apply concat_chunk_rows_fuel; [assumption | lia]. Qed.

Lemma pattern_block_pixels (intensity bragg : list R) (xyz_ref block : list vec3) :
  length bragg = length xyz_ref ->
  length intensity = length xyz_ref ->
  pattern_block intensity (map (fun t => PI / 2 - t) bragg) (PI / 2) xyz_ref block
  = map (pixel_sum intensity xyz_ref bragg) block.
Proof.
  intros Hb Hi. unfold pattern_block, _get_pattern, band_mask, zone_line_mask, dot_products.
  induction block as [|v vs IH]; [reflexivity|].
  cbn [map map2]. rewrite IH. f_equal.
  rewrite (mask2_row_classify v xyz_ref bragg Hb).
  rewrite (mask1_row_classify v xyz_ref bragg Hb).
  apply pixel_row_sum; assumption.
Qed.

(** ** Running monadic code *)

Lemma mapM_ok {A B} (f : A -> M B) (g : A -> B) (l : list A) (tr : list event) :
  (forall a, In a l -> f a tr = (Ok (g a), tr)) ->
  mapM f l tr = (Ok (map g l), tr).
Proof.
  induction l as [|a l IH]; intros Hf; [reflexivity|].
  cbn [mapM map]. unfold bind at 1. rewrite (Hf a (or_introl eq_refl)).
  unfold bind at 1. rewrite IH; [reflexivity|].
  intros b Hb. apply Hf. right. assumption.
Qed.

Lemma mapM_map {A B C} (f : B -> M C) (h : A -> B) (l : list A) :
  mapM f (map h l) = mapM (fun a => f (h a)) l.
Proof. induction l as [|a l IH]; [reflexivity|]. cbn [map mapM]. rewrite IH. reflexivity. Qed.

Lemma bind_ok {A B} (m : M A) (k : A -> M B) (a : A) (tr tr' : list event) :
  m tr = (Ok a, tr') -> bind m k tr = k a tr'.
Proof. intros Hm. unfold bind. rewrite Hm. reflexivity. Qed.

Lemma bind_raise {A B} (m : M A) (k : A -> M B) (e : exn) (tr tr' : list event) :
  m tr = (Raise e, tr') -> bind m k tr = (Raise e, tr').
Proof. intros Hm. unfold bind. rewrite Hm. reflexivity. Qed.

(** ** Intensities, band edges and the grid *)

Lemma Cabs_square (z : complex) : Cabs (Cmul z (conjugate z)) = Cabs z * Cabs z.
Proof.
  unfold Cabs, Cmul, conjugate. destruct z as [a b]. cbn [re im].
  assert (Hn : 0 <= a * a + b * b) by nra.
  rewrite sqrt_sqrt by assumption.
  replace ((a * a - b * - b) * (a * a - b * - b) + (a * - b + b * a) * (a * - b + b * a))
    with (Rsqr (a * a + b * b)) by (unfold Rsqr; ring).
  apply sqrt_Rsqr. assumption.
Qed.

Lemma repeat_map_const {A B} (b : B) (l : list A) :
  repeat b (length l) = map (fun _ => b) l.
Proof. induction l; simpl; congruence. Qed.

Lemma length_meshgrid_ravel (xs ys : list R) :
  length (meshgrid_ravel xs ys) = (length ys * length xs)%nat.
Proof.
  unfold meshgrid_ravel. induction ys as [|y ys IH]; [reflexivity|].
  cbn [flat_map]. rewrite length_app, length_map, IH. reflexivity.
Qed.

Lemma length_grid (n : nat) : length (grid n) = n.
Proof. unfold grid. rewrite length_map, length_seq. reflexivity. Qed.

Lemma linspace_ok (size : Z) (tr : list event) :
  (0 <= size)%Z -> linspace (-1) 1 size tr = (Ok (grid (Z.to_nat size)), tr).
Proof.
  intros Hs. unfold linspace. destruct (Z.ltb_spec size 0); [lia|]. reflexivity.
Qed.

Section MasterPatternProofs.
Context `{Orix}.

Lemma attributes_present_sufficient (self : KikuchiPatternSimulator)
      (scaling : option string) :
  attributes_present self -> attributes_sufficient self scaling.
Proof.
  unfold attributes_present, attributes_sufficient. intros [Hne Hall].
  rewrite Forall_forall in Hall. repeat split.
  - destruct (vectors (reflectors self)) as [|r rs] eqn:E; [congruence|].
    exists r, rs. split; [reflexivity|]. apply (Hall r). left. reflexivity.
  - rewrite Forall_forall. intros r Hr. apply (Hall r Hr).
  - intros _. rewrite Forall_forall. intros r Hr. apply (Hall r Hr).
Qed.

Lemma guards_ok (self : KikuchiPatternSimulator) (scaling : option string)
      (tr : list event) :
  attributes_sufficient self scaling ->
  _raise_if_no_theta self tr = (Ok tt, tr)
  /\ _raise_if_no_structure_factor self tr = (Ok tt, tr).
Proof.
  unfold attributes_sufficient, _raise_if_no_theta, _raise_if_no_structure_factor.
  intros [(r & rs & -> & Hf) [Ht _]].
  inversion Ht as [|? ? Htr _]; subst. cbn [map].
  destruct (theta r); [|congruence]. destruct (structure_factor r); [|congruence].
  split; reflexivity.
Qed.

Lemma select_intensity_ok (self : KikuchiPatternSimulator) (scaling : option string)
      (tr : list event) :
  attributes_sufficient self scaling -> valid_scaling scaling ->
  select_intensity self scaling tr
  = (Ok (map (scaled_intensity scaling) (vectors (reflectors self))), tr).
Proof.
  intros (_ & _ & Hall) Hs. unfold select_intensity.
  destruct Hs as [-> | [-> | ->]]; cbn [String.eqb Ascii.eqb Bool.eqb scaled_intensity].
  - specialize (Hall ltac:(discriminate)). rewrite Forall_forall in Hall.
    rewrite mapM_map. apply mapM_ok. intros r Hr. specialize (Hall r Hr).
    unfold abs_factor, scaled_intensity, factor_of.
    cbn [String.eqb Ascii.eqb Bool.eqb]. destruct (structure_factor r); [reflexivity | congruence].
  - specialize (Hall ltac:(discriminate)). rewrite Forall_forall in Hall.
    rewrite mapM_map. apply mapM_ok. intros r Hr. specialize (Hall r Hr).
    unfold square_factor, scaled_intensity, factor_of.
    cbn [String.eqb Ascii.eqb Bool.eqb]. destruct (structure_factor r); [|congruence].
    rewrite Cabs_square. reflexivity.
  - rewrite repeat_map_const. reflexivity.
Qed.

Lemma band_edges_ok (self : KikuchiPatternSimulator) (scaling : option string)
      (tr : list event) :
  attributes_sufficient self scaling ->
  mapM band_edge (map theta (vectors (reflectors self))) tr
  = (Ok (map (fun t => PI / 2 - t) (map bragg_of (vectors (reflectors self)))), tr).
Proof.
  intros (_ & Hall & _). rewrite map_map, mapM_map. apply mapM_ok. intros r Hr.
  rewrite Forall_forall in Hall. specialize (Hall r Hr).
  unfold band_edge, bragg_of. destruct (theta r); [reflexivity | congruence].
Qed.

Lemma hemisphere_pattern_ok (half_size : Z) (intensity bragg : list R)
      (xyz_ref : list vec3) (xy : list (R * R)) (pole : Z) (tr : list event) :
  (1 <= half_size)%Z ->
  length bragg = length xyz_ref ->
  length intensity = length xyz_ref ->
  hemisphere_pattern half_size intensity (map (fun t => PI / 2 - t) bragg) (PI / 2)
                     xyz_ref xy pole tr
  = (Ok (map (pixel_sum intensity xyz_ref bragg)
             (map (fun p => xy2vector pole (fst p) (snd p)) xy)), tr).
Proof.
  intros Hh Hb Hi. unfold hemisphere_pattern, from_array_chunks.
  destruct (Z.leb_spec half_size 0); [lia|].
  unfold bind, ret. f_equal. f_equal.
  rewrite (map_ext _ _ (fun block => pattern_block_pixels intensity bragg xyz_ref block Hb Hi)).
  rewrite <- concat_map. rewrite concat_chunk_rows by lia. reflexivity.
Qed.

Lemma da_store_ok (source target : list R) (tr : list event) :
  length source = length target -> da_store source target tr = (Ok source, tr).
Proof.
  intros Hlen. unfold da_store. rewrite Hlen, Nat.eqb_refl. reflexivity.
Qed.

Lemma length_hemisphere_values (self : KikuchiPatternSimulator)
      (scaling : option string) (n : nat) (pole : Z) :
  length (hemisphere_values self scaling n pole) = (n * n)%nat.
Proof.
  unfold hemisphere_values, pixel_directions.
  rewrite !length_map, length_meshgrid_ravel, length_grid. reflexivity.
Qed.

(** For valid arguments the call succeeds, materialises once, and returns
    the array of per-pixel sums of contributions. *)
Lemma calculate_master_pattern_ok (self : KikuchiPatternSimulator) (half_size : Z)
      (hemisphere : string) (scaling : option string) (tr : list event) :
  attributes_sufficient self scaling -> valid_hemisphere hemisphere ->
  valid_scaling scaling -> (1 <= half_size)%Z ->
  run (calculate_master_pattern self half_size hemisphere scaling) tr
  = (Ok {| mp_data := master_data self half_size hemisphere scaling;
           mp_phase := phase self;
           mp_hemisphere := hemisphere;
           mp_projection := "stereographic";
           mp_mode := "kinematical" |},
     tr ++ [EvStore (n_stored hemisphere)]).
Proof.
  intros Hattr Hhemi Hsc Hh. unfold run, calculate_master_pattern.
  destruct (guards_ok tr Hattr) as [Hg1 Hg2].
  rewrite (@bind_ok _ _ _ _ _ _ _ Hg1), (@bind_ok _ _ _ _ _ _ _ Hg2).
  assert (Hlen1 : length (map bragg_of (vectors (reflectors self)))
                  = length (map unit_direction (vectors (reflectors self))))
    by (rewrite !length_map; reflexivity).
  assert (Hlen2 : length (map (scaled_intensity scaling) (vectors (reflectors self)))
                  = length (map unit_direction (vectors (reflectors self))))
    by (rewrite !length_map; reflexivity).
  assert (Hstore : forall pole,
             length (hemisphere_values self scaling (Z.to_nat (2 * half_size + 1)) pole)
             = length (repeat 0 (Z.to_nat (2 * half_size + 1) * Z.to_nat (2 * half_size + 1))))
    by (intros pole; rewrite length_hemisphere_values, repeat_length; reflexivity).
  assert (Hsize : (0 <= 2 * half_size + 1)%Z) by lia.
  destruct Hhemi as [-> | [-> | ->]];
    unfold select_poles, master_data, n_stored;
    cbn [String.eqb Ascii.eqb Bool.eqb].
  all: unfold bind at 1; unfold ret at 1; cbv iota beta;
    rewrite (@bind_ok _ _ _ _ _ _ _ (select_intensity_ok tr Hattr Hsc));
    rewrite (@bind_ok _ _ _ _ _ _ _ (band_edges_ok tr Hattr));
    rewrite (@bind_ok _ _ _ _ _ _ _ (linspace_ok tr Hsize));
    cbn [mapM]; unfold bind;
    rewrite !hemisphere_pattern_ok by assumption;
    unfold ret, emit; cbn [mapM hd length]; unfold bind;
    fold (pixel_directions (-1) (Z.to_nat (2 * half_size + 1)));
    fold (pixel_directions 1 (Z.to_nat (2 * half_size + 1)));
    fold (hemisphere_values self scaling (Z.to_nat (2 * half_size + 1)) (-1));
    fold (hemisphere_values self scaling (Z.to_nat (2 * half_size + 1)) 1);
    rewrite !da_store_ok by apply Hstore; reflexivity.
Qed.

End MasterPatternProofs.

(** ** Reshaping a flat buffer *)

Lemma reshape2_S {A} (n m : nat) (l : list A) :
  reshape2 (S n) m l = firstn m l :: reshape2 n m (skipn m l).
Proof.
  unfold reshape2. cbn [seq map]. rewrite Nat.mul_0_l. cbn [skipn]. f_equal.
  rewrite <- seq_shift, map_map. apply map_ext. intros r.
  rewrite skipn_skipn. do 2 f_equal. lia.
Qed.

Lemma length_reshape2 {A} (n m : nat) (l : list A) : length (reshape2 n m l) = n.
Proof. unfold reshape2. rewrite length_map, length_seq. reflexivity. Qed.

Lemma concat_reshape2 {A} (n m : nat) (l : list A) :
  length l = (n * m)%nat -> concat (reshape2 n m l) = l.
Proof.
  revert l. induction n as [|n IH]; intros l Hl.
  - destruct l; [reflexivity | discriminate].
  - rewrite reshape2_S. cbn [concat]. rewrite IH.
    + apply firstn_skipn.
    + rewrite length_skipn. lia.
Qed.

Lemma reshape2_rows {A} (n m : nat) (l : list A) :
  length l = (n * m)%nat -> Forall (fun row => length row = m) (reshape2 n m l).
Proof.
  revert l. induction n as [|n IH]; intros l Hl.
  - constructor.
  - rewrite reshape2_S. constructor.
    + rewrite length_firstn. lia.
    + apply IH. rewrite length_skipn. lia.
Qed.

Lemma has_shape2_reshape2 (n : nat) (l : list R) :
  length l = (n * n)%nat -> has_shape2 (reshape2 n n l) (Z.of_nat n) (Z.of_nat n).
Proof.
  intros Hl. split.
  - rewrite length_reshape2. reflexivity.
  - eapply Forall_impl; [|apply (reshape2_rows n n l Hl)].
    intros row Hrow. cbv beta in Hrow. rewrite Hrow. reflexivity.
Qed.

(** * Properties of [calculate_master_pattern] *)

Section MasterPatternClaims.
Context `{Orix}.

(** C3. In the master-pattern renderer every (grid point, reflector) pair
    falls into exactly one of the classes [ExactZoneLine] (|dot| <= 1e-7),
    [InsideBand] (arccos(dot) between 90 degrees minus the Bragg angle and
    90 degrees, and not on the zone line) and [Outside]: the first mask of
    the code is the indicator of the first class and the second mask the
    indicator of the second.  A block of pixels evaluates, per pixel, to the
    sum over all reflectors of half the scaled intensity, the full scaled
    intensity or nothing according to the class, and so does every pixel of
    the array that [calculate_master_pattern] returns. *)
Theorem master_pattern_pair_classification
        (self : KikuchiPatternSimulator) (half_size : Z) (hemisphere : string)
        (scaling : option string) (tr : list event) :
  attributes_present self -> valid_hemisphere hemisphere -> valid_scaling scaling ->
  (1 <= half_size)%Z ->
  let refl := vectors (reflectors self) in
  let xyz_ref := map unit_direction refl in
  let bragg := map bragg_of refl in
  let intensity := map (scaled_intensity scaling) refl in
  (forall block : list vec3,
      let dp := dot_products block xyz_ref in
      let theta1 := map (fun t => PI / 2 - t) bragg in
      zone_line_mask dp
      = map (fun v => map2 (fun r t => is_zone (classify (dot v r) t)) xyz_ref bragg) block
      /\ band_mask (map (map acos) dp) theta1 (PI / 2) (zone_line_mask dp)
         = map (fun v => map2 (fun r t => is_band (classify (dot v r) t)) xyz_ref bragg) block
      /\ pattern_block intensity theta1 (PI / 2) xyz_ref block
         = map (fun v =>
                  Rsum (map2 (fun i dt => contribution i (dot v (fst dt)) (snd dt))
                             intensity (combine xyz_ref bragg))) block)
  /\ exists mp,
      run (calculate_master_pattern self half_size hemisphere scaling) tr
      = (Ok mp, tr ++ [EvStore (n_stored hemisphere)])
      /\ mp_data mp = master_data self half_size hemisphere scaling.
Proof.
  intros Hattr Hhemi Hsc Hh refl xyz_ref bragg intensity.
  assert (Hb : length bragg = length xyz_ref)
    by (unfold bragg, xyz_ref; rewrite !length_map; reflexivity).
  assert (Hi : length intensity = length xyz_ref)
    by (unfold intensity, xyz_ref; rewrite !length_map; reflexivity).
  split.
  - intros block dp theta1. repeat split.
    + unfold dp, zone_line_mask, dot_products. rewrite map_map.
      apply map_ext. intros v. apply mask1_row_classify. assumption.
    + unfold dp, theta1, band_mask, zone_line_mask, dot_products.
      induction block as [|v vs IH]; [reflexivity|].
      cbn [map map2]. rewrite IH. f_equal.
      apply (mask2_row_classify v xyz_ref bragg Hb).
    + apply pattern_block_pixels; assumption.
  - eexists. split.
    + apply calculate_master_pattern_ok; try assumption.
      apply attributes_present_sufficient. assumption.
    + reflexivity.
Qed.

(** C6. For every half-size h >= 1 (and otherwise valid arguments) the call
    returns an array whose last two dimensions are (2h+1, 2h+1): two such
    arrays stacked along a leading axis of length 2 when the hemisphere is
    "both", and a single two-dimensional array otherwise. *)
Theorem master_pattern_grid_size
        (self : KikuchiPatternSimulator) (half_size : Z) (hemisphere : string)
        (scaling : option string) (tr : list event) :
  (1 <= half_size)%Z ->
  attributes_present self -> valid_hemisphere hemisphere -> valid_scaling scaling ->
  exists mp tr',
    run (calculate_master_pattern self half_size hemisphere scaling) tr = (Ok mp, tr')
    /\ if String.eqb hemisphere "both" then
         exists north south,
           mp_data mp = Arr3 [north; south]
           /\ has_shape2 north (2 * half_size + 1) (2 * half_size + 1)
           /\ has_shape2 south (2 * half_size + 1) (2 * half_size + 1)
       else
         exists a,
           mp_data mp = Arr2 a
           /\ has_shape2 a (2 * half_size + 1) (2 * half_size + 1).
Proof.
  intros Hh Hattr Hhemi Hsc.
  assert (Hshape : forall pole,
             has_shape2 (hemisphere_array self scaling (Z.to_nat (2 * half_size + 1)) pole)
                        (2 * half_size + 1) (2 * half_size + 1)).
  { intros pole. rewrite <- (Z2Nat.id (2 * half_size + 1)) at 2 3 by lia.
    apply has_shape2_reshape2. apply length_hemisphere_values. }
  do 2 eexists. split.
  - apply calculate_master_pattern_ok; try assumption.
    apply attributes_present_sufficient. assumption.
  - cbn [mp_data]. unfold master_data.
    destruct Hhemi as [-> | [-> | ->]]; cbn [String.eqb Ascii.eqb Bool.eqb].
    + do 2 eexists. split; [reflexivity|]. split; apply Hshape.
    + eexists. split; [reflexivity|]. apply Hshape.
    + eexists. split; [reflexivity|]. apply Hshape.
Qed.

(** C9. For identical reflectors, half-size and scaling, the first slice of
    the stacked array returned for hemisphere "both" is the array returned
    for hemisphere "north". *)
Theorem master_pattern_both_first_slice_is_north
        (self : KikuchiPatternSimulator) (half_size : Z)
        (scaling : option string) (tr : list event) :
  (1 <= half_size)%Z -> attributes_present self -> valid_scaling scaling ->
  exists mp_both mp_north tr_both tr_north north south,
    run (calculate_master_pattern self half_size "both" scaling) tr
    = (Ok mp_both, tr_both)
    /\ run (calculate_master_pattern self half_size "north" scaling) tr
       = (Ok mp_north, tr_north)
    /\ mp_data mp_both = Arr3 [north; south]
    /\ mp_data mp_north = Arr2 north.
Proof.
  intros Hh Hattr Hsc.
  pose proof (attributes_present_sufficient scaling Hattr) as Hsuf.
  do 6 eexists. split; [|split; [|split]].
  - apply calculate_master_pattern_ok; try assumption. left. reflexivity.
  - apply calculate_master_pattern_ok; try assumption. right. left. reflexivity.
  - reflexivity.
  - reflexivity.
Qed.

End MasterPatternClaims.

Section PreconditionClaims.
Context `{Orix}.

(** C2, as amended.  [calculate_master_pattern] fails with a [ValueError]
    when the Bragg angle or the structure factor is absent on the first
    reflector of the set, the only one its guards inspect; the error is
    raised with the trace of materialisations unchanged, that is before any
    chunked evaluation begins. *)
Theorem precondition_error_on_first_reflector
        (self : KikuchiPatternSimulator) (half_size : Z) (hemisphere : string)
        (scaling : option string) (tr : list event)
        (r : Reflector) (rest : list Reflector) :
  vectors (reflectors self) = r :: rest ->
  theta r = None \/ structure_factor r = None ->
  exists msg,
    run (calculate_master_pattern self half_size hemisphere scaling) tr
    = (Raise (ValueError msg), tr).
Proof.
  intros Hvec Habsent. unfold run, calculate_master_pattern.
  destruct (theta r) as [t|] eqn:Ht.
  - destruct Habsent as [Habs | Habs]; [discriminate|].
    eexists. rewrite (@bind_ok _ _ _ _ tt tr tr).
    + apply bind_raise. unfold _raise_if_no_structure_factor.
      rewrite Hvec. cbn [map]. rewrite Habs. reflexivity.
    + unfold _raise_if_no_theta. rewrite Hvec. cbn [map]. rewrite Ht. reflexivity.
  - eexists. apply bind_raise. unfold _raise_if_no_theta.
    rewrite Hvec. cbn [map]. rewrite Ht. reflexivity.
Qed.

End PreconditionClaims.

Lemma precondition_error_on_first_reflector_witness :
  exists msg,
    run (calculate_master_pattern (simulator_of [reflector_no_theta]) 1 "north"
                                  (Some "linear"%string)) []
    = (Raise (ValueError msg), []).
Proof.
  apply (@precondition_error_on_first_reflector orix_model
           (simulator_of [reflector_no_theta]) 1 "north" (Some "linear"%string) []
           reflector_no_theta []).
  - reflexivity.
  - left. reflexivity.
Defined.

(** C2 as stated does not hold.  With the Bragg angle absent the call
    fails with a [ValueError], not a [MissingAttributeError]; and with the
    structure factor absent on the second reflector only and no scaling, the
    call does not fail at all. *)
Lemma missing_attribute_counterexample :
  (exists e,
      run (calculate_master_pattern (simulator_of [reflector_no_theta]) 1 "north"
                                    (Some "linear"%string)) []
      = (Raise e, [])
      /\ exn_class e = "ValueError"%string
      /\ exn_class e <> "MissingAttributeError"%string)
  /\ (exists mp,
         In reflector_no_factor [reflector_100; reflector_no_factor]
         /\ structure_factor reflector_no_factor = None
         /\ run (calculate_master_pattern
                   (simulator_of [reflector_100; reflector_no_factor]) 1 "north" None) []
            = (Ok mp, [EvStore 1])).
Proof.
  split.
  - eexists. split; [reflexivity|]. split; [reflexivity | discriminate].
  - eexists. split; [right; left; reflexivity|]. split; [reflexivity|].
    apply (@calculate_master_pattern_ok orix_model
             (simulator_of [reflector_100; reflector_no_factor]) 1 "north" None []).
    + repeat split.
      * exists reflector_100, [reflector_no_factor]. split; [reflexivity | discriminate].
      * repeat constructor; discriminate.
      * intros Hn. congruence.
    + right. left. reflexivity.
    + right. right. reflexivity.
    + lia.
Qed.

(** ** Scaling of intensities *)

Lemma map2_map_r {A B C} (f : A -> B -> C) (g : A -> B) (l : list A) :
  map2 f l (map g l) = map (fun v => f v (g v)) l.
Proof. induction l as [|a l IH]; [reflexivity|]. cbn [map map2]. rewrite IH. reflexivity. Qed.

Lemma Forall2_nth_error {A B} (P : A -> B -> Prop) (l1 : list A) (l2 : list B)
      (i : nat) (a : A) (b : B) :
  Forall2 P l1 l2 -> nth_error l1 i = Some a -> nth_error l2 i = Some b -> P a b.
Proof.
  intros HF. revert i. induction HF as [|x y l1 l2 Hxy _ IH]; intros [|i] Ha Hb;
    cbn [nth_error] in *; try discriminate.
  - congruence.
  - eapply IH; eassumption.
Qed.

Section ScalingClaims.
Context `{Orix}.

Lemma flat_master_data (self : KikuchiPatternSimulator) (half_size : Z)
      (hemisphere : string) (scaling : option string) :
  valid_hemisphere hemisphere ->
  let refl := vectors (reflectors self) in
  ndarray_flat (master_data self half_size hemisphere scaling)
  = map (pixel_sum (map (scaled_intensity scaling) refl)
                   (map unit_direction refl) (map bragg_of refl))
        (master_directions hemisphere (Z.to_nat (2 * half_size + 1))).
Proof.
  intros Hhemi refl. unfold master_data, master_directions, poles_of, hemisphere_array.
  destruct Hhemi as [-> | [-> | ->]];
    cbn [String.eqb Ascii.eqb Bool.eqb ndarray_flat map concat flat_map];
    rewrite !concat_reshape2 by apply length_hemisphere_values;
    rewrite ?app_nil_r, ?map_app; reflexivity.
Qed.

Lemma single_reflector_pixel (f : complex) (d : vec3) (t : R) (v : vec3) :
  pixel_sum [Cabs f * Cabs f] [d] [t] v
  = if Rleb (Rabs (dot v d)) zone_tol
    then 2 * (pixel_sum [Cabs f] [d] [t] v * pixel_sum [Cabs f] [d] [t] v)
    else pixel_sum [Cabs f] [d] [t] v * pixel_sum [Cabs f] [d] [t] v.
Proof.
  unfold pixel_sum, Rsum, contribution, classify. cbn [combine map2 fold_right fst snd].
  destruct (Rleb (Rabs (dot v d)) zone_tol).
  - field.
  - destruct (Rleb (PI / 2 - t) (acos (dot v d)) && Rleb (acos (dot v d)) (PI / 2)); ring.
Qed.

(** C5, as amended.  The intensity assigned to each reflector is |F| for
    "linear", |F|^2 (computed as |F conj(F)|) for "square" and 1 when scaling
    is None.  For a single-reflector set the "square" output equals the
    "linear" output squared at every element whose pixel is not on the exact
    zone line of the reflector (|dot| > 1e-7); on the exact zone line, where
    half the intensity is contributed, the "square" output is twice the
    "linear" output squared. *)
Theorem scaling_square_is_linear_squared_off_zone_line
        (self : KikuchiPatternSimulator) (half_size : Z) (hemisphere : string)
        (tr : list event) :
  attributes_present self -> valid_hemisphere hemisphere -> (1 <= half_size)%Z ->
  let refl := vectors (reflectors self) in
  (select_intensity self (Some "linear"%string) tr
   = (Ok (map (fun r => Cabs (factor_of r)) refl), tr)
   /\ select_intensity self (Some "square"%string) tr
      = (Ok (map (fun r => Cabs (Cmul (factor_of r) (conjugate (factor_of r)))) refl), tr)
   /\ (forall r, Cabs (Cmul (factor_of r) (conjugate (factor_of r)))
                 = Cabs (factor_of r) * Cabs (factor_of r))
   /\ select_intensity self None tr = (Ok (map (fun _ => 1) refl), tr))
  /\ (forall r, refl = [r] ->
      exists mp_linear mp_square,
        run (calculate_master_pattern self half_size hemisphere (Some "linear"%string)) tr
        = (Ok mp_linear, tr ++ [EvStore (n_stored hemisphere)])
        /\ run (calculate_master_pattern self half_size hemisphere (Some "square"%string)) tr
           = (Ok mp_square, tr ++ [EvStore (n_stored hemisphere)])
        /\ ndarray_flat (mp_data mp_square)
           = map2 (fun v l => if Rleb (Rabs (dot v (unit_direction r))) zone_tol
                              then 2 * (l * l) else l * l)
                  (master_directions hemisphere (Z.to_nat (2 * half_size + 1)))
                  (ndarray_flat (mp_data mp_linear))).
Proof.
  intros Hattr Hhemi Hh refl. split.
  - repeat split.
    + rewrite select_intensity_ok;
        [reflexivity | apply attributes_present_sufficient; assumption
         | left; reflexivity].
    + rewrite select_intensity_ok;
        [| apply attributes_present_sufficient; assumption
         | right; left; reflexivity].
      do 2 f_equal. apply map_ext. intros r. symmetry. apply Cabs_square.
    + intros r. apply Cabs_square.
    + rewrite select_intensity_ok;
        [reflexivity | apply attributes_present_sufficient; assumption
         | right; right; reflexivity].
  - intros r Hr. do 2 eexists. split; [|split].
    + apply calculate_master_pattern_ok; try assumption;
        [apply attributes_present_sufficient; assumption | left; reflexivity].
    + apply calculate_master_pattern_ok; try assumption;
        [apply attributes_present_sufficient; assumption | right; left; reflexivity].
    + cbn [mp_data]. rewrite !flat_master_data by assumption. cbv zeta.
      fold refl. rewrite Hr. rewrite map2_map_r. apply map_ext. intros v.
      cbn [map scaled_intensity String.eqb Ascii.eqb Bool.eqb].
      apply single_reflector_pixel.
Qed.

End ScalingClaims.

Lemma attributes_present_single : attributes_present (simulator_of [reflector_100]).
Proof.
  split; [discriminate|]. repeat constructor; discriminate.
Qed.

Lemma scaling_square_is_linear_squared_off_zone_line_witness :
  exists mp_linear mp_square,
    run (calculate_master_pattern (simulator_of [reflector_100]) 1 "north"
                                  (Some "linear"%string)) []
    = (Ok mp_linear, [EvStore 1])
    /\ run (calculate_master_pattern (simulator_of [reflector_100]) 1 "north"
                                     (Some "square"%string)) []
       = (Ok mp_square, [EvStore 1])
    /\ ndarray_flat (mp_data mp_square)
       = map2 (fun v l => if Rleb (Rabs (dot v (Vec3 1 0 0))) zone_tol
                          then 2 * (l * l) else l * l)
              (master_directions "north" 3)
              (ndarray_flat (mp_data mp_linear)).
Proof.
  refine (proj2 (@scaling_square_is_linear_squared_off_zone_line orix_model
                   (simulator_of [reflector_100]) 1 "north" []
                   attributes_present_single _ _) reflector_100 eq_refl).
  - right. left. reflexivity.
  - lia.
Defined.

(** The centre of the 3 x 3 grid maps to the pole, which is orthogonal to
    the direction (1,0,0). *)
Lemma centre_pixel_on_zone_line :
  nth_error (pixel_directions (-1) 3) 4 = Some (inverse_stereographic (-1) 0 0)
  /\ Rleb (Rabs (dot (inverse_stereographic (-1) 0 0) (Vec3 1 0 0))) zone_tol = true.
Proof.
  split.
  - unfold pixel_directions, meshgrid_ravel, grid.
    cbn [seq map flat_map app nth_error fst snd Nat.sub xy2vector orix_model].
    do 2 f_equal; cbn [INR]; lra.
  - apply Rleb_true_iff. unfold inverse_stereographic, dot. cbn [vx vy vz].
    replace (2 * 0 / (1 + 0 * 0 + 0 * 0) * 1 + 2 * 0 / (1 + 0 * 0 + 0 * 0) * 0
             + - IZR (-1) * (1 - 0 * 0 - 0 * 0) / (1 + 0 * 0 + 0 * 0) * 0)
      with 0 by (field; lra).
    rewrite Rabs_R0. unfold zone_tol. lra.
Qed.

Lemma Cabs_one : Cabs (Cplx 1 0) = 1.
Proof.
  unfold Cabs. cbn [re im]. replace (1 * 1 + 0 * 0) with 1 by ring. apply sqrt_1.
Qed.

(** C5 as stated does not hold.  For the single reflector (1,0,0) with
    structure factor 1+0j on a 3 x 3 grid, the centre pixel lies on the exact
    zone line: the "linear" output there is 1/2, whose square is 1/4, while
    the "square" output is 1/2. *)
Lemma scaling_square_counterexample :
  exists mp_linear mp_square,
    run (calculate_master_pattern (simulator_of [reflector_100]) 1 "north"
                                  (Some "linear"%string)) []
    = (Ok mp_linear, [EvStore 1])
    /\ run (calculate_master_pattern (simulator_of [reflector_100]) 1 "north"
                                     (Some "square"%string)) []
       = (Ok mp_square, [EvStore 1])
    /\ ~ elementwise_square (mp_data mp_linear) (mp_data mp_square).
Proof.
  pose proof (attributes_present_sufficient (Some "linear"%string)
                attributes_present_single) as Hlin.
  pose proof (attributes_present_sufficient (Some "square"%string)
                attributes_present_single) as Hsq.
  do 2 eexists. split; [|split].
  - apply (@calculate_master_pattern_ok orix_model); try assumption;
      [right; left; reflexivity | left; reflexivity | lia].
  - apply (@calculate_master_pattern_ok orix_model); try assumption;
      [right; left; reflexivity | right; left; reflexivity | lia].
  - cbn [mp_data]. unfold master_data.
    cbn [String.eqb Ascii.eqb Bool.eqb elementwise_square].
    change (Z.to_nat (2 * 1 + 1)) with 3%nat.
    intros Hall.
    destruct centre_pixel_on_zone_line as [Hcentre Hzone].
    assert (Hrow : forall sc,
               nth_error (hemisphere_array (simulator_of [reflector_100]) sc 3 (-1)) 1
               = Some (firstn 3 (skipn 3 (hemisphere_values
                                            (simulator_of [reflector_100]) sc 3 (-1)))))
      by reflexivity.
    pose proof (Forall2_nth_error 1 Hall (Hrow _) (Hrow _)) as Hmid.
    assert (Hcell : forall sc,
               nth_error (firstn 3 (skipn 3 (hemisphere_values
                                               (simulator_of [reflector_100]) sc 3 (-1)))) 1
               = Some (pixel_sum [scaled_intensity sc reflector_100] [Vec3 1 0 0] [PI / 18]
                                 (inverse_stereographic (-1) 0 0))).
    { intros sc. unfold hemisphere_values.
      pose proof (map_nth_error
                    (pixel_sum (map (scaled_intensity sc) [reflector_100])
                               (map unit_direction [reflector_100])
                               (map bragg_of [reflector_100])) 4 _ Hcentre) as Hm.
      unfold pixel_directions, meshgrid_ravel, grid in *.
      cbn [seq map flat_map app firstn skipn nth_error] in *. exact Hm. }
    pose proof (Forall2_nth_error 1 Hmid (Hcell _) (Hcell _)) as Heq.
    cbv beta in Heq. revert Heq.
    unfold pixel_sum, Rsum, contribution, classify, scaled_intensity, factor_of.
    cbn [combine map2 fold_right fst snd String.eqb Ascii.eqb Bool.eqb
         structure_factor reflector_100].
    rewrite Hzone, Cabs_one. lra.
Qed.

(** * Properties of the visibility filter *)

Lemma count_true_nonneg (rows : list (list bool)) (k : nat) :
  (0 <= count_true rows k)%Z.
Proof.
  unfold count_true. induction rows as [|row rows IH]; cbn [map fold_right]; [lia|].
  destruct (nth k row false); lia.
Qed.

Lemma count_true_nonzero_iff (rows : list (list bool)) (k : nat) :
  negb (Z.eqb (count_true rows k) 0) = true
  <-> exists row, In row rows /\ nth k row false = true.
Proof.
  rewrite negb_true_iff, Z.eqb_neq.
  induction rows as [|row rows IH].
  - split; [intros Hc; exfalso; apply Hc; reflexivity | intros (r & [] & _)].
  - pose proof (count_true_nonneg rows k) as Hnn.
    unfold count_true in *. cbn [map fold_right].
    destruct (nth k row false) eqn:Hk.
    + split; [|intros _; lia]. intros _. exists row. split; [left; reflexivity | assumption].
    + rewrite Z.add_0_l. rewrite IH. split.
      * intros (r & Hin & Hr). exists r. split; [right; assumption | assumption].
      * intros (r & [<- | Hin] & Hr); [congruence|]. exists r. split; assumption.
Qed.

Lemma nth_map_positive (row : list R) (k : nat) :
  nth k (map (fun z => Rltb 0 z) row) false = true
  <-> exists x, nth_error row k = Some x /\ 0 < x.
Proof.
  revert k. induction row as [|z row IH]; intros [|k]; cbn [map nth nth_error].
  - split; [discriminate | intros (x & Hx & _); discriminate].
  - split; [discriminate | intros (x & Hx & _); discriminate].
  - rewrite Rltb_true_iff. split.
    + intros Hz. exists z. split; [reflexivity | assumption].
    + intros (x & Hx & Hpos). congruence.
  - apply IH.
Qed.

(** C1. For every array of projected z-components the filter returns (a) a
    mask of the same navigation shape whose entry for an orientation and an
    item is True exactly when that z-component is strictly positive, so a
    z-component equal to 0 is flagged False, and (b) a mask over the items
    that is True for an item exactly when some orientation has a strictly
    positive z-component for it. *)
Theorem upper_hemisphere_filter (n_items : nat) (z_coordinates : nav (list R)) :
  let upper_hemisphere := fst (_get_coordinates_in_upper_hemisphere n_items z_coordinates) in
  let in_a_pattern := snd (_get_coordinates_in_upper_hemisphere n_items z_coordinates) in
  shape upper_hemisphere = shape z_coordinates
  /\ length (cells upper_hemisphere) = length (cells z_coordinates)
  /\ (forall p row, nth_error (cells z_coordinates) p = Some row ->
        exists flags,
          nth_error (cells upper_hemisphere) p = Some flags
          /\ length flags = length row
          /\ forall k z, nth_error row k = Some z ->
               exists b, nth_error flags k = Some b
                         /\ (b = true <-> 0 < z)
                         /\ (z = 0 -> b = false))
  /\ length in_a_pattern = n_items
  /\ (forall k, (k < n_items)%nat ->
        (nth k in_a_pattern false = true
         <-> exists p row z, nth_error (cells z_coordinates) p = Some row
                             /\ nth_error row k = Some z /\ 0 < z)).
Proof.
  cbn [_get_coordinates_in_upper_hemisphere fst snd nav_map shape cells].
  split; [reflexivity|]. split; [apply length_map|]. split; [|split].
  - intros p row Hrow. exists (map (fun z => Rltb 0 z) row).
    split; [apply map_nth_error; assumption|]. split; [apply length_map|].
    intros k z Hz. exists (Rltb 0 z).
    split; [apply (map_nth_error (fun z => Rltb 0 z)); assumption|].
    split; [apply Rltb_true_iff|].
    intros ->. apply Rltb_false_iff. lra.
  - rewrite length_map, length_seq. reflexivity.
  - intros k Hk.
    rewrite (nth_indep _ false (negb (Z.eqb (count_true
               (map (map (fun z => Rltb 0 z)) (cells z_coordinates)) 0) 0)))
      by (rewrite length_map, length_seq; assumption).
    rewrite (map_nth (fun k => negb (Z.eqb (count_true
               (map (map (fun z => Rltb 0 z)) (cells z_coordinates)) k) 0))).
    rewrite seq_nth by assumption. cbn [Nat.add].
    rewrite count_true_nonzero_iff. split.
    + intros (flags & Hin & Hflag). apply in_map_iff in Hin.
      destruct Hin as (row & <- & Hin). apply nth_map_positive in Hflag.
      destruct Hflag as (z & Hz & Hpos).
      apply In_nth_error in Hin. destruct Hin as (p & Hp).
      exists p, row, z. repeat split; assumption.
    + intros (p & row & z & Hp & Hz & Hpos).
      exists (map (fun z => Rltb 0 z) row). split.
      * apply in_map. eapply nth_error_In. eassumption.
      * apply nth_map_positive. exists z. split; assumption.
Qed.

(** * Properties of [on_detector] *)

Lemma mask_select_map {A B} (f : A -> B) (mask : list bool) (l : list A) :
  mask_select mask (map f l) = map f (mask_select mask l).
Proof.
  revert l. induction mask as [|b mask IH]; intros [|a l]; cbn [mask_select map];
    try reflexivity.
  destruct b; cbn [map]; rewrite IH; reflexivity.
Qed.

Lemma nav_map_map {A B C} (f : A -> B) (g : B -> C) (a : nav A) :
  nav_map g (nav_map f a) = nav_map (fun x => g (f x)) a.
Proof. unfold nav_map. cbn [shape cells]. rewrite map_map. reflexivity. Qed.

Lemma nav_map_ext {A B} (f g : A -> B) (a : nav A) :
  (forall x, f x = g x) -> nav_map f a = nav_map g a.
Proof. intros Hfg. unfold nav_map. f_equal. apply map_ext. assumption. Qed.

Section DetectorProofs.
Context `{Orix}.
Variable G : Type.

(** Culling the projected coordinates is projecting the culled indices. *)
Lemma cull_project (mask : list bool) (vs : list idx3) (u : nav mat3) :
  nav_map (mask_select mask) (project vs u) = project (mask_select mask vs) u.
Proof.
  unfold project. rewrite nav_map_map. apply nav_map_ext. intros m.
  apply mask_select_map.
Qed.

Lemma cull_upper (mask : list bool) (vs : list idx3) (u : nav mat3) :
  nav_map (mask_select mask)
          (fst (_get_coordinates_in_upper_hemisphere
                  (length vs) (nav_map (map vz) (project vs u))))
  = upper_flags (project (mask_select mask vs) u).
Proof.
  cbn [_get_coordinates_in_upper_hemisphere fst]. unfold upper_flags, project.
  rewrite !nav_map_map. apply nav_map_ext. intros m.
  rewrite !map_map. rewrite mask_select_map. reflexivity.
Qed.

(** With a non-empty [r_max] the call succeeds after three materialisations
    and returns [simulation_of]. *)
Lemma on_detector_ok (self : KikuchiPatternSimulator) (detector : EBSDDetector G)
      (rotations : nav Rotation) (tr : list event) (r0 : G) (rest : list G) :
  r_max detector = r0 :: rest ->
  run (on_detector self detector rotations) tr
  = (Ok (simulation_of self detector rotations r0),
     tr ++ [EvCompute 1; EvCompute 1; EvCompute 4]).
Proof.
  intros Hr. unfold run, on_detector, r_max_0. rewrite Hr.
  rewrite (surjective_pairing (_get_coordinates_in_upper_hemisphere
             (length (map hkl (vectors (_reflectors self)))) _)).
  unfold bind, emit, ret.
  rewrite (surjective_pairing (_get_coordinates_in_upper_hemisphere
             (length (derive_zone_axes _)) _)).
  rewrite !cull_project, !cull_upper.
  rewrite <- !app_assoc. reflexivity.
Qed.

End DetectorProofs.

(** ** Composition of the reference-frame transforms *)



Section DetectorClaims.
Context `{Orix}.
Variable G : Type.



End DetectorClaims.



(** ** Batches of identical orientations *)

Lemma visible_mask_cells_ext (vs : list idx3) (u1 u2 : nav mat3) :
  (forall m, In m (cells u1) <-> In m (cells u2)) ->
  visible_mask vs u1 = visible_mask vs u2.
Proof.
  intros Hcells. unfold visible_mask.
  cbn [_get_coordinates_in_upper_hemisphere snd nav_map cells].
  apply map_ext. intros k. apply Bool.eq_iff_eq_true.
  rewrite !count_true_nonzero_iff. rewrite !map_map.
  split; intros (row & Hin & Hrow); exists row; (split; [|assumption]);
    apply in_map_iff in Hin; destruct Hin as (m & <- & Hm);
    apply in_map_iff; exists m; (split; [reflexivity | apply Hcells; assumption]).
Qed.

Lemma in_repeat_iff {A} (x y : A) (n : nat) :
  (0 < n)%nat -> In y (repeat x n) <-> In y [x].
Proof.
  intros Hn. split.
  - intros Hy. apply repeat_spec in Hy. left. congruence.
  - intros [<- | []]. destruct n; [lia|]. left. reflexivity.
Qed.

Lemma nav_get_repeat_1 {A} (x : A) :
  nav_get {| shape := Nav1 1; cells := [x] |} [0%nat] = Some x.
Proof. reflexivity. Qed.

Lemma nth_error_repeat_lt {A} (x : A) (n k : nat) :
  (k < n)%nat -> nth_error (repeat x n) k = Some x.
Proof.
  revert k. induction n as [|n IH]; intros [|k] Hk; cbn [repeat nth_error];
    try lia; [reflexivity|]. apply IH. lia.
Qed.

Lemma nav_get_repeat_5x5 {A} (x : A) (i j : nat) :
  (i < 5)%nat -> (j < 5)%nat ->
  nav_get {| shape := Nav2 5 5; cells := repeat x 25 |} [i; j] = Some x.
Proof.
  intros Hi Hj. unfold nav_get. cbn [shape cells].
  destruct (Nat.ltb_spec i 5); [|lia]. destruct (Nat.ltb_spec j 5); [|lia].
  cbn [andb]. apply nth_error_repeat_lt. lia.
Qed.

Section ConstantBatch.
Context `{Orix}.
Variable G : Type.
Variables (self : KikuchiPatternSimulator) (detector : EBSDDetector G).

Lemma u_kstar_of_repeat (s : nav_shape) (o : Rotation) (n : nat) :
  u_kstar_of self detector {| shape := s; cells := repeat o n |}
  = {| shape := s; cells := repeat (reciprocal_to_detector self detector o) n |}.
Proof.
  unfold u_kstar_of, u_os_of, nav_map. cbn [shape cells].
  rewrite !map_repeat. reflexivity.
Qed.

Lemma u_k_of_repeat (s : nav_shape) (o : Rotation) (n : nat) :
  u_k_of self detector {| shape := s; cells := repeat o n |}
  = {| shape := s; cells := repeat (direct_to_detector self detector o) n |}.
Proof.
  unfold u_k_of, u_os_of, nav_map. cbn [shape cells].
  rewrite !map_repeat. reflexivity.
Qed.

Lemma visible_subset_repeat (vs : list idx3) (s : nav_shape) (m : mat3) (n : nat) :
  (0 < n)%nat ->
  visible_subset vs {| shape := s; cells := repeat m n |}
  = visible_subset vs {| shape := Nav1 1; cells := [m] |}.
Proof.
  intros Hn. unfold visible_subset. f_equal. apply visible_mask_cells_ext.
  intros x. cbn [cells]. apply in_repeat_iff. assumption.
Qed.

Lemma visible_hkl_repeat (s : nav_shape) (o : Rotation) (n : nat) :
  (0 < n)%nat ->
  visible_hkl self detector {| shape := s; cells := repeat o n |}
  = visible_hkl self detector (single_orientation o).
Proof.
  intros Hn. unfold visible_hkl, single_orientation.
  change [o] with (repeat o 1). rewrite !u_kstar_of_repeat.
  rewrite visible_subset_repeat by assumption. reflexivity.
Qed.

Lemma visible_uvw_repeat (s : nav_shape) (o : Rotation) (n : nat) :
  (0 < n)%nat ->
  visible_uvw self detector {| shape := s; cells := repeat o n |}
  = visible_uvw self detector (single_orientation o).
Proof.
  intros Hn. unfold visible_uvw. rewrite visible_hkl_repeat by assumption.
  unfold single_orientation. change [o] with (repeat o 1). rewrite !u_k_of_repeat.
  rewrite visible_subset_repeat by assumption. reflexivity.
Qed.

(** The bundles of a batch of [n] copies of one orientation hold, in every
    cell, what the bundles of the single orientation hold in their only
    cell. *)
Lemma simulation_of_repeat (s : nav_shape) (o : Rotation) (n : nat) (r0 : G) :
  (0 < n)%nat ->
  let sim := simulation_of self detector {| shape := s; cells := repeat o n |} r0 in
  let hkl1 := visible_hkl self detector (single_orientation o) in
  let uvw1 := visible_uvw self detector (single_orientation o) in
  let hkl_d := map (fun v => vecmat (idx3_to_vec v) (reciprocal_to_detector self detector o)) hkl1 in
  let uvw_d := map (fun v => vecmat (idx3_to_vec v) (direct_to_detector self detector o)) uvw1 in
  coordinates (line_hkl (lines sim)) = hkl1
  /\ coordinates (za_uvw (zone_axes sim)) = uvw1
  /\ line_hkl_detector (lines sim) = {| shape := s; cells := repeat hkl_d n |}
  /\ line_in_pattern (lines sim)
     = {| shape := s; cells := repeat (map (fun v => Rltb 0 (vz v)) hkl_d) n |}
  /\ za_uvw_detector (zone_axes sim) = {| shape := s; cells := repeat uvw_d n |}
  /\ za_in_pattern (zone_axes sim)
     = {| shape := s; cells := repeat (map (fun v => Rltb 0 (vz v)) uvw_d) n |}.
Proof.
  intros Hn.
  cbn [simulation_of lines zone_axes line_hkl za_uvw coordinates line_hkl_detector
       line_in_pattern za_uvw_detector za_in_pattern].
  rewrite !visible_hkl_repeat, !visible_uvw_repeat by assumption.
  rewrite u_kstar_of_repeat, u_k_of_repeat.
  unfold upper_flags, project, nav_map. cbn [shape cells].
  rewrite !map_repeat. repeat split; reflexivity.
Qed.

End ConstantBatch.

Section NavigationClaims.
Context `{Orix}.
Variable G : Type.

(** C8. [on_detector] hands the navigation shape of the orientation batch
    (one or two leading axes) to every per-orientation array it returns.
    In particular, for a single orientation and for a (5, 5) grid of 25
    copies of it, the retained reflectors and zone axes are the same, and
    every grid cell holds the detector-frame coordinates and the visibility
    that the single-orientation result holds in its only cell. *)
Theorem navigation_shape_preserved
        (self : KikuchiPatternSimulator) (detector : EBSDDetector G)
        (tr : list event) (r0 : G) (rest : list G) :
  r_max detector = r0 :: rest ->
  (forall rotations,
      exists sim tr',
        run (on_detector self detector rotations) tr = (Ok sim, tr')
        /\ shape (line_hkl_detector (lines sim)) = shape rotations
        /\ shape (line_in_pattern (lines sim)) = shape rotations
        /\ shape (za_uvw_detector (zone_axes sim)) = shape rotations
        /\ shape (za_in_pattern (zone_axes sim)) = shape rotations
        /\ length (cells (line_hkl_detector (lines sim))) = length (cells rotations)
        /\ length (cells (line_in_pattern (lines sim))) = length (cells rotations)
        /\ length (cells (za_uvw_detector (zone_axes sim))) = length (cells rotations)
        /\ length (cells (za_in_pattern (zone_axes sim))) = length (cells rotations))
  /\ (forall o,
         exists single grid tr1 tr2 hkl_d hkl_flags uvw_d uvw_flags,
           run (on_detector self detector (single_orientation o)) tr = (Ok single, tr1)
           /\ run (on_detector self detector (grid_5x5 o)) tr = (Ok grid, tr2)
           /\ coordinates (line_hkl (lines grid)) = coordinates (line_hkl (lines single))
           /\ coordinates (za_uvw (zone_axes grid)) = coordinates (za_uvw (zone_axes single))
           /\ nav_get (line_hkl_detector (lines single)) [0%nat] = Some hkl_d
           /\ nav_get (line_in_pattern (lines single)) [0%nat] = Some hkl_flags
           /\ nav_get (za_uvw_detector (zone_axes single)) [0%nat] = Some uvw_d
           /\ nav_get (za_in_pattern (zone_axes single)) [0%nat] = Some uvw_flags
           /\ forall i j, (i < 5)%nat -> (j < 5)%nat ->
                nav_get (line_hkl_detector (lines grid)) [i; j] = Some hkl_d
                /\ nav_get (line_in_pattern (lines grid)) [i; j] = Some hkl_flags
                /\ nav_get (za_uvw_detector (zone_axes grid)) [i; j] = Some uvw_d
                /\ nav_get (za_in_pattern (zone_axes grid)) [i; j] = Some uvw_flags).
Proof.
  intros Hr. split.
  - intros rotations. exists (simulation_of self detector rotations r0). eexists.
    split; [apply (on_detector_ok self detector rotations tr Hr)|].
    cbn [simulation_of lines zone_axes line_hkl_detector line_in_pattern
         za_uvw_detector za_in_pattern].
    unfold upper_flags, project, u_kstar_of, u_k_of, u_os_of, nav_map.
    cbn [shape cells]. rewrite !length_map. repeat split; reflexivity.
  - intros o.
    destruct (@simulation_of_repeat _ G self detector (Nav1 1) o 1 r0 ltac:(lia))
      as (Hs1 & Hs2 & Hs3 & Hs4 & Hs5 & Hs6).
    destruct (@simulation_of_repeat _ G self detector (Nav2 5 5) o 25 r0 ltac:(lia))
      as (Hg1 & Hg2 & Hg3 & Hg4 & Hg5 & Hg6).
    exists (simulation_of self detector (single_orientation o) r0).
    exists (simulation_of self detector (grid_5x5 o) r0).
    do 6 eexists.
    split; [apply (on_detector_ok self detector (single_orientation o) tr Hr)|].
    split; [apply (on_detector_ok self detector (grid_5x5 o) tr Hr)|].
    unfold single_orientation, grid_5x5 in *. change [o] with (repeat o 1).
    rewrite Hs1, Hs2, Hs3, Hs4, Hs5, Hs6, Hg1, Hg2, Hg3, Hg4, Hg5, Hg6.
    cbn [repeat].
    split; [reflexivity|]. split; [reflexivity|].
    split; [apply nav_get_repeat_1|]. split; [apply nav_get_repeat_1|].
    split; [apply nav_get_repeat_1|]. split; [apply nav_get_repeat_1|].
    intros i j Hi Hj.
    repeat split; apply (nav_get_repeat_5x5 _ Hi Hj).
Qed.

End NavigationClaims.

Lemma navigation_shape_preserved_witness :
  exists single grid tr1 tr2 hkl_d hkl_flags,
    run (on_detector (simulator_of [reflector_100; reflector_010]) detector_two_radii
                     (@single_orientation orix_model identity3)) []
    = (Ok single, tr1)
    /\ run (on_detector (simulator_of [reflector_100; reflector_010]) detector_two_radii
                        (@grid_5x5 orix_model identity3)) []
       = (Ok grid, tr2)
    /\ nav_get (line_hkl_detector (lines single)) [0%nat] = Some hkl_d
    /\ nav_get (line_in_pattern (lines single)) [0%nat] = Some hkl_flags
    /\ nav_get (line_hkl_detector (lines grid)) [4%nat; 4%nat] = Some hkl_d
    /\ nav_get (line_in_pattern (lines grid)) [4%nat; 4%nat] = Some hkl_flags.
Proof.
  destruct (proj2 (@navigation_shape_preserved orix_model R
                     (simulator_of [reflector_100; reflector_010]) detector_two_radii
                     [] 1 [2] eq_refl) identity3)
    as (single & grid & tr1 & tr2 & hkl_d & hkl_flags & uvw_d & uvw_flags
        & Hrun1 & Hrun2 & _ & _ & Hd & Hf & _ & _ & Hcells).
  exists single, grid, tr1, tr2, hkl_d, hkl_flags.
  destruct (Hcells 4%nat 4%nat ltac:(lia) ltac:(lia)) as (Hgd & Hgf & _ & _).
  repeat split; assumption.
Defined.

(** * Properties of the zone-axis derivation *)

Lemma idx3_eqb_eq (a b : idx3) : idx3_eqb a b = true <-> a = b.
Proof.
  destruct a as [a1 a2 a3], b as [b1 b2 b3]. unfold idx3_eqb. cbn [i1 i2 i3].
  rewrite !andb_true_iff, !Z.eqb_eq. split.
  - intros [[-> ->] ->]. reflexivity.
  - intros Heq. inversion Heq. repeat split; reflexivity.
Qed.


Lemma idx3_compare_eq (a b : idx3) : idx3_compare a b = Eq <-> a = b.
Proof.
  destruct a as [a1 a2 a3], b as [b1 b2 b3]. unfold idx3_compare. cbn [i1 i2 i3].
  split.
  - destruct (Z.compare_spec a1 b1); try discriminate.
    destruct (Z.compare_spec a2 b2); try discriminate.
    destruct (Z.compare_spec a3 b3); try discriminate. intros _. congruence.
  - intros Heq. inversion Heq. rewrite !Z.compare_refl. reflexivity.
Qed.

Lemma in_insert_unique (x y : idx3) (l : list idx3) :
  In y (insert_unique x l) <-> y = x \/ In y l.
Proof.
  induction l as [|z l IH]; cbn [insert_unique].
  - cbn [In]. intuition congruence.
  - destruct (idx3_compare x z) eqn:Hc; cbn [In].
    + apply idx3_compare_eq in Hc. subst. intuition congruence.
    + intuition congruence.
    + rewrite IH. intuition congruence.
Qed.

Lemma in_np_unique_rows (y : idx3) (l : list idx3) :
  In y (np_unique_rows l) <-> In y l.
Proof.
  unfold np_unique_rows. induction l as [|x l IH]; cbn [fold_right In]; [reflexivity|].
  rewrite in_insert_unique, IH. intuition congruence.
Qed.

Lemma in_miller_unique (y : idx3) (l : list idx3) :
  In y (miller_unique l) <-> In y l.
Proof.
  induction l as [|x l IH]; cbn [miller_unique In]; [reflexivity|].
  rewrite filter_In, IH, negb_true_iff. split.
  - intros [-> | [Hin _]]; [left; reflexivity | right; assumption].
  - intros [-> | Hin]; [left; reflexivity|].
    destruct (idx3_eqb x y) eqn:Hxy.
    + left. apply idx3_eqb_eq. assumption.
    + right. split; [assumption | reflexivity].
Qed.


Lemma in_cross_pairs (w : idx3) (l : list idx3) :
  In w (cross_pairs l) <-> exists a b, In a l /\ In b l /\ w = cross a b.
Proof.
  unfold cross_pairs. rewrite in_flat_map. split.
  - intros (a & Ha & Hw). apply in_map_iff in Hw. destruct Hw as (b & <- & Hb).
    exists a, b. repeat split; assumption.
  - intros (a & b & Ha & Hb & ->). exists a. split; [assumption|].
    apply in_map_iff. exists b. split; [reflexivity | assumption].
Qed.

Lemma is_zero3_false_iff (v : idx3) : negb (is_zero3 v) = true <-> v <> zero3.
Proof.
  unfold is_zero3. rewrite negb_true_iff. split.
  - intros Hf Heq. apply idx3_eqb_eq in Heq. congruence.
  - intros Hne. destruct (idx3_eqb v zero3) eqn:He; [|reflexivity].
    apply idx3_eqb_eq in He. contradiction.
Qed.

(** ** Division by the GCD *)









Section ZoneAxisClaims.
Context `{Orix}.

Lemma in_derive_zone_axes (w : idx3) (hkls : list idx3) :
  In w (derive_zone_axes hkls)
  <-> exists a b, In a hkls /\ In b hkls /\ cross a b <> zero3
                  /\ w = miller_round (cross a b).
Proof.
  unfold derive_zone_axes. rewrite in_miller_unique, in_map_iff. split.
  - intros (c & <- & Hc). rewrite in_np_unique_rows, filter_In in Hc.
    destruct Hc as [Hc Hnz]. rewrite in_cross_pairs in Hc.
    destruct Hc as (a & b & Ha & Hb & ->).
    exists a, b. repeat split; try assumption. apply is_zero3_false_iff. assumption.
  - intros (a & b & Ha & Hb & Hnz & ->). exists (cross a b). split; [reflexivity|].
    apply in_np_unique_rows. apply filter_In. split.
    + apply in_cross_pairs. exists a, b. repeat split; assumption.
    + apply is_zero3_false_iff. assumption.
Qed.


End ZoneAxisClaims.


(** * The master-pattern properties on the single reflector (1,0,0) *)

Lemma master_pattern_pair_classification_witness :
  exists mp,
    run (calculate_master_pattern (simulator_of [reflector_100]) 1 "north"
                                  (Some "linear"%string)) []
    = (Ok mp, [EvStore 1])
    /\ mp_data mp
       = master_data (simulator_of [reflector_100]) 1 "north" (Some "linear"%string).
Proof.
  refine (proj2 (@master_pattern_pair_classification orix_model
                   (simulator_of [reflector_100]) 1 "north" (Some "linear"%string) []
                   attributes_present_single _ _ _)).
  - right. left. reflexivity.
  - left. reflexivity.
  - lia.
Defined.

Lemma master_pattern_grid_size_witness :
  exists mp tr',
    run (calculate_master_pattern (simulator_of [reflector_100]) 1 "both"
                                  (Some "linear"%string)) []
    = (Ok mp, tr')
    /\ exists north south,
        mp_data mp = Arr3 [north; south]
        /\ has_shape2 north 3 3 /\ has_shape2 south 3 3.
Proof.
  refine (@master_pattern_grid_size orix_model (simulator_of [reflector_100]) 1 "both"
            (Some "linear"%string) [] _ attributes_present_single _ _).
  - lia.
  - left. reflexivity.
  - left. reflexivity.
Defined.

Lemma master_pattern_both_first_slice_is_north_witness :
  exists mp_both mp_north tr_both tr_north north south,
    run (calculate_master_pattern (simulator_of [reflector_100]) 1 "both" None) []
    = (Ok mp_both, tr_both)
    /\ run (calculate_master_pattern (simulator_of [reflector_100]) 1 "north" None) []
       = (Ok mp_north, tr_north)
    /\ mp_data mp_both = Arr3 [north; south]
    /\ mp_data mp_north = Arr2 north.
Proof.
  refine (@master_pattern_both_first_slice_is_north orix_model
            (simulator_of [reflector_100]) 1 None [] _ attributes_present_single _).
  - lia.
  - right. right. reflexivity.
Defined.

(** * Further properties of [calculate_master_pattern] *)

Section MasterPatternOptions.
Context `{Orix}.

Lemma guards_pass_on_first (self : KikuchiPatternSimulator) (r : Reflector)
      (rest : list Reflector) (tr : list event) :
  vectors (reflectors self) = r :: rest ->
  theta r <> None -> structure_factor r <> None ->
  _raise_if_no_theta self tr = (Ok tt, tr)
  /\ _raise_if_no_structure_factor self tr = (Ok tt, tr).
Proof.
  intros Hvec Ht Hf. unfold _raise_if_no_theta, _raise_if_no_structure_factor.
  rewrite Hvec. cbn [map].
  destruct (theta r); [|congruence]. destruct (structure_factor r); [|congruence].
  split; reflexivity.
Qed.

(** A hemisphere other than "both", "north" and "south" is rejected with a
    [ValueError], whatever the scaling and the half size, once the guards on
    the first reflector have passed and before anything is materialised. *)
Theorem unknown_hemisphere_is_rejected
        (self : KikuchiPatternSimulator) (half_size : Z) (hemisphere : string)
        (scaling : option string) (tr : list event)
        (r : Reflector) (rest : list Reflector) :
  vectors (reflectors self) = r :: rest ->
  theta r <> None -> structure_factor r <> None ->
  ~ valid_hemisphere hemisphere ->
  run (calculate_master_pattern self half_size hemisphere scaling) tr
  = (Raise (ValueError
              "Unknown `hemisphere`, valid options are 'north', 'south' or 'both'"),
     tr).
Proof.
  intros Hvec Ht Hf Hbad. unfold run, calculate_master_pattern.
  destruct (guards_pass_on_first self tr Hvec Ht Hf) as [Hg1 Hg2].
  rewrite (@bind_ok _ _ _ _ _ _ _ Hg1), (@bind_ok _ _ _ _ _ _ _ Hg2).
  apply bind_raise. unfold select_poles.
  destruct (String.eqb_spec hemisphere "both") as [E|_];
    [exfalso; apply Hbad; left; exact E|].
  destruct (String.eqb_spec hemisphere "north") as [E|_];
    [exfalso; apply Hbad; right; left; exact E|].
  destruct (String.eqb_spec hemisphere "south") as [E|_];
    [exfalso; apply Hbad; right; right; exact E|].
  reflexivity.
Qed.

(** A scaling given as a string other than "linear" and "square" is
    rejected with a [ValueError] before anything is materialised; this
    includes the string "None", which is not the value [None]. *)
Theorem unknown_scaling_is_rejected
        (self : KikuchiPatternSimulator) (half_size : Z) (hemisphere : string)
        (s : string) (tr : list event) (r : Reflector) (rest : list Reflector) :
  vectors (reflectors self) = r :: rest ->
  theta r <> None -> structure_factor r <> None ->
  valid_hemisphere hemisphere ->
  s <> "linear"%string -> s <> "square"%string ->
  run (calculate_master_pattern self half_size hemisphere (Some s)) tr
  = (Raise (ValueError
              "Unknown `scaling`, valid options are 'linear', 'square' or None"),
     tr).
Proof.
  intros Hvec Ht Hf Hhemi Hlin Hsq. unfold run, calculate_master_pattern.
  destruct (guards_pass_on_first self tr Hvec Ht Hf) as [Hg1 Hg2].
  rewrite (@bind_ok _ _ _ _ _ _ _ Hg1), (@bind_ok _ _ _ _ _ _ _ Hg2).
  assert (Hpoles : exists poles, select_poles hemisphere tr = (Ok poles, tr)).
  { unfold select_poles. destruct Hhemi as [-> | [-> | ->]]; eexists; reflexivity. }
  destruct Hpoles as [poles Hpoles].
  rewrite (@bind_ok _ _ _ _ _ _ _ Hpoles).
  apply bind_raise. unfold select_intensity.
  destruct (String.eqb_spec s "linear"); [contradiction|].
  destruct (String.eqb_spec s "square"); [contradiction|].
  reflexivity.
Qed.

(** On an empty reflector set the first guard indexes element 0 of an empty
    array: the call fails with an [IndexError], not with the [ValueError] of
    the guard, whatever the other arguments. *)
Theorem empty_reflector_set_index_error
        (self : KikuchiPatternSimulator) (half_size : Z) (hemisphere : string)
        (scaling : option string) (tr : list event) :
  vectors (reflectors self) = [] ->
  exists msg,
    run (calculate_master_pattern self half_size hemisphere scaling) tr
    = (Raise (IndexError msg), tr).
Proof.
  intros Hvec. eexists. unfold run, calculate_master_pattern.
  apply bind_raise. unfold _raise_if_no_theta. rewrite Hvec. reflexivity.
Qed.

End MasterPatternOptions.

Lemma unknown_hemisphere_is_rejected_witness :
  run (calculate_master_pattern (simulator_of [reflector_100]) 1 "upper"
                                (Some "linear"%string)) []
  = (Raise (ValueError
              "Unknown `hemisphere`, valid options are 'north', 'south' or 'both'"),
     []).
Proof.
  apply (@unknown_hemisphere_is_rejected orix_model (simulator_of [reflector_100]) 1
           "upper" (Some "linear"%string) [] reflector_100 []).
  - reflexivity.
  - discriminate.
  - discriminate.
  - intros [E | [E | E]]; discriminate.
Defined.

Lemma unknown_scaling_is_rejected_witness :
  run (calculate_master_pattern (simulator_of [reflector_100]) 1 "north"
                                (Some "None"%string)) []
  = (Raise (ValueError
              "Unknown `scaling`, valid options are 'linear', 'square' or None"),
     []).
Proof.
  apply (@unknown_scaling_is_rejected orix_model (simulator_of [reflector_100]) 1
           "north" "None" [] reflector_100 []).
  - reflexivity.
  - discriminate.
  - discriminate.
  - right. left. reflexivity.
  - discriminate.
  - discriminate.
Defined.

Lemma empty_reflector_set_index_error_witness :
  exists msg,
    run (calculate_master_pattern (simulator_of []) 1 "north" None) []
    = (Raise (IndexError msg), []).
Proof.
  apply (@empty_reflector_set_index_error orix_model (simulator_of []) 1 "north" None []).
  reflexivity.
Defined.

(** ** Bounds on the pixel values *)

Lemma contribution_bounds (i dp t : R) : 0 <= i -> 0 <= contribution i dp t <= i.
Proof.
  intros Hi. unfold contribution. destruct (classify dp t); lra.
Qed.

Lemma Cabs_nonneg (z : complex) : 0 <= Cabs z.
Proof. unfold Cabs. apply sqrt_pos. Qed.

Lemma scaled_intensity_nonneg (scaling : option string) (r : Reflector) :
  0 <= scaled_intensity scaling r.
Proof.
  unfold scaled_intensity. pose proof (Cabs_nonneg (factor_of r)) as Hc.
  destruct scaling as [s|]; [|lra].
  destruct (String.eqb s "linear"); [assumption | nra].
Qed.

Lemma pixel_sum_bounds (intensity : list R) (xyz_ref : list vec3) (bragg : list R)
      (v : vec3) :
  Forall (fun i => 0 <= i) intensity ->
  0 <= pixel_sum intensity xyz_ref bragg v <= Rsum intensity.
Proof.
  unfold pixel_sum. generalize (combine xyz_ref bragg) as dts.
  induction intensity as [|i ints IH]; intros dts Hall; cbn [map2 Rsum fold_right].
  - lra.
  - inversion Hall as [|? ? Hi Hints]; subst.
    assert (Hsum : 0 <= Rsum ints).
    { clear -Hints. induction Hints; cbn [Rsum fold_right]; [lra|].
      unfold Rsum in *. lra. }
    destruct dts as [|dt dts]; cbn [Rsum fold_right].
    + unfold Rsum in *. lra.
    + pose proof (contribution_bounds (dot v (fst dt)) (snd dt) Hi) as Hc.
      specialize (IH dts Hints). unfold Rsum in *. lra.
Qed.

Section MasterPatternValues.
Context `{Orix}.

(** Every element of a returned master pattern lies between 0 and the sum
    of the scaled intensities of all reflectors. *)
Theorem master_pattern_values_bounded
        (self : KikuchiPatternSimulator) (half_size : Z) (hemisphere : string)
        (scaling : option string) (tr : list event) :
  attributes_present self -> valid_hemisphere hemisphere -> valid_scaling scaling ->
  (1 <= half_size)%Z ->
  exists mp tr',
    run (calculate_master_pattern self half_size hemisphere scaling) tr = (Ok mp, tr')
    /\ Forall (fun x => 0 <= x
                        <= Rsum (map (scaled_intensity scaling) (vectors (reflectors self))))
              (ndarray_flat (mp_data mp)).
Proof.
  intros Hattr Hhemi Hsc Hh. do 2 eexists. split.
  - apply calculate_master_pattern_ok; try assumption.
    apply attributes_present_sufficient. assumption.
  - cbn [mp_data]. rewrite flat_master_data by assumption. cbv zeta.
    apply Forall_forall. intros x Hx. apply in_map_iff in Hx.
    destruct Hx as (v & <- & _). apply pixel_sum_bounds.
    apply Forall_forall. intros i Hi. apply in_map_iff in Hi.
    destruct Hi as (r & <- & _). apply scaled_intensity_nonneg.
Qed.

(** For hemisphere "both" the second slice of the stacked array is the
    array returned for hemisphere "south" with the same other arguments. *)
Theorem master_pattern_both_second_slice_is_south
        (self : KikuchiPatternSimulator) (half_size : Z)
        (scaling : option string) (tr : list event) :
  (1 <= half_size)%Z -> attributes_present self -> valid_scaling scaling ->
  exists mp_both mp_south tr_both tr_south north south,
    run (calculate_master_pattern self half_size "both" scaling) tr
    = (Ok mp_both, tr_both)
    /\ run (calculate_master_pattern self half_size "south" scaling) tr
       = (Ok mp_south, tr_south)
    /\ mp_data mp_both = Arr3 [north; south]
    /\ mp_data mp_south = Arr2 south.
Proof.
  intros Hh Hattr Hsc.
  pose proof (attributes_present_sufficient scaling Hattr) as Hsuf.
  do 6 eexists. split; [|split; [|split]].
  - apply calculate_master_pattern_ok; try assumption. left. reflexivity.
  - apply calculate_master_pattern_ok; try assumption. right. right. reflexivity.
  - reflexivity.
  - reflexivity.
Qed.

(** Without scaling every reflector has intensity 1: two reflector sets
    with the same directions and Bragg angles give the same master pattern,
    whatever their structure factors are (as long as the first is present,
    which the guard requires). *)
Theorem unscaled_pattern_ignores_structure_factors
        (self1 self2 : KikuchiPatternSimulator) (half_size : Z)
        (hemisphere : string) (tr : list event) :
  attributes_sufficient self1 None -> attributes_sufficient self2 None ->
  map unit_direction (vectors (reflectors self1))
  = map unit_direction (vectors (reflectors self2)) ->
  map theta (vectors (reflectors self1)) = map theta (vectors (reflectors self2)) ->
  valid_hemisphere hemisphere -> (1 <= half_size)%Z ->
  exists mp1 mp2 tr',
    run (calculate_master_pattern self1 half_size hemisphere None) tr = (Ok mp1, tr')
    /\ run (calculate_master_pattern self2 half_size hemisphere None) tr = (Ok mp2, tr')
    /\ mp_data mp1 = mp_data mp2.
Proof.
  intros Hs1 Hs2 Hdir Hth Hhemi Hh. do 3 eexists. split; [|split].
  - apply calculate_master_pattern_ok; try assumption. right. right. reflexivity.
  - apply calculate_master_pattern_ok; try assumption. right. right. reflexivity.
  - cbn [mp_data].
    assert (Hval : forall n pole,
               hemisphere_values self1 None n pole = hemisphere_values self2 None n pole).
    { intros n pole. unfold hemisphere_values. cbn [scaled_intensity].
      rewrite Hdir. f_equal. f_equal.
      - assert (Hlen : length (vectors (reflectors self1))
                       = length (vectors (reflectors self2))).
        { rewrite <- (length_map unit_direction (vectors (reflectors self1))).
          rewrite <- (length_map unit_direction (vectors (reflectors self2))).
          rewrite Hdir. reflexivity. }
        assert (Hone : forall l : list Reflector,
                   map (scaled_intensity None) l = repeat 1 (length l))
          by (intros l; rewrite repeat_map_const; reflexivity).
        rewrite !Hone, Hlen. reflexivity.
      - change bragg_of
          with (fun r => match theta r with Some t => t | None => 0 end).
        rewrite <- (map_map theta (fun o => match o with Some t => t | None => 0 end)).
        rewrite Hth, map_map. reflexivity. }
    unfold master_data, hemisphere_array. rewrite !Hval. reflexivity.
Qed.

End MasterPatternValues.

Lemma master_pattern_values_bounded_witness :
  exists mp tr',
    run (calculate_master_pattern (simulator_of [reflector_100]) 1 "north"
                                  (Some "linear"%string)) []
    = (Ok mp, tr')
    /\ Forall (fun x => 0 <= x
                        <= Rsum (map (scaled_intensity (Some "linear"%string))
                                     [reflector_100]))
              (ndarray_flat (mp_data mp)).
Proof.
  refine (@master_pattern_values_bounded orix_model (simulator_of [reflector_100]) 1
            "north" (Some "linear"%string) [] attributes_present_single _ _ _).
  - right. left. reflexivity.
  - left. reflexivity.
  - lia.
Defined.

Lemma master_pattern_both_second_slice_is_south_witness :
  exists mp_both mp_south tr_both tr_south north south,
    run (calculate_master_pattern (simulator_of [reflector_100]) 1 "both" None) []
    = (Ok mp_both, tr_both)
    /\ run (calculate_master_pattern (simulator_of [reflector_100]) 1 "south" None) []
       = (Ok mp_south, tr_south)
    /\ mp_data mp_both = Arr3 [north; south]
    /\ mp_data mp_south = Arr2 south.
Proof.
  refine (@master_pattern_both_second_slice_is_south orix_model
            (simulator_of [reflector_100]) 1 None [] _ attributes_present_single _).
  - lia.
  - right. right. reflexivity.
Defined.

Lemma attributes_sufficient_unscaled (r : Reflector) (rest : list Reflector) :
  structure_factor r <> None ->
  Forall (fun r => theta r <> None) (r :: rest) ->
  attributes_sufficient (simulator_of (r :: rest)) None.
Proof.
  intros Hf Ht. repeat split.
  - exists r, rest. split; [reflexivity | assumption].
  - assumption.
  - intros Hn. congruence.
Qed.

Lemma unscaled_pattern_ignores_structure_factors_witness :
  exists mp1 mp2 tr',
    run (calculate_master_pattern (simulator_of [reflector_100; reflector_no_factor])
                                  1 "north" None) []
    = (Ok mp1, tr')
    /\ run (calculate_master_pattern (simulator_of [reflector_100; reflector_010])
                                     1 "north" None) []
       = (Ok mp2, tr')
    /\ mp_data mp1 = mp_data mp2.
Proof.
  refine (@unscaled_pattern_ignores_structure_factors orix_model
            (simulator_of [reflector_100; reflector_no_factor])
            (simulator_of [reflector_100; reflector_010]) 1 "north" [] _ _ _ _ _ _).
  - apply attributes_sufficient_unscaled; [discriminate|].
    repeat constructor; discriminate.
  - apply attributes_sufficient_unscaled; [discriminate|].
    repeat constructor; discriminate.
  - reflexivity.
  - reflexivity.
  - right. left. reflexivity.
  - lia.
Defined.

(** ** Evaluation block by block *)

Lemma pattern_block_rows (intensity theta1 : list R) (theta2 : R)
      (xyz_ref block : list vec3) :
  pattern_block intensity theta1 theta2 xyz_ref block
  = map (pixel_value intensity theta1 theta2 xyz_ref) block.
Proof.
  unfold pattern_block, _get_pattern, band_mask, zone_line_mask, dot_products.
  induction block as [|v vs IH]; [reflexivity|].
  cbn [map map2]. rewrite IH. reflexivity.
Qed.

Section ChunkedEvaluation.
Context `{Orix}.

(** Evaluating the pattern of a hemisphere in blocks of [half_size] rows
    gives, for every positive [half_size], what one evaluation over all the
    rows gives: the result does not depend on the chunking. *)
Theorem chunk_size_is_irrelevant
        (half_size : Z) (intensity theta1 : list R) (theta2 : R)
        (xyz_ref : list vec3) (xy : list (R * R)) (pole : Z) (tr : list event) :
  (1 <= half_size)%Z ->
  hemisphere_pattern half_size intensity theta1 theta2 xyz_ref xy pole tr
  = (Ok (pattern_block intensity theta1 theta2 xyz_ref
                       (map (fun p => xy2vector pole (fst p) (snd p)) xy)),
     tr).
Proof.
  intros Hh. unfold hemisphere_pattern, from_array_chunks.
  destruct (Z.leb_spec half_size 0); [lia|].
  unfold bind, ret. f_equal. f_equal.
  rewrite (map_ext _ _ (pattern_block_rows intensity theta1 theta2 xyz_ref)).
  rewrite <- concat_map, concat_chunk_rows by lia.
  symmetry. apply pattern_block_rows.
Qed.

End ChunkedEvaluation.

Lemma chunk_size_is_irrelevant_witness :
  hemisphere_pattern 2 [1] [PI / 2 - PI / 18] (PI / 2) [Vec3 1 0 0]
                     (meshgrid_ravel (grid 5) (grid 5)) (-1) []
  = (Ok (pattern_block [1] [PI / 2 - PI / 18] (PI / 2) [Vec3 1 0 0]
                       (map (fun p => inverse_stereographic (-1) (fst p) (snd p))
                            (meshgrid_ravel (grid 5) (grid 5)))),
     []).
Proof.
  apply (@chunk_size_is_irrelevant orix_model 2 [1] [PI / 2 - PI / 18] (PI / 2)
           [Vec3 1 0 0] (meshgrid_ravel (grid 5) (grid 5)) (-1) []).
  lia.
Defined.

(** ** The band in terms of the dot product *)

Lemma acos_le_half_pi_iff (d : R) : -1 <= d <= 1 -> (acos d <= PI / 2 <-> 0 <= d).
Proof.
  intros Hd. pose proof (acos_bound d) as Hb. pose proof PI_RGT_0 as Hpi. split.
  - intros Ha. rewrite <- (cos_acos d Hd), <- cos_PI2.
    apply cos_decr_1; lra.
  - intros Hpos. apply cos_decr_0; try lra.
    rewrite cos_PI2, (cos_acos d Hd). assumption.
Qed.

Lemma band_edge_le_acos_iff (d t : R) :
  -1 <= d <= 1 -> 0 <= t <= PI / 2 -> (PI / 2 - t <= acos d <-> d <= sin t).
Proof.
  intros Hd Ht. pose proof (acos_bound d) as Hb. pose proof PI_RGT_0 as Hpi.
  rewrite <- (cos_shift t). split.
  - intros Ha. rewrite <- (cos_acos d Hd) at 1. apply cos_decr_1; lra.
  - intros Hle. apply cos_decr_0; try lra. rewrite (cos_acos d Hd). assumption.
Qed.

Lemma contribution_dot_form (i d t : R) :
  -1 <= d <= 1 -> 0 <= t <= PI / 2 -> contribution i d t = band_contribution i d t.
Proof.
  intros Hd Ht. unfold contribution, classify, band_contribution.
  assert (Htol : 0 < zone_tol) by (unfold zone_tol; lra).
  destruct (Rleb (Rabs d) zone_tol) eqn:Hz; [reflexivity|].
  apply Rleb_false_iff in Hz.
  assert (Heq : Rleb (PI / 2 - t) (acos d) && Rleb (acos d) (PI / 2)
                = Rltb zone_tol d && Rleb d (sin t)).
  { apply Bool.eq_iff_eq_true. rewrite !andb_true_iff, !Rleb_true_iff, Rltb_true_iff.
    rewrite (band_edge_le_acos_iff Hd Ht), (acos_le_half_pi_iff Hd).
    unfold Rabs in Hz. destruct (Rcase_abs d); split; intros [H1 H2]; split; lra. }
  rewrite Heq. destruct (Rltb zone_tol d && Rleb d (sin t)); reflexivity.
Qed.

(** For Bragg angles between 0 and 90 degrees and dot products between -1
    and 1, a reflector gives its full intensity to exactly the pixels whose
    dot product with its direction is above 1e-7 and at most the sine of the
    Bragg angle, and half of it where the dot product is within 1e-7 of 0:
    the band covers only the side of the zone line the reflector points
    to. *)
Theorem band_in_terms_of_dot_product
        (intensity bragg : list R) (xyz_ref block : list vec3) :
  length bragg = length xyz_ref ->
  length intensity = length xyz_ref ->
  Forall (fun t => 0 <= t <= PI / 2) bragg ->
  (forall v r, In v block -> In r xyz_ref -> -1 <= dot v r <= 1) ->
  pattern_block intensity (map (fun t => PI / 2 - t) bragg) (PI / 2) xyz_ref block
  = map (fun v =>
           Rsum (map2 (fun i dt => band_contribution i (dot v (fst dt)) (snd dt))
                      intensity (combine xyz_ref bragg)))
        block.
Proof.
  intros Hb Hi Hbragg Hdot. rewrite pattern_block_pixels by assumption.
  apply map_ext_in. intros v Hv. unfold pixel_sum. f_equal.
  assert (Hdts : forall dt, In dt (combine xyz_ref bragg) ->
                            -1 <= dot v (fst dt) <= 1 /\ 0 <= snd dt <= PI / 2).
  { intros [r t] Hin. cbn [fst snd]. split.
    - apply Hdot; [assumption|]. eapply in_combine_l. eassumption.
    - rewrite Forall_forall in Hbragg. apply Hbragg. eapply in_combine_r. eassumption. }
  revert Hdts. generalize (combine xyz_ref bragg) as dts. clear.
  induction intensity as [|i ints IH]; intros [|dt dts] Hdts; cbn [map2];
    try reflexivity.
  f_equal.
  - destruct (Hdts dt (or_introl eq_refl)) as [Hd Ht]. apply contribution_dot_form; assumption.
  - apply IH. intros dt' Hin. apply Hdts. right. assumption.
Qed.

Lemma band_in_terms_of_dot_product_witness :
  pattern_block [1] (map (fun t => PI / 2 - t) [PI / 18]) (PI / 2)
                [Vec3 1 0 0] [Vec3 0 0 1]
  = map (fun v =>
           Rsum (map2 (fun i dt => band_contribution i (dot v (fst dt)) (snd dt))
                      [1] (combine [Vec3 1 0 0] [PI / 18])))
        [Vec3 0 0 1].
Proof.
  apply (@band_in_terms_of_dot_product [1] [PI / 18] [Vec3 1 0 0] [Vec3 0 0 1]).
  - reflexivity.
  - reflexivity.
  - constructor; [|constructor]. pose proof PI_RGT_0. lra.
  - intros v r [<- | []] [<- | []]. unfold dot. cbn [vx vy vz]. lra.
Defined.

(** * Further properties of [on_detector] *)

Lemma map_seq_nth {A B} (F : nat -> B) (g : A -> B) (d : A) (l : list A) (s : nat) :
  (forall k, (k < length l)%nat -> F (s + k)%nat = g (nth k l d)) ->
  map F (seq s (length l)) = map g l.
Proof.
  revert s. induction l as [|a l IH]; intros s HF; [reflexivity|].
  cbn [length seq map]. f_equal.
  - specialize (HF 0%nat ltac:(cbn [length]; lia)). cbn [nth] in HF.
    rewrite Nat.add_0_r in HF. exact HF.
  - apply IH. intros k Hk.
    specialize (HF (S k) ltac:(cbn [length]; lia)). cbn [nth] in HF.
    rewrite Nat.add_succ_r in HF. exact HF.
Qed.

Lemma mask_select_map_filter {A} (g : A -> bool) (l : list A) :
  mask_select (map g l) l = filter g l.
Proof.
  induction l as [|a l IH]; [reflexivity|]. cbn [map mask_select filter].
  rewrite IH. reflexivity.
Qed.

Lemma mask_select_map_filter2 {A B} (h : A -> B) (g : B -> bool) (l : list A) :
  mask_select (map g (map h l)) l = filter (fun a => g (h a)) l.
Proof.
  rewrite map_map. apply (mask_select_map_filter (fun a => g (h a))).
Qed.

Lemma visible_mask_pointwise (vs : list idx3) (u : nav mat3) :
  visible_mask vs u = map (visible_somewhere u) vs.
Proof.
  unfold visible_mask.
  cbn [_get_coordinates_in_upper_hemisphere snd nav_map cells].
  apply (map_seq_nth _ (visible_somewhere u) zero3). intros k Hk.
  cbn [Nat.add]. apply Bool.eq_iff_eq_true.
  rewrite count_true_nonzero_iff. unfold visible_somewhere. rewrite existsb_exists.
  rewrite !map_map. split.
  - intros (row & Hin & Hrow). apply in_map_iff in Hin. destruct Hin as (m & <- & Hm).
    exists m. split; [assumption|].
    rewrite (nth_indep _ false (Rltb 0 (vz (vecmat (idx3_to_vec zero3) m)))) in Hrow
      by (rewrite !length_map; assumption).
    rewrite !map_map in Hrow.
    rewrite (map_nth (fun v => Rltb 0 (vz (vecmat (idx3_to_vec v) m)))) in Hrow.
    assumption.
  - intros (m & Hm & Hvis).
    exists (map (fun z => Rltb 0 z)
                (map vz (map (fun v => vecmat (idx3_to_vec v) m) vs))).
    split; [apply in_map_iff; exists m; split; [reflexivity | assumption]|].
    rewrite (nth_indep _ false (Rltb 0 (vz (vecmat (idx3_to_vec zero3) m))))
      by (rewrite !length_map; assumption).
    rewrite !map_map.
    rewrite (map_nth (fun v => Rltb 0 (vz (vecmat (idx3_to_vec v) m)))).
    assumption.
Qed.

Lemma visible_subset_filter (vs : list idx3) (u : nav mat3) :
  visible_subset vs u = filter (visible_somewhere u) vs.
Proof.
  unfold visible_subset. rewrite visible_mask_pointwise. apply mask_select_map_filter.
Qed.

Lemma visible_somewhere_iff (u : nav mat3) (v : idx3) :
  visible_somewhere u v = true
  <-> exists m, In m (cells u) /\ 0 < vz (vecmat (idx3_to_vec v) m).
Proof.
  unfold visible_somewhere. rewrite existsb_exists.
  split; intros (m & Hm & Hv); exists m; (split; [assumption|]);
    apply Rltb_true_iff; assumption.
Qed.


Section DetectorExtras.
Context `{Orix}.
Variable G : Type.

Lemma cells_u_kstar_of (self : KikuchiPatternSimulator) (detector : EBSDDetector G)
      (rotations : nav Rotation) :
  cells (u_kstar_of self detector rotations)
  = map (reciprocal_to_detector self detector) (cells rotations).
Proof.
  unfold u_kstar_of, u_os_of, nav_map. cbn [cells]. rewrite !map_map. reflexivity.
Qed.

Lemma cells_u_k_of (self : KikuchiPatternSimulator) (detector : EBSDDetector G)
      (rotations : nav Rotation) :
  cells (u_k_of self detector rotations)
  = map (direct_to_detector self detector) (cells rotations).
Proof.
  unfold u_k_of, u_os_of, nav_map. cbn [cells]. rewrite !map_map. reflexivity.
Qed.

(** With an empty [r_max] the call fails with an [IndexError], raised after
    the first materialisation (of the mask of visible reflectors). *)
Theorem empty_r_max_index_error
        (self : KikuchiPatternSimulator) (detector : EBSDDetector G)
        (rotations : nav Rotation) (tr : list event) :
  r_max detector = [] ->
  exists msg,
    run (on_detector self detector rotations) tr
    = (Raise (IndexError msg), tr ++ [EvCompute 1]).
Proof.
  intros Hr. eexists. unfold run, on_detector, r_max_0. rewrite Hr.
  rewrite (surjective_pairing (_get_coordinates_in_upper_hemisphere
             (length (map hkl (vectors (_reflectors self)))) _)).
  unfold bind, emit, raise. reflexivity.
Qed.

(** The reflectors kept in the lines bundle are exactly the reflectors of
    the simulator whose detector-frame z-component is positive for at least
    one orientation of the batch, and the zone axes kept are exactly the
    zone axes derived from the kept reflectors whose z-component is positive
    for at least one orientation. *)
Theorem retained_items_are_visible_somewhere
        (self : KikuchiPatternSimulator) (detector : EBSDDetector G)
        (rotations : nav Rotation) (tr : list event) (r0 : G) (rest : list G) :
  r_max detector = r0 :: rest ->
  exists sim tr',
    run (on_detector self detector rotations) tr = (Ok sim, tr')
    /\ (forall h,
          In h (coordinates (line_hkl (lines sim)))
          <-> In h (map hkl (vectors (_reflectors self)))
              /\ exists o, In o (cells rotations)
                           /\ 0 < vz (vecmat (idx3_to_vec h)
                                             (reciprocal_to_detector self detector o)))
    /\ (forall u,
          In u (coordinates (za_uvw (zone_axes sim)))
          <-> In u (derive_zone_axes (coordinates (line_hkl (lines sim))))
              /\ exists o, In o (cells rotations)
                           /\ 0 < vz (vecmat (idx3_to_vec u)
                                             (direct_to_detector self detector o))).
Proof.
  intros Hr. exists (simulation_of self detector rotations r0). eexists.
  split; [apply (on_detector_ok self detector rotations tr Hr)|].
  cbn [simulation_of lines zone_axes line_hkl za_uvw coordinates].
  unfold visible_uvw, visible_hkl. rewrite !visible_subset_filter. split.
  - intros h. rewrite filter_In, visible_somewhere_iff, cells_u_kstar_of.
    split; intros [Hin (m & Hm & Hpos)]; (split; [assumption|]).
    + apply in_map_iff in Hm. destruct Hm as (o & <- & Ho). exists o. split; assumption.
    + eexists. split; [apply in_map; eassumption | assumption].
  - intros u. rewrite filter_In, visible_somewhere_iff, cells_u_k_of.
    split; intros [Hin (m & Hm & Hpos)]; (split; [assumption|]).
    + apply in_map_iff in Hm. destruct Hm as (o & <- & Ho). exists o. split; assumption.
    + eexists. split; [apply in_map; eassumption | assumption].
Qed.

(** The reflector set of the returned simulation is the input set filtered
    in order by one test on the index triplet, keeps the phase, and its
    index triplets are those of the lines bundle, position by position. *)
Theorem visible_reflectors_match_lines
        (self : KikuchiPatternSimulator) (detector : EBSDDetector G)
        (rotations : nav Rotation) (tr : list event) (r0 : G) (rest : list G) :
  r_max detector = r0 :: rest ->
  exists sim tr' keep,
    run (on_detector self detector rotations) tr = (Ok sim, tr')
    /\ vectors (sim_reflectors sim)
       = filter (fun r => keep (hkl r)) (vectors (_reflectors self))
    /\ rlv_phase (sim_reflectors sim) = rlv_phase (_reflectors self)
    /\ map hkl (vectors (sim_reflectors sim)) = coordinates (line_hkl (lines sim)).
Proof.
  intros Hr. exists (simulation_of self detector rotations r0). eexists.
  exists (visible_somewhere (u_kstar_of self detector rotations)).
  split; [apply (on_detector_ok self detector rotations tr Hr)|].
  cbn [simulation_of sim_reflectors vectors rlv_phase lines line_hkl coordinates].
  rewrite visible_mask_pointwise. split; [apply mask_select_map_filter2|].
  split; [reflexivity|].
  unfold visible_hkl, visible_subset. rewrite visible_mask_pointwise.
  rewrite <- mask_select_map. reflexivity.
Qed.

(** With an empty batch of orientations nothing is visible: the call
    returns bundles without reflectors, zone axes or cells. *)
Theorem empty_batch_retains_nothing
        (self : KikuchiPatternSimulator) (detector : EBSDDetector G)
        (rotations : nav Rotation) (tr : list event) (r0 : G) (rest : list G) :
  r_max detector = r0 :: rest ->
  cells rotations = [] ->
  exists sim tr',
    run (on_detector self detector rotations) tr = (Ok sim, tr')
    /\ vectors (sim_reflectors sim) = []
    /\ coordinates (line_hkl (lines sim)) = []
    /\ coordinates (za_uvw (zone_axes sim)) = []
    /\ cells (line_hkl_detector (lines sim)) = []
    /\ cells (line_in_pattern (lines sim)) = []
    /\ cells (za_uvw_detector (zone_axes sim)) = []
    /\ cells (za_in_pattern (zone_axes sim)) = [].
Proof.
  intros Hr Hempty. exists (simulation_of self detector rotations r0). eexists.
  split; [apply (on_detector_ok self detector rotations tr Hr)|].
  assert (Hnone : forall vs (u : nav mat3), cells u = [] -> visible_subset vs u = []).
  { intros vs u Hu. rewrite visible_subset_filter. unfold visible_somewhere.
    rewrite Hu. cbn [existsb]. induction vs; [reflexivity | assumption]. }
  assert (Hk : cells (u_kstar_of self detector rotations) = [])
    by (rewrite cells_u_kstar_of, Hempty; reflexivity).
  assert (Hd : cells (u_k_of self detector rotations) = [])
    by (rewrite cells_u_k_of, Hempty; reflexivity).
  cbn [simulation_of sim_reflectors vectors lines zone_axes line_hkl za_uvw coordinates
       line_hkl_detector line_in_pattern za_uvw_detector za_in_pattern].
  unfold visible_uvw, visible_hkl, upper_flags, project, nav_map. cbn [cells].
  rewrite !(Hnone _ _ Hk), !(Hnone _ _ Hd), Hk, Hd.
  rewrite visible_mask_pointwise. unfold visible_somewhere. rewrite Hk. cbn [existsb map].
  repeat split; try reflexivity.
  induction (vectors (_reflectors self)) as [|r rs IH]; [reflexivity | exact IH].
Qed.


(** Every cell of the coordinate arrays and of the visibility masks has one
    entry per kept index triplet. *)
Theorem bundle_rows_match_indices
        (self : KikuchiPatternSimulator) (detector : EBSDDetector G)
        (rotations : nav Rotation) (tr : list event) (r0 : G) (rest : list G) :
  r_max detector = r0 :: rest ->
  exists sim tr',
    run (on_detector self detector rotations) tr = (Ok sim, tr')
    /\ Forall (fun row => length row = length (coordinates (line_hkl (lines sim))))
              (cells (line_hkl_detector (lines sim)))
    /\ Forall (fun row => length row = length (coordinates (line_hkl (lines sim))))
              (cells (line_in_pattern (lines sim)))
    /\ Forall (fun row => length row = length (coordinates (za_uvw (zone_axes sim))))
              (cells (za_uvw_detector (zone_axes sim)))
    /\ Forall (fun row => length row = length (coordinates (za_uvw (zone_axes sim))))
              (cells (za_in_pattern (zone_axes sim))).
Proof.
  intros Hr. exists (simulation_of self detector rotations r0). eexists.
  split; [apply (on_detector_ok self detector rotations tr Hr)|].
  cbn [simulation_of lines zone_axes line_hkl za_uvw coordinates
       line_hkl_detector line_in_pattern za_uvw_detector za_in_pattern].
  unfold upper_flags, project, nav_map. cbn [cells].
  repeat split; apply Forall_forall; intros row Hrow;
    rewrite ?map_map in Hrow; apply in_map_iff in Hrow;
    destruct Hrow as (m & <- & _); rewrite ?length_map; reflexivity.
Qed.

End DetectorExtras.

Section DetectorExtras2.
Context `{Orix}.
Variable G : Type.


(** The bundles depend on the two tilts of the detector through their
    difference only: detectors with the same [sample_tilt - tilt] and the
    same first [r_max] entry yield the same reflector set, lines and zone
    axes. *)
Theorem only_the_tilt_difference_matters
        (self : KikuchiPatternSimulator) (detector1 detector2 : EBSDDetector G)
        (rotations : nav Rotation) (tr : list event)
        (r0 : G) (rest1 rest2 : list G) :
  r_max detector1 = r0 :: rest1 -> r_max detector2 = r0 :: rest2 ->
  sample_tilt detector1 - tilt detector1 = sample_tilt detector2 - tilt detector2 ->
  exists sim1 sim2 tr',
    run (on_detector self detector1 rotations) tr = (Ok sim1, tr')
    /\ run (on_detector self detector2 rotations) tr = (Ok sim2, tr')
    /\ sim_reflectors sim1 = sim_reflectors sim2
    /\ lines sim1 = lines sim2
    /\ zone_axes sim1 = zone_axes sim2.
Proof.
  intros Hr1 Hr2 Hdiff.
  exists (simulation_of self detector1 rotations r0).
  exists (simulation_of self detector2 rotations r0). eexists.
  split; [apply (on_detector_ok self detector1 rotations tr Hr1)|].
  split; [apply (on_detector_ok self detector2 rotations tr Hr2)|].
  assert (Htilt : tilt_matrix detector1 = tilt_matrix detector2).
  { unfold tilt_matrix.
    replace (sample_tilt detector1 - 90 - tilt detector1)
      with (sample_tilt detector2 - 90 - tilt detector2) by lra.
    reflexivity. }
  assert (Hos : u_os_of detector1 rotations = u_os_of detector2 rotations)
    by (unfold u_os_of; rewrite Htilt; reflexivity).
  assert (Hk : u_kstar_of self detector1 rotations = u_kstar_of self detector2 rotations)
    by (unfold u_kstar_of; rewrite Hos; reflexivity).
  assert (Hd : u_k_of self detector1 rotations = u_k_of self detector2 rotations)
    by (unfold u_k_of; rewrite Hos; reflexivity).
  unfold simulation_of, visible_uvw, visible_hkl.
  cbn [sim_reflectors lines zone_axes]. rewrite Hk, Hd.
  repeat split; reflexivity.
Qed.

(** No zone axis is derived exactly when all reflectors are mutually
    parallel, in particular from fewer than two reflectors. *)
Theorem no_zone_axis_iff_all_parallel (hkls : list idx3) :
  derive_zone_axes hkls = []
  <-> forall a b, In a hkls -> In b hkls -> cross a b = zero3.
Proof.
  split.
  - intros Hnil a b Ha Hb.
    destruct (idx3_eqb (cross a b) zero3) eqn:Hz; [apply idx3_eqb_eq; assumption|].
    exfalso. assert (Hin : In (miller_round (cross a b)) (derive_zone_axes hkls)).
    { apply in_derive_zone_axes. exists a, b. repeat split; try assumption.
      intros Heq. apply idx3_eqb_eq in Heq. congruence. }
    rewrite Hnil in Hin. destruct Hin.
  - intros Hpar. destruct (derive_zone_axes hkls) as [|w ws] eqn:Hd; [reflexivity|].
    exfalso. assert (Hin : In w (derive_zone_axes hkls)) by (rewrite Hd; left; reflexivity).
    apply in_derive_zone_axes in Hin. destruct Hin as (a & b & Ha & Hb & Hnz & _).
    apply Hnz. apply Hpar; assumption.
Qed.


End DetectorExtras2.

(** ** The further properties on two reflectors and one orientation *)

Lemma empty_r_max_index_error_witness :
  exists msg,
    run (on_detector (simulator_of [reflector_100; reflector_010])
                     detector_no_radius (@single_orientation orix_model identity3)) []
    = (Raise (IndexError msg), [EvCompute 1]).
Proof.
  apply (@empty_r_max_index_error orix_model R
           (simulator_of [reflector_100; reflector_010]) detector_no_radius
           (@single_orientation orix_model identity3) []).
  reflexivity.
Defined.

Lemma retained_items_are_visible_somewhere_witness :
  exists sim tr',
    run (on_detector (simulator_of [reflector_100; reflector_010])
                     detector_two_radii (@single_orientation orix_model identity3)) []
    = (Ok sim, tr')
    /\ forall h,
        In h (coordinates (line_hkl (lines sim))) ->
        In h [Idx3 1 0 0; Idx3 0 1 0].
Proof.
  destruct (@retained_items_are_visible_somewhere orix_model R
              (simulator_of [reflector_100; reflector_010]) detector_two_radii
              (@single_orientation orix_model identity3) [] 1 [2] eq_refl)
    as (sim & tr' & Hrun & Hlines & _).
  exists sim, tr'. split; [exact Hrun|].
  intros h Hh. exact (proj1 (proj1 (Hlines h) Hh)).
Defined.

Lemma visible_reflectors_match_lines_witness :
  exists sim tr',
    run (on_detector (simulator_of [reflector_100; reflector_010])
                     detector_two_radii (@single_orientation orix_model identity3)) []
    = (Ok sim, tr')
    /\ map hkl (vectors (sim_reflectors sim)) = coordinates (line_hkl (lines sim)).
Proof.
  destruct (@visible_reflectors_match_lines orix_model R
              (simulator_of [reflector_100; reflector_010]) detector_two_radii
              (@single_orientation orix_model identity3) [] 1 [2] eq_refl)
    as (sim & tr' & keep & Hrun & _ & _ & Hmatch).
  exists sim, tr'. split; assumption.
Defined.

Lemma empty_batch_retains_nothing_witness :
  exists sim tr',
    run (on_detector (simulator_of [reflector_100; reflector_010])
                     detector_two_radii (@empty_batch orix_model)) []
    = (Ok sim, tr')
    /\ coordinates (line_hkl (lines sim)) = []
    /\ coordinates (za_uvw (zone_axes sim)) = [].
Proof.
  destruct (@empty_batch_retains_nothing orix_model R
              (simulator_of [reflector_100; reflector_010]) detector_two_radii
              (@empty_batch orix_model) [] 1 [2] eq_refl eq_refl)
    as (sim & tr' & Hrun & _ & Hl & Hz & _).
  exists sim, tr'. repeat split; assumption.
Defined.


Lemma bundle_rows_match_indices_witness :
  exists sim tr',
    run (on_detector (simulator_of [reflector_100; reflector_010])
                     detector_two_radii (@single_orientation orix_model identity3)) []
    = (Ok sim, tr')
    /\ Forall (fun row => length row = length (coordinates (line_hkl (lines sim))))
              (cells (line_hkl_detector (lines sim))).
Proof.
  destruct (@bundle_rows_match_indices orix_model R
              (simulator_of [reflector_100; reflector_010]) detector_two_radii
              (@single_orientation orix_model identity3) [] 1 [2] eq_refl)
    as (sim & tr' & Hrun & Hrows & _).
  exists sim, tr'. split; assumption.
Defined.


Lemma only_the_tilt_difference_matters_witness :
  exists sim1 sim2 tr',
    run (on_detector (simulator_of [reflector_100; reflector_010])
                     detector_two_radii (@single_orientation orix_model identity3)) []
    = (Ok sim1, tr')
    /\ run (on_detector (simulator_of [reflector_100; reflector_010])
                        detector_tilted_more (@single_orientation orix_model identity3)) []
       = (Ok sim2, tr')
    /\ sim_reflectors sim1 = sim_reflectors sim2
    /\ lines sim1 = lines sim2
    /\ zone_axes sim1 = zone_axes sim2.
Proof.
  apply (@only_the_tilt_difference_matters orix_model R
           (simulator_of [reflector_100; reflector_010])
           detector_two_radii detector_tilted_more
           (@single_orientation orix_model identity3) [] 1 [2] [2]).
  - reflexivity.
  - reflexivity.
  - cbn [sample_tilt tilt detector_two_radii detector_tilted_more]. lra.
Defined.


(** * Properties of the h5ebsd reader *)

(** ** Strings *)

Lemma lower_char_idempotent (c : ascii) : lower_char (lower_char c) = lower_char c.
Proof.
  destruct c as [[] [] [] [] [] [] [] []]; vm_compute; reflexivity.
Qed.

Lemma lower_idempotent (s : string) : lower (lower s) = lower s.
Proof.
  induction s as [|c s IH]; [reflexivity|]. cbn [lower].
  rewrite lower_char_idempotent, IH. reflexivity.
Qed.

Lemma in_names_iff (key : string) (names : list string) :
  in_names key names = true <-> In key names.
Proof.
  unfold in_names. rewrite existsb_exists. split.
  - intros (k & Hin & Heq). apply String.eqb_eq in Heq. subst. assumption.
  - intros Hin. exists key. split; [assumption | apply String.eqb_refl].
Qed.

(** ** Dictionaries *)

Lemma in_dict_set (dictionary : dict) (key : string) (val : value) (k : string) (v : value) :
  In (k, v) (dict_set dictionary key val) ->
  (k = key /\ v = val) \/ In (k, v) dictionary.
Proof.
  induction dictionary as [|[k' v'] rest IH]; cbn [dict_set In].
  - intros [Heq | []]. inversion Heq. left. split; reflexivity.
  - destruct (String.eqb_spec k' key) as [->|Hne]; cbn [In].
    + intros [Heq | Hin]; [inversion Heq; left; split; reflexivity | right; right; assumption].
    + intros [Heq | Hin]; [right; left; assumption|].
      destruct (IH Hin) as [Hnew | Hold]; [left; assumption | right; right; assumption].
Qed.

(** The loop of [_hdf5group2dict] keeps every property of the entries that
    the stored values have. *)
Lemma hdf5group2dict_entries (Q : string -> value -> Prop) (recursive : bool)
      (names : list string) (name : string) (members : list (string * node))
      (dictionary : dict) :
  (forall k v, In (k, v) dictionary -> Q k v) ->
  (forall key d dictionary',
      (forall k v, In (k, v) dictionary' -> Q k v) ->
      forall k v, In (k, v) (store_dataset names dictionary' key d) -> Q k v) ->
  (forall key sub, recursive = true -> Q key (VDict sub)) ->
  (forall key g, recursive = false -> in_names key names = false -> Q key (VGroupObj g)) ->
  forall k v,
    In (k, v) (hdf5group2dict_node recursive names name (Group members) dictionary) ->
    Q k v.
Proof.
  intros Hinit Hdata Hdict Hgroup. cbn [hdf5group2dict_node].
  revert dictionary Hinit. induction members as [|[key child] rest IH];
    intros dictionary Hinit; [exact Hinit|].
  apply IH. destruct child as [d | ms].
  - apply Hdata. assumption.
  - destruct recursive eqn:Hrec.
    + intros k v Hin. apply in_dict_set in Hin.
      destruct Hin as [[-> ->] | Hin]; [apply Hdict; reflexivity | apply Hinit; assumption].
    + destruct (in_names key names) eqn:Hn; [assumption|].
      intros k v Hin. apply in_dict_set in Hin.
      destruct Hin as [[-> ->] | Hin];
        [apply Hgroup; [reflexivity | assumption] | apply Hinit; assumption].
Qed.

Lemma store_dataset_entries (names : list string) (dictionary : dict)
      (key : string) (d : h5data) (k : string) (v : value) :
  In (k, v) (store_dataset names dictionary key d) ->
  In (k, v) dictionary
  \/ (in_names k names = false
      /\ match v with VNum _ | VStr _ | VArray _ => True | _ => False end).
Proof.
  unfold store_dataset.
  destruct (in_names key names) eqn:Hkey.
  - cbn iota. rewrite Hkey. intros Hin. left. assumption.
  - destruct d as [x | s | s | elems]; cbn [read_dataset].
    + rewrite Hkey. intros Hin. apply in_dict_set in Hin.
      destruct Hin as [[-> ->] | Hin]; [right; split; [assumption | exact I] | left; assumption].
    + rewrite Hkey. intros Hin. apply in_dict_set in Hin.
      destruct Hin as [[-> ->] | Hin]; [right; split; [assumption | exact I] | left; assumption].
    + rewrite Hkey. intros Hin. apply in_dict_set in Hin.
      destruct Hin as [[-> ->] | Hin]; [right; split; [assumption | exact I] | left; assumption].
    + destruct elems as [|e [|e' elems]].
      * rewrite Hkey. intros Hin. apply in_dict_set in Hin.
        destruct Hin as [[-> ->] | Hin];
          [right; split; [assumption | exact I] | left; assumption].
      * destruct (in_names (lstrip key) names) eqn:Hstrip; [intros Hin; left; assumption|].
        destruct e as [x | s | s | sub]; cbn [read_dataset];
          intros Hin; apply in_dict_set in Hin;
          (destruct Hin as [[-> ->] | Hin];
           [right; split; [assumption | exact I] | left; assumption]).
      * rewrite Hkey. intros Hin. apply in_dict_set in Hin.
        destruct Hin as [[-> ->] | Hin];
          [right; split; [assumption | exact I] | left; assumption].
Qed.

(** ** [_hdf5group2dict] *)

(** A name listed in [data_dset_names] is never stored as a dataset or as a
    group object: it can only appear in the returned dictionary as a
    subgroup read recursively. *)
Theorem excluded_names_are_not_stored
        (group : group_obj) (recursive : bool) (names : list string)
        (k : string) (v : value) :
  In (k, v) (_hdf5group2dict group None recursive (Some names)) ->
  In k names ->
  recursive = true /\ exists sub, v = VDict sub.
Proof.
  unfold _hdf5group2dict.
  apply (hdf5group2dict_entries
           (fun k v => In k names -> recursive = true /\ exists sub, v = VDict sub)).
  - intros k' v' [].
  - intros key d dictionary' Hold k' v' Hin Hk.
    destruct (store_dataset_entries _ _ _ _ _ _ Hin) as [Hprev | [Hnot _]].
    + apply (Hold k' v' Hprev Hk).
    + apply in_names_iff in Hk. congruence.
  - intros key sub Hrec _. split; [assumption | exists sub; reflexivity].
  - intros key g _ Hnot Hk. apply in_names_iff in Hk. congruence.
Qed.

Lemma is_plain_dict (items : dict) :
  (forall k v, In (k, v) items -> is_plain v = true) -> is_plain (VDict items) = true.
Proof.
  intros Hall. cbn [is_plain]. induction items as [|[k v] rest IH]; [reflexivity|].
  rewrite (Hall k v (or_introl eq_refl)). cbn [andb]. apply IH.
  intros k' v' Hin. apply (Hall k' v'). right. assumption.
Qed.

Lemma recursive_dictionary_is_plain (names : list string) (nd : node) :
  forall (name : string) (dictionary : dict),
    (forall k v, In (k, v) dictionary -> is_plain v = true) ->
    forall k v, In (k, v) (hdf5group2dict_node true names name nd dictionary) ->
                is_plain v = true.
Proof.
  induction nd as [d | members IHmembers] using node_induction;
    intros name dictionary Hinit; [exact Hinit|].
  cbn [hdf5group2dict_node]. revert dictionary Hinit.
  induction IHmembers as [|[key child] rest Hchild _ IH]; intros dictionary Hinit;
    [exact Hinit|].
  apply IH. destruct child as [d | ms].
  - intros k v Hin.
    destruct (store_dataset_entries _ _ _ _ _ _ Hin) as [Hprev | [_ Hshape]].
    + apply (Hinit k v Hprev).
    + destruct v; try contradiction; reflexivity.
  - intros k v Hin. apply in_dict_set in Hin. destruct Hin as [[-> ->] | Hin].
    + apply is_plain_dict. apply (Hchild (child_name name key) []). intros ? ? [].
    + apply (Hinit k v Hin).
Qed.

Lemma stored_values_shallow (group : group_obj) (recursive : bool)
      (names : option (list string)) (k : string) (v : value) :
  In (k, v) (_hdf5group2dict group None recursive names) ->
  stored_shape recursive v = true.
Proof.
  revert k v. unfold _hdf5group2dict.
  apply (hdf5group2dict_entries (fun _ v => stored_shape recursive v = true)).
  - intros k' v' [].
  - intros key d dictionary' Hold k' v' Hin.
    destruct (store_dataset_entries _ _ _ _ _ _ Hin) as [Hprev | [_ Hshape]].
    + apply (Hold k' v' Hprev).
    + destruct v'; try contradiction; reflexivity.
  - intros key sub Hrec. exact Hrec.
  - intros key g Hrec _. cbn [stored_shape]. rewrite Hrec. reflexivity.
Qed.

(** Every value of the returned dictionary is a number, a str or an array,
    or a subgroup: bytes are decoded, and neither [None] nor an unread
    dataset is ever stored.  A subgroup is stored as a dictionary when
    reading recursively, and then no HDF5 object remains at any depth; it is
    stored as the group object otherwise. *)
Theorem stored_values_are_decoded
        (group : group_obj) (recursive : bool) (names : option (list string))
        (k : string) (v : value) :
  In (k, v) (_hdf5group2dict group None recursive names) ->
  stored_shape recursive v = true
  /\ (recursive = true -> is_plain v = true).
Proof.
  intros Hin. split.
  - revert k v Hin. unfold _hdf5group2dict.
    apply (hdf5group2dict_entries (fun _ v => stored_shape recursive v = true)).
    + intros k' v' [].
    + intros key d dictionary' Hold k' v' Hin.
      destruct (store_dataset_entries _ _ _ _ _ _ Hin) as [Hprev | [_ Hshape]].
      * apply (Hold k' v' Hprev).
      * destruct v'; try contradiction; reflexivity.
    + intros key sub Hrec. exact Hrec.
    + intros key g Hrec _. cbn [stored_shape]. rewrite Hrec. reflexivity.
  - intros ->. unfold _hdf5group2dict in Hin.
    eapply recursive_dictionary_is_plain; [|exact Hin]. intros ? ? [].
Qed.

Lemma excluded_names_are_not_stored_witness :
  true = true /\ exists sub,
    VDict [("patterns"%string, VArray [DNum 1; DNum 2])] = VDict sub.
Proof.
  apply (@excluded_names_are_not_stored
           {| group_name := "/Scan 1/EBSD";
              group_members :=
                [("Data"%string,
                  Group [("patterns"%string, Dataset (DArray [DNum 1; DNum 2]))])] |}
           true ["Data"%string] "Data"
           (VDict [("patterns"%string, VArray [DNum 1; DNum 2])])).
  - left. reflexivity.
  - left. reflexivity.
Defined.

Lemma stored_values_are_decoded_witness :
  stored_shape false (VStr "kikuchipy") = true
  /\ (false = true -> is_plain (VStr "kikuchipy") = true).
Proof.
  apply (@stored_values_are_decoded (root_group example_file) false None
           "manufacturer" (VStr "kikuchipy")).
  left. reflexivity.
Defined.

(** ** Scan groups and their names *)

Lemma find_scan_some (name : string) (scans : list group_obj) (g : group_obj) :
  find_scan name (scan_group_names scans) scans = Some g ->
  In g scans /\ lstrip_slash (group_name g) = name.
Proof.
  unfold scan_group_names. induction scans as [|s scans IH]; cbn [map find_scan];
    [discriminate|].
  destruct (String.eqb_spec name (lstrip_slash (group_name s))) as [Heq|Hne].
  - intros Hs. inversion Hs. subst g. split; [left; reflexivity | symmetry; assumption].
  - intros Hf. destruct (IH Hf) as [Hin Hname]. split; [right; assumption | assumption].
Qed.

Lemma find_scan_none (name : string) (scans : list group_obj) :
  find_scan name (scan_group_names scans) scans = None
  <-> forall g, In g scans -> lstrip_slash (group_name g) <> name.
Proof.
  unfold scan_group_names. induction scans as [|s scans IH]; cbn [map find_scan].
  - split; [intros _ g [] | reflexivity].
  - destruct (String.eqb_spec name (lstrip_slash (group_name s))) as [Heq|Hne].
    + split; [discriminate|]. intros Hall. exfalso.
      apply (Hall s (or_introl eq_refl)). symmetry. assumption.
    + rewrite IH. split.
      * intros Hall g [<- | Hin]; [congruence | apply Hall; assumption].
      * intros Hall g Hin. apply Hall. right. assumption.
Qed.

(** The scan group names are the keys of the top-level groups of the file,
    in file order (keys of HDF5 members hold no "/"). *)
Theorem scan_group_names_are_keys (file : list (string * node)) :
  Forall (fun kv => lstrip_slash (fst kv) = fst kv) file ->
  scan_group_names (get_scan_groups file) = map fst (filter is_group file).
Proof.
  unfold scan_group_names. induction 1 as [|[key nd] rest Hkey _ IH]; [reflexivity|].
  destruct nd as [d | ms]; cbn [get_scan_groups filter is_group snd map]; [exact IH|].
  rewrite IH. f_equal. exact Hkey.
Qed.

Lemma scan_group_names_are_keys_witness :
  scan_group_names (get_scan_groups example_file) = map fst (filter is_group example_file).
Proof.
  apply (@scan_group_names_are_keys example_file).
  repeat constructor.
Defined.

(** For one desired name, given as a str, the scan group of that name is
    returned alone; when no scan group has that name the call raises an
    [OSError] ([IOError]) and warns of nothing. *)
Theorem single_desired_scan (self : H5EBSDReader) (name : string) (tr : list io_event) :
  (exists g,
      get_desired_scan_groups self (NameStr name) tr = (Ok [g], tr)
      /\ In g (scan_groups self) /\ lstrip_slash (group_name g) = name)
  \/ (exists msg,
         get_desired_scan_groups self (NameStr name) tr = (Raise (IOError msg), tr)
         /\ forall g, In g (scan_groups self) -> lstrip_slash (group_name g) <> name).
Proof.
  cbn [get_desired_scan_groups desired_loop].
  destruct (find_scan name (scan_group_names (scan_groups self)) (scan_groups self))
    as [g|] eqn:Hfind.
  - left. exists g. split; [reflexivity|]. apply find_scan_some. assumption.
  - right. eexists. split; [reflexivity|]. apply find_scan_none. assumption.
Qed.

Lemma desired_loop_several (self : H5EBSDReader) (n : nat) (names : list string) :
  n <> 1%nat ->
  forall acc tr,
    desired_loop self n names acc tr
    = (Ok (acc ++ found_scans self names), tr ++ missing_warnings self names).
Proof.
  intros Hn. unfold found_scans, missing_warnings.
  induction names as [|name names IH]; intros acc tr; cbn [desired_loop flat_map].
  - rewrite !app_nil_r. reflexivity.
  - destruct (find_scan name (scan_group_names (scan_groups self)) (scan_groups self))
      as [g|].
    + rewrite IH. rewrite <- app_assoc. reflexivity.
    + destruct (Nat.eqb_spec n 1); [contradiction|].
      unfold io_bind, io_emit. rewrite IH. rewrite <- app_assoc. reflexivity.
Qed.

(** For a list of desired names that does not hold exactly one name the
    call never raises: it returns the scan groups found, in the order of the
    names, and warns once for every name that is not found. *)
Theorem several_desired_scans (self : H5EBSDReader) (names : list string)
        (tr : list io_event) :
  length names <> 1%nat ->
  get_desired_scan_groups self (NameList names) tr
  = (Ok (found_scans self names), tr ++ missing_warnings self names).
Proof.
  intros Hn. cbn [get_desired_scan_groups].
  rewrite (@desired_loop_several self _ names Hn). reflexivity.
Qed.

Lemma several_desired_scans_witness :
  get_desired_scan_groups example_reader (NameList ["Scan 2"; "Scan 1"]%string) []
  = (Ok (found_scans example_reader ["Scan 2"; "Scan 1"]%string),
     [] ++ missing_warnings example_reader ["Scan 2"; "Scan 1"]%string).
Proof.
  apply (@several_desired_scans example_reader ["Scan 2"; "Scan 1"]%string []).
  cbn [length]. lia.
Defined.

Section ReadClaims.
Variable scan2dict : group_obj -> bool -> IO value.

(** Reading a single scan that the file does not hold raises an [OSError]
    before any scan is converted, and the file is not closed, lazily or
    not. *)
Theorem read_missing_scan_leaves_file_open
        (self : H5EBSDReader) (name : string) (lazy : bool) (tr : list io_event) :
  (forall g, In g (scan_groups self) -> lstrip_slash (group_name g) <> name) ->
  exists msg,
    read scan2dict self (NameStr name) lazy tr = (Raise (IOError msg), tr).
Proof.
  intros Hmissing. apply find_scan_none in Hmissing.
  eexists. unfold read, io_bind. cbn [get_desired_scan_groups desired_loop].
  rewrite Hmissing. reflexivity.
Qed.

End ReadClaims.

Lemma read_missing_scan_leaves_file_open_witness :
  exists msg,
    read (fun _ _ => io_ret VNone) example_reader (NameStr "Scan 2") false []
    = (Raise (IOError msg), []).
Proof.
  apply (@read_missing_scan_leaves_file_open (fun _ _ => io_ret VNone)
           example_reader "Scan 2" false []).
  intros g [<- | []]. discriminate.
Defined.

(** ** Manufacturer, version and the validity check *)

Lemma py_lower_stored (v : value) (tr : list io_event) :
  stored_shape false v = true ->
  (exists s, v = VStr s /\ py_lower v tr = (Ok (VStr (lower s)), tr))
  \/ (exists msg, py_lower v tr = (Raise (AttributeError msg), tr)).
Proof.
  destruct v; cbn [stored_shape negb]; try discriminate; intros _;
    try (right; eexists; reflexivity).
  left. eexists. split; reflexivity.
Qed.

Lemma manufacturer_version_loop_result (items : dict) :
  (forall k v, In (k, v) items -> stored_shape false v = true) ->
  forall m v tr,
    none_or_lowercase m -> none_or_lowercase v ->
    (exists m' v', manufacturer_version_loop items m v tr = (Ok (m', v'), tr)
                   /\ none_or_lowercase m' /\ none_or_lowercase v')
    \/ (exists msg, manufacturer_version_loop items m v tr
                    = (Raise (AttributeError msg), tr)).
Proof.
  induction items as [|[key val] rest IH]; intros Hitems m v tr Hm Hv;
    cbn [manufacturer_version_loop].
  - left. exists m, v. repeat split; assumption.
  - assert (Hrest : forall k x, In (k, x) rest -> stored_shape false x = true)
      by (intros k x Hin; apply (Hitems k x); right; assumption).
    pose proof (Hitems key val (or_introl eq_refl)) as Hval.
    destruct (String.eqb (lower key) "manufacturer").
    + unfold io_bind.
      destruct (py_lower_stored val tr Hval) as [(s & -> & ->) | (msg & ->)].
      * apply IH; try assumption. right. exists (lower s).
        split; [reflexivity | apply lower_idempotent].
      * right. exists msg. reflexivity.
    + destruct (in_names (lower key) ["version"; "format version"]%string).
      * unfold io_bind.
        destruct (py_lower_stored val tr Hval) as [(s & -> & ->) | (msg & ->)].
        -- apply IH; try assumption. right. exists (lower s).
           split; [reflexivity | apply lower_idempotent].
        -- right. exists msg. reflexivity.
      * apply IH; assumption.
Qed.

Lemma get_manufacturer_version_result (file : list (string * node)) (tr : list io_event) :
  (exists m v, get_manufacturer_version file tr = (Ok (m, v), tr)
               /\ none_or_lowercase m /\ none_or_lowercase v)
  \/ (exists msg, get_manufacturer_version file tr = (Raise (AttributeError msg), tr)).
Proof.
  unfold get_manufacturer_version. apply manufacturer_version_loop_result.
  - intros k v Hin. apply (stored_values_shallow (root_group file) false None k v Hin).
  - left. reflexivity.
  - left. reflexivity.
Qed.

(** Reading manufacturer and version never warns or closes the file; it
    either fails with an [AttributeError] (a matching entry is not a str) or
    returns, for each of the two, [None] or a str in lower case. *)
Theorem manufacturer_and_version_are_lowercase
        (file : list (string * node)) (tr : list io_event) :
  (exists m v, get_manufacturer_version file tr = (Ok (m, v), tr)
               /\ none_or_lowercase m /\ none_or_lowercase v)
  \/ (exists msg, get_manufacturer_version file tr = (Raise (AttributeError msg), tr)).
Proof. apply get_manufacturer_version_result. Qed.

Lemma manufacturer_version_loop_keeps (items : dict) :
  (forall k v, In (k, v) items ->
               lower k <> "manufacturer"%string /\ stored_shape false v = true) ->
  forall m v tr,
    (exists v', manufacturer_version_loop items m v tr = (Ok (m, v'), tr))
    \/ (exists msg, manufacturer_version_loop items m v tr
                    = (Raise (AttributeError msg), tr)).
Proof.
  induction items as [|[key val] rest IH]; intros Hitems m v tr;
    cbn [manufacturer_version_loop].
  - left. exists v. reflexivity.
  - assert (Hrest : forall k x, In (k, x) rest ->
                                lower k <> "manufacturer"%string
                                /\ stored_shape false x = true)
      by (intros k x Hin; apply (Hitems k x); right; assumption).
    destruct (Hitems key val (or_introl eq_refl)) as [Hkey Hval].
    destruct (String.eqb_spec (lower key) "manufacturer"); [contradiction|].
    destruct (in_names (lower key) ["version"; "format version"]%string).
    + unfold io_bind.
      destruct (py_lower_stored val tr Hval) as [(s & -> & ->) | (msg & ->)].
      * apply IH. assumption.
      * right. exists msg. reflexivity.
    + apply IH. assumption.
Qed.

(** When no entry of the root group is named "manufacturer" (in any case),
    the validity check does not reach its [IOError]: it fails with an
    [AttributeError] from lowering [None], and so does the construction of
    the reader. *)
Theorem missing_manufacturer_raises_attribute_error
        (fname : string) (file : list (string * node)) (tr : list io_event) :
  (forall k v, In (k, v) (_hdf5group2dict (root_group file) None false None) ->
               lower k <> "manufacturer"%string) ->
  (forall scans m v,
      exists msg, check_file fname file scans m v tr = (Raise (AttributeError msg), tr))
  /\ exists msg, H5EBSDReader_init fname file tr = (Raise (AttributeError msg), tr).
Proof.
  intros Hkeys.
  assert (Hmv : (exists v', get_manufacturer_version file tr = (Ok (VNone, v'), tr))
                \/ (exists msg, get_manufacturer_version file tr
                                = (Raise (AttributeError msg), tr))).
  { unfold get_manufacturer_version. apply manufacturer_version_loop_keeps.
    intros k v Hin. split; [apply (Hkeys k v Hin)|].
    apply (stored_values_shallow (root_group file) false None k v Hin). }
  assert (Hcheck : forall scans m v,
             exists msg, check_file fname file scans m v tr
                         = (Raise (AttributeError msg), tr)).
  { intros scans m v. unfold check_file, io_bind.
    destruct Hmv as [(v' & ->) | (msg & ->)]; eexists; reflexivity. }
  split; [exact Hcheck|].
  unfold H5EBSDReader_init, io_bind.
  destruct Hmv as [(v' & Hmv) | (msg & Hmv)].
  - rewrite Hmv. cbn [fst snd].
    destruct (Hcheck (get_scan_groups file) VNone v') as (msg & ->).
    exists msg. reflexivity.
  - rewrite Hmv. exists msg. reflexivity.
Qed.

Lemma missing_manufacturer_raises_attribute_error_witness :
  exists msg,
    H5EBSDReader_init "patterns.h5" file_without_manufacturer []
    = (Raise (AttributeError msg), []).
Proof.
  apply (@missing_manufacturer_raises_attribute_error "patterns.h5"
           file_without_manufacturer []).
  intros k v [Heq | [Heq | []]]; inversion Heq; discriminate.
Defined.

Lemma in_patterns_find (s : string) :
  in_names s (map fst manufacturer_patterns) = true ->
  exists p, find (fun kv => String.eqb (fst kv) s) manufacturer_patterns = Some (s, p)
            /\ In (s, p) manufacturer_patterns.
Proof.
  intros Hin. apply in_names_iff in Hin. cbn [manufacturer_patterns map fst] in Hin.
  destruct Hin as [<- | [<- | [<- | [<- | []]]]]; eexists; (split; [reflexivity|]);
    cbn; tauto.
Qed.

Lemma reader_init_inversion
        (fname : string) (file : list (string * node)) (tr tr' : list io_event)
        (reader : H5EBSDReader) :
  H5EBSDReader_init fname file tr = (Ok reader, tr') ->
  tr' = tr
  /\ filename reader = fname
  /\ scan_groups reader = get_scan_groups file
  /\ (exists s, manufacturer reader = VStr s
                /\ In (s, patterns_name reader) manufacturer_patterns)
  /\ (exists s, version reader = VStr s)
  /\ exists g, In g (scan_groups reader)
               /\ has_ebsd_member "Data" g = true
               /\ has_ebsd_member "Header" g = true.
Proof.
  unfold H5EBSDReader_init, io_bind, check_file.
  destruct (get_manufacturer_version_result file tr)
    as [(m & v & Hmv & Hm & Hv) | (msg & Hmv)]; rewrite Hmv; [|discriminate].
  cbn [fst snd]. unfold io_bind. rewrite Hmv. cbn [fst].
  destruct Hm as [-> | (s & -> & Hs)]; [cbn; discriminate|].
  cbn [py_lower io_ret is_none orb]. rewrite Hs.
  destruct Hv as [-> | (t & -> & Ht)].
  - cbn [is_none].
    destruct (negb (existsb _ (get_scan_groups file)));
      destruct (not_supported (VStr s)); cbn; discriminate.
  - cbn [is_none].
    destruct (existsb (fun group => has_ebsd_member "Data" group
                                    && has_ebsd_member "Header" group)
                      (get_scan_groups file)) eqn:Hscan; cbn [negb];
      [|destruct (not_supported (VStr s)); cbn; discriminate].
    cbn [not_supported].
    destruct (in_names s (map fst manufacturer_patterns)) eqn:Hsup; cbn [negb];
      [|cbn; discriminate].
    cbn [io_ret patterns_lookup].
    destruct (in_patterns_find s Hsup) as (p & Hfind & Hin). rewrite Hfind.
    cbn [snd io_ret]. intros Heq. inversion Heq. subst. clear Heq.
    cbn [filename scan_groups manufacturer version patterns_name].
    repeat split; try reflexivity.
    + exists s. split; [reflexivity | assumption].
    + exists t. reflexivity.
    + apply existsb_exists in Hscan. destruct Hscan as (g & Hg & Hboth).
      apply andb_true_iff in Hboth. exists g. tauto.
Qed.

(** When the construction of a reader succeeds, nothing was warned or
    closed; the manufacturer is a str for which a patterns name is recorded
    (the lookup cannot raise a [KeyError]), the version is a str, and some
    top-level group holds both [EBSD/Data] and [EBSD/Header]. *)
Theorem reader_construction_postconditions
        (fname : string) (file : list (string * node)) (tr tr' : list io_event)
        (reader : H5EBSDReader) :
  H5EBSDReader_init fname file tr = (Ok reader, tr') ->
  tr' = tr
  /\ filename reader = fname
  /\ scan_groups reader = get_scan_groups file
  /\ (exists s, manufacturer reader = VStr s
                /\ In (s, patterns_name reader) manufacturer_patterns)
  /\ (exists s, version reader = VStr s)
  /\ exists g, In g (scan_groups reader)
               /\ has_ebsd_member "Data" g = true
               /\ has_ebsd_member "Header" g = true.
Proof. apply reader_init_inversion. Qed.

Lemma example_reader_constructed :
  H5EBSDReader_init "patterns.h5" example_file [] = (Ok example_reader, []).
Proof. reflexivity. Qed.

Lemma reader_construction_postconditions_witness :
  [] = @nil io_event
  /\ filename example_reader = "patterns.h5"%string
  /\ scan_groups example_reader = get_scan_groups example_file
  /\ (exists s, manufacturer example_reader = VStr s
                /\ In (s, patterns_name example_reader) manufacturer_patterns)
  /\ (exists s, version example_reader = VStr s)
  /\ exists g, In g (scan_groups example_reader)
               /\ has_ebsd_member "Data" g = true
               /\ has_ebsd_member "Header" g = true.
Proof.
  apply (@reader_construction_postconditions "patterns.h5" example_file [] []
           example_reader).
  reflexivity.
Defined.

(** A reader that was constructed successfully always has a first scan
    group: asking for the desired scan groups without a name returns it and
    cannot raise the [IndexError] of an empty list. *)
Theorem default_scan_exists_after_construction
        (fname : string) (file : list (string * node)) (tr tr' tr2 : list io_event)
        (reader : H5EBSDReader) :
  H5EBSDReader_init fname file tr = (Ok reader, tr') ->
  exists g rest,
    scan_groups reader = g :: rest
    /\ get_desired_scan_groups reader NamesNone tr2 = (Ok [g], tr2).
Proof.
  intros Hinit.
  destruct (reader_init_inversion _ _ _ Hinit) as (_ & _ & _ & _ & _ & g & Hg & _).
  cbn [get_desired_scan_groups].
  destruct (scan_groups reader) as [|g0 rest]; [destruct Hg|].
  exists g0, rest. split; reflexivity.
Qed.

Lemma default_scan_exists_after_construction_witness :
  exists g rest,
    scan_groups example_reader = g :: rest
    /\ get_desired_scan_groups example_reader NamesNone [] = (Ok [g], []).
Proof.
  apply (@default_scan_exists_after_construction "patterns.h5" example_file [] [] []
           example_reader).
  reflexivity.
Defined.

(** * Properties of [plot] *)

Lemma io_mapM_ok {A B} (f : A -> IO B) (g : A -> B) (l : list A) (tr : list io_event) :
  (forall a, In a l -> f a tr = (Ok (g a), tr)) ->
  io_mapM f l tr = (Ok (map g l), tr).
Proof.
  induction l as [|a l IH]; intros Hf; [reflexivity|].
  cbn [io_mapM map]. unfold io_bind at 1. rewrite (Hf a (or_introl eq_refl)).
  unfold io_bind at 1. rewrite IH; [reflexivity|].
  intros b Hb. apply Hf. right. assumption.
Qed.

Lemma Rmax_div (a b m : R) : 0 < m -> Rmax (a / m) (b / m) = Rmax a b / m.
Proof.
  intros Hm. assert (Hinv : 0 < / m) by (apply Rinv_0_lt_compat; assumption).
  unfold Rmax, Rdiv. destruct (Rle_dec a b), (Rle_dec (a * / m) (b * / m));
    try reflexivity; exfalso; nra.
Qed.

Lemma Rmin_div (a b m : R) : 0 < m -> Rmin (a / m) (b / m) = Rmin a b / m.
Proof.
  intros Hm. assert (Hinv : 0 < / m) by (apply Rinv_0_lt_compat; assumption).
  unfold Rmin, Rdiv. destruct (Rle_dec a b), (Rle_dec (a * / m) (b * / m));
    try reflexivity; exfalso; nra.
Qed.

Lemma array_max_div (x : R) (rest : list R) (m : R) :
  0 < m -> array_max (x / m) (map (fun y => y / m) rest) = array_max x rest / m.
Proof.
  intros Hm. unfold array_max. revert x.
  induction rest as [|y rest IH]; intros x; [reflexivity|].
  cbn [map fold_left]. rewrite (Rmax_div x y Hm). apply IH.
Qed.

Lemma array_min_div (x : R) (rest : list R) (m : R) :
  0 < m -> array_min (x / m) (map (fun y => y / m) rest) = array_min x rest / m.
Proof.
  intros Hm. unfold array_min. revert x.
  induction rest as [|y rest IH]; intros x; [reflexivity|].
  cbn [map fold_left]. rewrite (Rmin_div x y Hm). apply IH.
Qed.

Lemma array_max_upper (x : R) (rest : list R) :
  x <= array_max x rest /\ Forall (fun y => y <= array_max x rest) rest.
Proof.
  unfold array_max. revert x. induction rest as [|y rest IH]; intros x.
  - split; [cbn; lra | constructor].
  - cbn [fold_left]. destruct (IH (Rmax x y)) as [Hx Hrest].
    pose proof (Rmax_l x y). pose proof (Rmax_r x y).
    split; [lra|]. constructor; [lra | assumption].
Qed.

Lemma array_min_lower (x : R) (rest : list R) :
  array_min x rest <= x /\ Forall (fun y => array_min x rest <= y) rest.
Proof.
  unfold array_min. revert x. induction rest as [|y rest IH]; intros x.
  - split; [cbn; lra | constructor].
  - cbn [fold_left]. destruct (IH (Rmin x y)) as [Hx Hrest].
    pose proof (Rmin_l x y). pose proof (Rmin_r x y).
    split; [lra|]. constructor; [lra | assumption].
Qed.

Lemma array_min_nonneg (x : R) (rest : list R) :
  0 <= x -> Forall (fun y => 0 <= y) rest -> 0 <= array_min x rest.
Proof.
  unfold array_min. revert x. induction rest as [|y rest IH]; intros x Hx Hrest.
  - assumption.
  - inversion Hrest; subst. cbn [fold_left]. apply IH; [|assumption].
    unfold Rmin. destruct (Rle_dec x y); assumption.
Qed.

(** For moduli of structure factors that are not all zero, the grey value
    of a reflector is 1 + min/max - |F|/max: it decreases as |F| grows, is
    min/max for the strongest reflector and 1 for the weakest, and lies
    between the two for every reflector. *)
Theorem reflector_colors_reverse_strength (f : R) (rest : list R) (tr : list io_event) :
  Forall (fun x => 0 <= x) (f :: rest) ->
  0 < array_max f rest ->
  let fmax := array_max f rest in
  let fmin := array_min f rest in
  reflector_colors (f :: rest) tr
  = (Ok (map (fun x => 1 + fmin / fmax - x / fmax) (f :: rest)), tr)
  /\ Forall (fun x => fmin / fmax <= 1 + fmin / fmax - x / fmax <= 1) (f :: rest).
Proof.
  intros Hnonneg Hpos fmax fmin.
  assert (Hpos' : 0 < fmax) by exact Hpos.
  assert (Hinv : 0 < / fmax) by (apply Rinv_0_lt_compat; assumption).
  assert (Hone : fmax * / fmax = 1) by (apply Rinv_r, Rgt_not_eq; exact Hpos').
  destruct (array_max_upper f rest) as [Hup1 Hup2].
  destruct (array_min_lower f rest) as [Hlo1 Hlo2].
  inversion Hnonneg as [|? ? Hf Hrest]; subst.
  pose proof (array_min_nonneg Hf Hrest) as Hminpos.
  fold fmax in Hup1, Hup2. fold fmin in Hlo1, Hlo2, Hminpos.
  assert (Hbounds : Forall (fun x => fmin <= x <= fmax) (f :: rest)).
  { constructor; [lra|]. rewrite Forall_forall in *. intros y Hy.
    specialize (Hup2 y Hy). specialize (Hlo2 y Hy). cbv beta in *. lra. }
  split.
  - unfold reflector_colors. cbn [map].
    rewrite (array_min_div f rest Hpos), (array_max_div f rest Hpos).
    fold fmax. fold fmin. unfold io_ret. f_equal. f_equal.
    change (Rabs (f / fmax - fmin / fmax - fmax / fmax)
              :: map (fun x => Rabs (x - fmin / fmax - fmax / fmax))
                     (map (fun x => x / fmax) rest))
      with (map (fun x => Rabs (x - fmin / fmax - fmax / fmax))
                (map (fun x => x / fmax) (f :: rest))).
    rewrite map_map.
    change (1 + fmin / fmax - f / fmax
              :: map (fun x => 1 + fmin / fmax - x / fmax) rest)
      with (map (fun x => 1 + fmin / fmax - x / fmax) (f :: rest)).
    apply map_ext_in. intros x Hx.
    rewrite Forall_forall in Hbounds. specialize (Hbounds x Hx). cbv beta in Hbounds.
    replace (fmax / fmax) with 1 by (field; apply Rgt_not_eq; exact Hpos').
    assert (H1 : 0 <= (fmax - x) * / fmax) by (apply Rmult_le_pos; lra).
    assert (H2 : 0 <= fmin * / fmax) by (apply Rmult_le_pos; lra).
    rewrite Rabs_left1; unfold Rdiv; lra.
  - eapply Forall_impl; [|exact Hbounds]. intros x Hx. cbv beta in *.
    assert (H1 : 0 <= (fmax - x) * / fmax) by (apply Rmult_le_pos; lra).
    assert (H2 : 0 <= (x - fmin) * / fmax) by (apply Rmult_le_pos; lra).
    unfold Rdiv. split; lra.
Qed.

Lemma reflector_colors_reverse_strength_witness :
  reflector_colors [1; 2] []
  = (Ok (map (fun x => 1 + array_min 1 [2] / array_max 1 [2] - x / array_max 1 [2])
             [1; 2]), [])
  /\ Forall (fun x => array_min 1 [2] / array_max 1 [2]
                      <= 1 + array_min 1 [2] / array_max 1 [2] - x / array_max 1 [2]
                      <= 1) [1; 2].
Proof.
  apply (@reflector_colors_reverse_strength 1 [2] []).
  - repeat constructor; lra.
  - unfold array_max. cbn [fold_left]. unfold Rmax. destruct (Rle_dec 1 2); lra.
Defined.

(** A mode other than "lines" and "bands" is rejected with a [ValueError]
    whatever the other arguments, before the reflectors are looked at and
    before anything is drawn.  An unknown projection is rejected with a
    [ValueError] as well, with nothing drawn, but only after the colours of
    the reflectors have been computed. *)
Theorem plot_rejects_unknown_options
        (self : KikuchiPatternSimulator) (projection mode hemisphere : string)
        (figure : option Fig) (return_figure : bool) (backend : string)
        (tr : list io_event) :
  (mode <> "lines"%string -> mode <> "bands"%string ->
   plot self projection mode hemisphere figure return_figure backend tr
   = (Raise (ValueError "`mode` must be either of ['lines', 'bands']"), tr))
  /\ (attributes_present self ->
      mode = "lines"%string \/ mode = "bands"%string ->
      projection <> "stereographic"%string -> projection <> "spherical"%string ->
      plot self projection mode hemisphere figure return_figure backend tr
      = (Raise (ValueError
                  "Unknown `projection`, valid options are 'stereographic' and 'spherical'"),
         tr)).
Proof.
  split.
  - intros Hl Hb. unfold plot. cbn [in_names existsb].
    destruct (String.eqb_spec mode "lines"); [contradiction|].
    destruct (String.eqb_spec mode "bands"); [contradiction|]. reflexivity.
  - intros [Hne Hall] Hmode Hs Hp. unfold plot.
    assert (Hin : in_names mode ["lines"; "bands"]%string = true)
      by (apply in_names_iff; destruct Hmode as [-> | ->]; cbn; tauto).
    rewrite Hin. cbn [negb].
    destruct (vectors (_reflectors self)) as [|r rs] eqn:Hvec;
      [exfalso; apply Hne; exact Hvec|].
    unfold reflectors in Hall. rewrite Hvec in Hall.
    assert (Hguard :
              (if String.eqb mode "bands" then
                 match map theta (r :: rs) with
                 | [] => io_raise (IndexError "index 0 is out of bounds for axis 0 with size 0")
                 | None :: _ =>
                     io_raise (ValueError "Requires that reflectors have Bragg angles calculated with `self.reflectors.calculate_theta()`.")
                 | Some _ :: _ => io_ret tt
                 end
               else io_ret tt) tr = (Ok tt, tr)).
    { destruct (String.eqb mode "bands"); [|reflexivity]. cbn [map].
      inversion Hall as [|? ? [_ Ht] _]; subst.
      destruct (theta r); [reflexivity | congruence]. }
    unfold io_bind at 1. rewrite Hguard.
    unfold io_bind at 1.
    rewrite (io_mapM_ok io_abs_factor
               (fun o => match o with Some z => Cabs z | None => 0 end)).
    + unfold io_bind at 1. cbn [map reflector_colors io_ret].
      unfold io_bind at 1.
      destruct (String.eqb_spec projection "stereographic"); [contradiction|].
      destruct (String.eqb_spec projection "spherical"); [contradiction|].
      reflexivity.
    + intros o Ho. apply in_map_iff in Ho. destruct Ho as (x & <- & Hx).
      rewrite Forall_forall in Hall. destruct (Hall x Hx) as [Hf _].
      destruct (structure_factor x); [reflexivity | congruence].
Qed.

Lemma plot_rejects_unknown_options_witness :
  plot (simulator_of [reflector_100]) "stereographic" "points" "upper" None true
       "matplotlib" []
  = (Raise (ValueError "`mode` must be either of ['lines', 'bands']"), [])
  /\ plot (simulator_of [reflector_100]) "gnomonic" "bands" "upper" None true
          "matplotlib" []
     = (Raise (ValueError
                 "Unknown `projection`, valid options are 'stereographic' and 'spherical'"),
        []).
Proof.
  split.
  - apply (proj1 (@plot_rejects_unknown_options (simulator_of [reflector_100])
                    "stereographic" "points" "upper" None true "matplotlib" []));
      discriminate.
  - apply (proj2 (@plot_rejects_unknown_options (simulator_of [reflector_100])
                    "gnomonic" "bands" "upper" None true "matplotlib" [])).
    + exact attributes_present_single.
    + right. reflexivity.
    + discriminate.
    + discriminate.
Defined.
